(** * AeroWeatherInsights: weather gateway, flight simulator, persistence,
      collection run and prediction model, embedded from the Python sources

    - [utils/weather_service.py]  -> [Module WeatherService]
    - [utils/data_collection.py]  -> [Module DataCollector]
    - [utils/analysis.py]         -> [Module Analysis]
    - [utils/data_processor.py]   -> [Module DataProcessor]
    - [scheduler.py]              -> [Module Scheduler]

    Python floats are IEEE binary64 numbers: they are embedded as Rocq's
    primitive floats, which compute with the same rounding.  Exceptions are
    an explicit [result]; mutable objects (the service cache, the random
    generator, the SQLite table, the log) are threaded as state. *)

From Stdlib Require Import ZArith Uint63 Floats Ascii String.
From stdpp Require Import gmap strings list.

Set Warnings "-inexact-float,-register-all".
Local Open Scope Z_scope.

(** ** Python values and exceptions *)

Module Py.

(** The exception classes the sources can meet. *)
Inductive exn :=
| RequestException (what : string)   (* requests.exceptions.* *)
| KeyError (key : string)
| IndexError
| TypeError
| ValueError
| AttributeError
| UnboundLocalError (name : string)
| DatabaseError
| FileError                          (* FileNotFoundError, PermissionError *)
| UnpicklingError
| PlainException (msg : string).     (* raise Exception(msg) *)

Inductive result (A : Type) :=
| Ok (a : A)
| Raise (e : exn).
Arguments Ok {A} a.
Arguments Raise {A} e.

Definition rbind {A B} (r : result A) (k : A -> result B) : result B :=
  match r with Ok a => k a | Raise e => Raise e end.

(** A decoded JSON document, as [response.json()] returns it.  A JSON
    object is a Python dict; its items are kept in order.  Numbers are
    floats (a JSON integer is the float of the same value). *)
Inductive json :=
| JNull
| JBool (b : bool)
| JNum (f : float)
| JStr (s : string)
| JArr (items : list json)
| JObj (fields : list (string * json)).

Fixpoint assoc {A} (k : string) (l : list (string * A)) : option A :=
  match l with
  | [] => None
  | (k', v) :: l' => if String.eqb k k' then Some v else assoc k l'
  end.

(** [bool(v)]: None, False, zero, and empty strings and containers are false. *)
Definition truthy (v : json) : bool :=
  match v with
  | JNull => false
  | JBool b => b
  | JNum f => negb (PrimFloat.eqb f 0)
  | JStr s => negb (String.eqb s EmptyString)
  | JArr l => match l with [] => false | _ => true end
  | JObj l => match l with [] => false | _ => true end
  end.

(** [v[k]] with a string key. *)
Definition getitem (v : json) (k : string) : result json :=
  match v with
  | JObj fields =>
      match assoc k fields with Some x => Ok x | None => Raise (KeyError k) end
  | _ => Raise TypeError
  end.

(** [v[0]]. *)
Definition getfirst (v : json) : result json :=
  match v with
  | JArr (x :: _) => Ok x
  | JArr [] => Raise IndexError
  | JStr (String c _) => Ok (JStr (String c EmptyString))
  | JStr EmptyString => Raise IndexError
  | JObj _ => Raise (KeyError "0")
  | _ => Raise TypeError
  end.

(** [v.get(k, default)]: only a dict has [get]. *)
Definition dict_get (v : json) (k : string) (default : json) : result json :=
  match v with
  | JObj fields => Ok (match assoc k fields with Some x => x | None => default end)
  | _ => Raise AttributeError
  end.

(** A value that takes part in arithmetic and comparisons as a number:
    a float, or a bool counting as 1 or 0. *)
Definition as_number (v : json) : option float :=
  match v with
  | JNum f => Some f
  | JBool true => Some 1%float
  | JBool false => Some 0%float
  | _ => None
  end.

(** [max(0, x)]: the first argument stays unless [x > 0]. *)
Definition max0 (x : float) : float :=
  if PrimFloat.ltb 0 x then x else 0%float.

(** The pandas notion of "the same cell" for floats: equal numbers, or
    both missing (NaN). *)
Definition float_same (a b : float) : bool :=
  PrimFloat.eqb a b || (PrimFloat.is_nan a && PrimFloat.is_nan b).

(** An int as a float (small non-negative ints only are met). *)
Definition float_of_Z (z : Z) : float := PrimFloat.of_uint63 (Uint63.of_Z z).

(** A str is the bytes of its UTF-8 text.  It is ASCII text when every
    byte is below 128. *)
Fixpoint is_ascii (s : string) : bool :=
  match s with
  | EmptyString => true
  | String c s' => (nat_of_ascii c <? 128)%nat && is_ascii s'
  end.

(** Upper case of the ASCII letters, which is what [str.upper] does on
    ASCII text. *)
Definition upper_ascii (c : ascii) : ascii :=
  let n := nat_of_ascii c in
  if ((97 <=? n) && (n <=? 122))%nat then ascii_of_nat (n - 32) else c.

Fixpoint upper_letters (s : string) : string :=
  match s with
  | EmptyString => EmptyString
  | String c s' => String (upper_ascii c) (upper_letters s')
  end.

(** [needle in hay] on strings. *)
Fixpoint contains (needle hay : string) : bool :=
  String.prefix needle hay ||
  match hay with
  | EmptyString => false
  | String _ hay' => contains needle hay'
  end.

End Py.
Export Py.

(** ** Calendar days

    A [datetime.date] is its proleptic Gregorian ordinal ([date.toordinal()],
    day 1 is 0001-01-01); a [datetime] or [pd.Timestamp] is a count of
    microseconds from the start of day 0. *)

Module Dates.

Definition date := Z.
Definition datetime := Z.

Definition us_per_day : Z := 86400000000.

Definition toordinal (y m d : Z) : date :=
  let y' := if m <=? 2 then y - 1 else y in
  let era := y' / 400 in
  let yoe := y' - era * 400 in
  let mp := (m + 9) mod 12 in
  let doy := (153 * mp + 2) / 5 + d - 1 in
  let doe := yoe * 365 + yoe / 4 - yoe / 100 + doy in
  era * 146097 + doe - 305.

Definition civil (o : date) : Z * Z * Z :=
  let z := o + 305 in
  let era := z / 146097 in
  let doe := z - era * 146097 in
  let yoe := (doe - doe / 1460 + doe / 36524 - doe / 146096) / 365 in
  let doy := doe - (365 * yoe + yoe / 4 - yoe / 100) in
  let mp := (5 * doy + 2) / 153 in
  let d := doy - (153 * mp + 2) / 5 + 1 in
  let m := if mp <? 10 then mp + 3 else mp - 9 in
  let y := yoe + era * 400 in
  (if m <=? 2 then y + 1 else y, m, d).

Definition month (o : date) : Z := snd (fst (civil o)).

(** [Timestamp.dayofweek]: Monday is 0. *)
Definition dayofweek (o : date) : Z := (o + 6) mod 7.

Definition digit (n : Z) : string :=
  String (ascii_of_nat (48 + Z.to_nat (n mod 10))) EmptyString.

Definition pad2 (n : Z) : string := digit (n / 10) +:+ digit n.
Definition pad4 (n : Z) : string := pad2 (n / 100) +:+ pad2 n.

(** [date.isoformat()], also [str(date)]: YYYY-MM-DD. *)
Definition isoformat (o : date) : string :=
  let '(y, m, d) := civil o in
  pad4 y +:+ "-" +:+ pad2 m +:+ "-" +:+ pad2 d.

(** [datetime.date()] and [pd.Timestamp(date)]. *)
Definition date_of (t : datetime) : date := t / us_per_day.
Definition midnight (d : date) : datetime := d * us_per_day.

Definition minutes (n : Z) : Z := n * 60000000.

End Dates.

(** ** The outside world

    What the program reads from outside is a function of how many times it
    asked before: the answer to the n-th HTTP request, the n-th reading of the
    clock, the n-th draw of the random generator. *)

Module World.

Record Response := {
  status_code : Z;
  body : option json            (* None: the body is not JSON *)
}.

(** The distributions numpy is asked to sample. *)
Inductive dist :=
| Poisson (lam : float)
| Normal (mu sigma : float)
| Beta (a b : float)
| Uniform (lo hi : float)
| Randint (lo hi : Z).

Record Env := {
  http : nat -> string -> option Response;   (* None: the request itself fails *)
  clock : nat -> Dates.datetime;             (* datetime.now() *)
  sample : nat -> dist -> float;             (* np.random.normal, beta, uniform *)
  sample_int : nat -> dist -> Z;             (* np.random.poisson, randint *)
  float_of_str : string -> option float;     (* float(s) on a str; None: ValueError *)
  str_of : json -> string;                   (* str(v) on a value that is not a str *)
  str_upper : string -> string               (* s.upper() on text that is not ASCII *)
}.

End World.
Export World.

(** ** utils/weather_service.py *)

Module WeatherService.

Record WeatherSnapshot := {
  temperature : float;
  feels_like : float;
  humidity : json;            (* passed through from the observation *)
  pressure : float;
  wind_speed : float;
  wind_direction : json;      (* passed through *)
  visibility : float;
  cloud_coverage : Z;
  weather_condition : string;
  precipitation : json;       (* passed through *)
  timestamp : Dates.datetime
}.

Record CacheEntry := {
  data : WeatherSnapshot;
  stamp : Dates.datetime      (* the entry's 'timestamp' *)
}.

(** The [WeatherService] object, with what it has asked of the world. *)
Record Service := {
  cache : gmap string CacheEntry;
  default_stamp : Dates.datetime;   (* datetime.now() read by __init__ *)
  requests : list string;           (* the URLs given to requests.get, oldest first *)
  ticks : nat                       (* readings of the clock so far *)
}.

Definition base_url : string := "https://api.weather.gov".
Definition cache_duration : Z := Dates.minutes 30.

(** [self.default_weather] *)
Definition default_weather (s : Service) : WeatherSnapshot := {|
  temperature := 68.0;
  feels_like := 65.0;
  humidity := JNum 50;
  pressure := 1013.25;
  wind_speed := 0;
  wind_direction := JNum 0;
  visibility := 10;
  cloud_coverage := 0;
  weather_condition := "Clear";
  precipitation := JNum 0;
  timestamp := default_stamp s
|}.

(** Coordinates of an airport, each as the text an f-string prints for it. *)
Record Coordinates := { lat : string; lon : string }.

Definition AIRPORT_COORDINATES : list (string * Coordinates) :=
  [ ("SEA", {| lat := "47.4484"; lon := "-122.379" |});
    ("LAX", {| lat := "33.9416"; lon := "-118.4085" |});
    ("LGA", {| lat := "40.7766"; lon := "-73.8742" |});
    ("DFW", {| lat := "32.8998"; lon := "-97.0403" |});
    ("MIA", {| lat := "25.7959"; lon := "-80.287" |}) ]%string.

(** [f"{self.base_url}/points/{lat},{lon}"] *)
Definition points_url (airport_data : Coordinates) : string :=
  base_url +:+ "/points/" +:+ lat airport_data +:+ "," +:+ lon airport_data.

(** Computations on the service that may raise: the state reached is kept
    when they do. *)
Definition M (A : Type) : Type := Service -> result A * Service.

Definition ret {A} (a : A) : M A := fun s => (Ok a, s).
Definition throw {A} (e : exn) : M A := fun s => (Raise e, s).
Definition bind {A B} (m : M A) (k : A -> M B) : M B :=
  fun s => match m s with
           | (Ok a, s') => k a s'
           | (Raise e, s') => (Raise e, s')
           end.
Definition lift {A} (r : result A) : M A := fun s => (r, s).

Notation "'let*' x ':=' c 'in' k" := (bind c (fun x => k))
  (at level 10, x name, c at level 100, k at level 200).

Section WithEnv.

Variable env : Env.

(** [datetime.now()] *)
Definition now : M Dates.datetime :=
  fun s => (Ok (clock env (ticks s)),
            {| cache := cache s; default_stamp := default_stamp s;
               requests := requests s; ticks := S (ticks s) |}).

(** [WeatherService()] *)
Definition init : Service :=
  {| cache := ∅; default_stamp := clock env 0; requests := []; ticks := 1 |}.

(** [s.upper()]: on ASCII text the letters a to z become A to Z; on
    other text it is what Python's Unicode tables give. *)
Definition upper (s : string) : string :=
  if is_ascii s then upper_letters s else str_upper env s.

(** The text of a value inside an f-string or handed to requests as a URL. *)
Definition text_of (v : json) : string :=
  match v with JStr s => s | _ => str_of env v end.

(** [requests.get(url, headers=...)]: a failing request raises a
    [RequestException] (no connection, timeout, unusable URL). *)
Definition requests_get (url : string) : M Response :=
  fun s =>
    (match http env (length (requests s)) url with
     | Some r => Ok r
     | None => Raise (RequestException "request failed")
     end,
     {| cache := cache s; default_stamp := default_stamp s;
        requests := requests s ++ [url]; ticks := ticks s |}).

(** [response.raise_for_status()] *)
Definition raise_for_status (r : Response) : M unit :=
  if (400 <=? status_code r) && (status_code r <? 600)
  then throw (RequestException "http error")
  else ret tt.

(** [response.json()] *)
Definition response_json (r : Response) : M json :=
  match body r with
  | Some j => ret j
  | None => throw (RequestException "body is not JSON")
  end.

(** [float(v)] *)
Definition py_float (v : json) : result float :=
  match v with
  | JNum f => Ok f
  | JBool true => Ok 1%float
  | JBool false => Ok 0%float
  | JStr s => match float_of_str env s with
              | Some f => Ok f
              | None => Raise ValueError
              end
  | _ => Raise TypeError
  end.

Definition _celsius_to_fahrenheit (celsius_value : json) : float :=
  match celsius_value with
  | JNull => 68.0
  | v => match py_float v with
         | Ok c => (c * 9 / 5) + 32
         | Raise _ => 68.0        (* except (ValueError, TypeError) *)
         end
  end%float.

Definition _ms_to_mph (ms_value : json) : float :=
  match ms_value with
  | JNull => 0.0
  | v => match py_float v with
         | Ok x => x * 2.237
         | Raise _ => 0.0
         end
  end%float.

Definition _m_to_miles (meters_value : json) : float :=
  match meters_value with
  | JNull => 10.0
  | v => match py_float v with
         | Ok x => x * 0.000621371
         | Raise _ => 10.0
         end
  end%float.

Definition condition_mapping : list (string * string) :=
  [ ("CLEAR", "Clear"); ("SUNNY", "Clear"); ("FAIR", "Clear");
    ("MOSTLY CLEAR", "Clear"); ("PARTLY CLOUDY", "Clouds");
    ("MOSTLY CLOUDY", "Clouds"); ("CLOUDY", "Clouds"); ("OVERCAST", "Clouds");
    ("RAIN", "Rain"); ("LIGHT RAIN", "Rain"); ("HEAVY RAIN", "Rain");
    ("DRIZZLE", "Rain"); ("SHOWERS", "Rain"); ("SNOW", "Snow");
    ("LIGHT SNOW", "Snow"); ("HEAVY SNOW", "Snow"); ("SNOW SHOWERS", "Snow");
    ("FOG", "Fog"); ("MIST", "Fog"); ("HAZE", "Fog");
    ("THUNDERSTORM", "Thunderstorm"); ("THUNDERSTORMS", "Thunderstorm");
    ("T-STORM", "Thunderstorm") ]%string.

Fixpoint first_match (table : list (string * string)) (description_upper : string)
  : option string :=
  match table with
  | [] => None
  | (key, value) :: rest =>
      if contains key description_upper then Some value
      else first_match rest description_upper
  end.

Definition _map_weather_condition (noaa_description : json) : string :=
  if negb (truthy noaa_description) then "Clear"%string
  else
    let description_upper := upper (text_of noaa_description) in
    match first_match condition_mapping description_upper with
    | Some value => value
    | None => "Clear"%string
    end.

Definition coverage_values : list (string * Z) :=
  [ ("CLR", 0); ("FEW", 25); ("SCT", 50); ("BKN", 75); ("OVC", 100); ("VV", 100) ]%string.

(** One turn of the loop over the layers; [amount] must be a str to have [upper]. *)
Definition layer_coverage (layer : json) : result Z :=
  rbind (dict_get layer "amount" (JStr "CLR")) (fun amount =>
    match amount with
    | JStr a => Ok (default 0 (assoc (upper a) coverage_values))
    | _ => Raise AttributeError
    end).

Fixpoint max_over_layers (max_coverage : Z) (layers : list json) : result Z :=
  match layers with
  | [] => Ok max_coverage
  | layer :: rest =>
      rbind (layer_coverage layer) (fun coverage =>
        max_over_layers (Z.max max_coverage coverage) rest)
  end.

(** Any exception inside gives 0 for the whole list.  A value that is not a
    list is either empty (0), or not iterable, or iterates over strings,
    which have no [get]: 0 again. *)
Definition _parse_cloud_coverage (cloud_layers : json) : Z :=
  match cloud_layers with
  | JArr layers =>
      match max_over_layers 0 layers with
      | Ok m => m
      | Raise _ => 0
      end
  | _ => 0
  end.

(** [properties.get(key, {}).get('value', dflt)] *)
Definition value_of (properties : json) (key : string) (dflt : json) : result json :=
  rbind (dict_get properties key (JObj [])) (fun d => dict_get d "value" dflt).

(** The dict literal of [weather_data]: the fields are evaluated in this
    order and the first exception leaves the literal; the timestamp is
    read last, so the result still waits for it. *)
Definition process_observation (properties : json)
  : result (Dates.datetime -> WeatherSnapshot) :=
  rbind (value_of properties "temperature" JNull) (fun temp_value =>
  rbind (value_of properties "windChill" JNull) (fun wind_chill =>
  rbind (match wind_chill with
         | JNull => value_of properties "heatIndex" JNull
         | v => Ok v
         end) (fun feels_like_value =>
  rbind (value_of properties "relativeHumidity" (JNum 50)) (fun hum =>
  rbind (value_of properties "barometricPressure" (JNum 101325)) (fun baro =>
  rbind (match as_number baro with
         | Some p => Ok (p / 100)%float
         | None => Raise TypeError
         end) (fun press =>
  rbind (value_of properties "windSpeed" (JNum 0)) (fun wspeed =>
  rbind (value_of properties "windDirection" (JNum 0)) (fun wdir =>
  rbind (value_of properties "visibility" (JNum 10000)) (fun vis =>
  rbind (dict_get properties "layers" (JArr [])) (fun layers =>
  rbind (dict_get properties "textDescription" (JStr "Clear")) (fun descr =>
  rbind (value_of properties "precipitationLastHour" (JNum 0)) (fun precip =>
  Ok (fun stamp =>
     {| temperature := _celsius_to_fahrenheit temp_value;
        feels_like := _celsius_to_fahrenheit feels_like_value;
        humidity := hum;
        pressure := press;
        wind_speed := _ms_to_mph wspeed;
        wind_direction := wdir;
        visibility := _m_to_miles vis;
        cloud_coverage := _parse_cloud_coverage layers;
        weather_condition := _map_weather_condition descr;
        precipitation := precip;
        timestamp := stamp |}))))))))))))).

Definition cache_key (airport_code : string) (target : Dates.datetime) : string :=
  airport_code +:+ "_" +:+ Dates.isoformat (Dates.date_of target).

(** The cache check of [get_weather]: [Some data] when it returns from
    the cache. *)
Definition cache_lookup (key : string) : M (option WeatherSnapshot) :=
  fun s =>
    match cache s !! key with
    | Some cache_entry =>
        (let* t := now in
         if t - stamp cache_entry <? cache_duration
         then ret (Some (data cache_entry))
         else ret None) s
    | None => (Ok None, s)
    end.

(** [self.cache[airport_code] = {'data': ..., 'timestamp': ...}] *)
Definition cache_store (airport_code : string) (weather_data : WeatherSnapshot)
  : M unit :=
  let* t := now in
  fun s => (Ok tt,
            {| cache := <[airport_code := {| data := weather_data; stamp := t |}]> (cache s);
               default_stamp := default_stamp s;
               requests := requests s; ticks := ticks s |}).

(** The three requests: point, stations of the point, latest observation
    of the first station. *)
Definition fetch_properties (airport_data : Coordinates) : M json :=
  let* response := requests_get (points_url airport_data) in
  let* _ := raise_for_status response in
  let* points_data := response_json response in
  let* props := lift (getitem points_data "properties") in
  let* observation_url := lift (getitem props "observationStations") in
  let* stations_response := requests_get (text_of observation_url) in
  let* _ := raise_for_status stations_response in
  let* stations := response_json stations_response in
  let* features := lift (getitem stations "features") in
  let* first_station := lift (getfirst features) in
  let* station_url := lift (getitem first_station "id") in
  let* observation_response :=
    requests_get (text_of station_url +:+ "/observations/latest") in
  let* _ := raise_for_status observation_response in
  let* current_data := response_json observation_response in
  lift (getitem current_data "properties").

(** The body of the outer [try] of [get_weather]. *)
Definition get_weather_try (airport_code : string) (airport_data : Coordinates)
    (target_date : option Dates.datetime) : M WeatherSnapshot :=
  let* target := match target_date with
                 | Some t => ret t
                 | None => now
                 end in
  let* cached := cache_lookup (cache_key airport_code target) in
  match cached with
  | Some snapshot => ret snapshot
  | None =>
      let* properties := fetch_properties airport_data in
      (* inner try *)
      match process_observation properties with
      | Ok fields =>
          let* t := now in
          let weather_data := fields t in
          let* _ := cache_store airport_code weather_data in
          ret weather_data
      | Raise _ => fun s => (Ok (default_weather s), s)
      end
  end.

(** [get_weather]: the two handlers of the outer [try] return the default
    snapshot. *)
Definition get_weather (airport_code : string) (airport_data : Coordinates)
    (target_date : option Dates.datetime) : M WeatherSnapshot :=
  fun s =>
    match get_weather_try airport_code airport_data target_date s with
    | (Ok snapshot, s') => (Ok snapshot, s')
    | (Raise (RequestException _), s') => (Ok (default_weather s'), s')
    | (Raise _, s') => (Ok (default_weather s'), s')
    end.

(** [get_bulk_weather]: the loop over the airports, an airport whose fetch
    raises getting the default snapshot. *)
Fixpoint get_bulk_weather (airports : list (string * Coordinates))
    (target_date : option Dates.datetime) (weather_data : gmap string WeatherSnapshot)
    (s : Service) : gmap string WeatherSnapshot * Service :=
  match airports with
  | [] => (weather_data, s)
  | (code, data) :: rest =>
      let '(fetched, s') := get_weather code data target_date s in
      let weather := match fetched with
                     | Ok weather => weather
                     | Raise _ => default_weather s'
                     end in
      get_bulk_weather rest target_date (<[code := weather]> weather_data) s'
  end.

End WithEnv.

End WeatherService.

(** ** utils/data_collection.py *)

Module DataCollector.

Import WeatherService.

(** A row of the DataFrame of flights, and of the table [flight_data]
    (whose own columns [id] and [collection_timestamp] are left out).  The
    columns that a snapshot has too carry an [f_].  A float cell is missing
    when it is NaN; [None] is a missing cell of another type. *)
Record FlightRecord := {
  date : Dates.date;
  airline : string;
  origin : string;
  destination : string;
  f_temperature : float;
  f_precipitation : float;
  f_weather_condition : option string;
  f_wind_speed : float;
  f_wind_direction : json;
  f_visibility : float;
  f_cloud_coverage : Z;
  f_humidity : json;
  f_pressure : float;
  delay_minutes : float;
  weather_delay : option bool
}.

Definition DataFrame := list FlightRecord.

(** What the collector writes to its log, as far as it tells the course
    of a run. *)
Inductive event :=
| Reinitializing                              (* "Force flag is True, reinitializing database..." *)
| ProcessingDate (d : Dates.date)             (* "Processing data for date: ..." *)
| DayFailed (d : Dates.date) (e : exn)        (* "Error processing data for ..." *)
| NoDataCollected                             (* "No data was collected for any date" *)
| Stored (n : nat)                            (* "Stored n records in the database" *)
| CollectionCompleted                         (* "Data collection and storage completed successfully" *)
| CollectionFailed (e : exn)                  (* "Error in data collection process: ..." *)
| InitializationFailed (e : exn).             (* "Error initializing historical data: ..." *)

(** The collector with the singletons it uses: the weather service, numpy's
    generator (how many draws were made), the table [flight_data] ([None]:
    the table does not exist) and the log. *)
Record State := {
  service : Service;
  rng : nat;
  db : option (list FlightRecord);
  log : list event
}.

(** Computations that draw random numbers and may raise. *)
Definition R (A : Type) : Type := nat -> result A * nat.

Definition rret {A} (a : A) : R A := fun n => (Ok a, n).
Definition rthrow {A} (e : exn) : R A := fun n => (Raise e, n).
Definition rbindR {A B} (m : R A) (k : A -> R B) : R B :=
  fun n => match m n with
           | (Ok a, n') => k a n'
           | (Raise e, n') => (Raise e, n')
           end.
(** [try: m except Exception: pass], keeping what happened *)
Definition attempt {A} (m : R A) : R (result A) :=
  fun n => let '(r, n') := m n in (Ok r, n').

Notation "'draw*' x ':=' c 'in' k" := (rbindR c (fun x => k))
  (at level 10, x name, c at level 100, k at level 200).

(** What follows rows that were appended: the names that a turn of the
    loops assigns are local to the whole function, so once a row has been
    appended they are bound, and a later turn that would fail on a name
    without value (UnboundLocalError) goes on to the sum with the old value
    and fails there (TypeError). *)
Definition bound_after {A B} (rows : list B) (m : R A) : R A :=
  fun n => match rows, m n with
           | _ :: _, (Raise (UnboundLocalError _), n') => (Raise TypeError, n')
           | _, outcome => outcome
           end.

(** The body of a [for] loop run on each element, the rows it appends
    collected in order. *)
Fixpoint for_each {A B} (l : list A) (body : A -> R (list B)) : R (list B) :=
  match l with
  | [] => rret []
  | a :: l' =>
      draw* rows := body a in
      draw* rows' := bound_after rows (for_each l' body) in
      rret (rows ++ rows')
  end.

(** [for _ in range(n)] *)
Fixpoint repeat_times {B} (n : nat) (body : R B) : R (list B) :=
  match n with
  | O => rret []
  | S n' =>
      draw* row := body in
      draw* rows := bound_after [row] (repeat_times n' body) in
      rret (row :: rows)
  end.

Definition airlines : list string :=
  [ "Delta"; "United"; "American"; "Southwest"; "JetBlue" ]%string.

Definition delay_params : list (string * (float * float)) :=
  [ ("Delta", (15, 10)); ("United", (20, 5)); ("American", (10, 14));
    ("Southwest", (12, 8)); ("JetBlue", (30, 7)) ]%string%float.

Definition airport_params : list (string * (float * float)) :=
  [ ("SEA", (30, 10)); ("LAX", (15, 3.75)); ("LGA", (10, 4));
    ("DFW", (15, 8)); ("MIA", (12, 6)) ]%string%float.

Section WithEnv.

Variable env : Env.

Definition draw (d : dist) : R float := fun n => (Ok (sample env n d), S n).
Definition draw_int (d : dist) : R Z := fun n => (Ok (sample_int env n d), S n).

(** [weather.get(field, fallback)]: [weather] is the snapshot of the
    origin, or the empty dict. *)
Definition field_or {A} (weather : option WeatherSnapshot)
    (field : WeatherSnapshot -> A) (fallback : A) : A :=
  match weather with Some w => field w | None => fallback end.

(** The [try] block that simulates a delay: the precipitation as a
    number (a JSON true counts as 1, as in Python's arithmetic), [alpha]
    and [airline_factor]. *)
Definition simulate_delay (airline : string) (temp : float) (precip : json)
  : R (float * float * float) :=
  let precip := if negb (truthy precip) then JNum 0.0 else precip in
  match as_number precip with
  | None => rthrow TypeError                   (* precip >= .3 *)
  | Some p =>
      draw* alpha :=
        (if PrimFloat.leb 0.3 p then
           draw* rain := draw (Normal 10 3) in
           if PrimFloat.leb temp 32 then draw (Normal 25 5) else rret rain
         else rret 0%float) in
      match assoc airline delay_params with
      | None => rthrow (KeyError airline)
      | Some (mu, sigma) =>
          draw* airline_factor := draw (Normal mu sigma) in
          rret (p, alpha, airline_factor)
      end
  end.

(** One turn of the innermost loop: one flight. *)
Definition one_flight (weather : option WeatherSnapshot) (target_date : Dates.date)
    (airline origin dest : string) : R FlightRecord :=
  (* the fallbacks are drawn whether they are used or not *)
  draw* r_temp := draw (Normal 50 15) in
  draw* r_precip := draw (Beta 2 5) in
  draw* r_wind := draw (Uniform 0 20) in
  draw* r_dir := draw_int (Randint 0 360) in
  draw* r_vis := draw (Uniform 5 15) in
  draw* r_cloud := draw_int (Randint 0 100) in
  draw* r_hum := draw_int (Randint 30 90) in
  draw* r_press := draw (Normal 1013 5) in
  let temp := field_or weather temperature r_temp in
  let precip := field_or weather precipitation (JNum r_precip) in
  draw* simulated := attempt (simulate_delay airline temp precip) in
  match assoc origin airport_params with
  | None => rthrow (KeyError origin)
  | Some (mu, sigma) =>
      draw* airport_factor := draw (Normal mu sigma) in
      match simulated with
      | Raise _ =>
          (* logged; the sum below then starts with airline_factor, which
             has no value unless an earlier flight gave it one (see
             [bound_after]) *)
          rthrow (UnboundLocalError "airline_factor")
      | Ok (p, alpha, airline_factor) =>
          let temp_factor := ((100 - temp) * 0.01)%float in
          let base_delay :=
            (0.5 * airline_factor + 0.5 * airport_factor + p * 20
             + temp_factor + alpha)%float in
          let delay := max0 base_delay in
          rret {| date := target_date;
                  airline := airline;
                  origin := origin;
                  destination := dest;
                  f_temperature := temp;
                  f_precipitation := p;
                  f_weather_condition :=
                    Some (field_or weather weather_condition "Clear"%string);
                  f_wind_speed := field_or weather wind_speed r_wind;
                  f_wind_direction :=
                    field_or weather wind_direction (JNum (float_of_Z r_dir));
                  f_visibility := field_or weather visibility r_vis;
                  f_cloud_coverage := field_or weather cloud_coverage r_cloud;
                  f_humidity := field_or weather humidity (JNum (float_of_Z r_hum));
                  f_pressure := field_or weather pressure r_press;
                  delay_minutes := delay;
                  weather_delay := Some (PrimFloat.ltb 30 delay) |}
      end
  end.

Definition _generate_flight_data (weather_data : gmap string WeatherSnapshot)
    (target_date : Dates.date) : R DataFrame :=
  for_each airlines (fun airline =>
    for_each AIRPORT_COORDINATES (fun '(origin, _) =>
      for_each AIRPORT_COORDINATES (fun '(dest, _) =>
        if negb (String.eqb origin dest) then
          let weather := weather_data !! origin in
          draw* num_flights := draw_int (Poisson 5) in
          repeat_times (Z.to_nat num_flights)
            (one_flight weather target_date airline origin dest)
        else rret []))).

End WithEnv.

(** *** Cleaning *)

(** A cell of an object column can be hashed unless it is a list or a dict. *)
Definition hashable (v : json) : bool :=
  match v with JArr _ | JObj _ => false | _ => true end.

(** Two hashable cells of an object column are the same cell. *)
Definition cell_same (a b : json) : bool :=
  match as_number a, as_number b with
  | Some x, Some y => float_same x y
  | None, None =>
      match a, b with
      | JNull, JNull => true
      | JStr s, JStr t => String.eqb s t
      | _, _ => false
      end
  | _, _ => false
  end.

Definition option_same {A} (same : A -> A -> bool) (a b : option A) : bool :=
  match a, b with
  | Some x, Some y => same x y
  | None, None => true
  | _, _ => false
  end.

(** Two rows are exact duplicates: every column holds the same cell. *)
Definition same_row (a b : FlightRecord) : bool :=
  (date a =? date b)
  && String.eqb (airline a) (airline b)
  && String.eqb (origin a) (origin b)
  && String.eqb (destination a) (destination b)
  && float_same (f_temperature a) (f_temperature b)
  && float_same (f_precipitation a) (f_precipitation b)
  && option_same String.eqb (f_weather_condition a) (f_weather_condition b)
  && float_same (f_wind_speed a) (f_wind_speed b)
  && cell_same (f_wind_direction a) (f_wind_direction b)
  && float_same (f_visibility a) (f_visibility b)
  && (f_cloud_coverage a =? f_cloud_coverage b)
  && cell_same (f_humidity a) (f_humidity b)
  && float_same (f_pressure a) (f_pressure b)
  && float_same (delay_minutes a) (delay_minutes b)
  && option_same Bool.eqb (weather_delay a) (weather_delay b).

(** [keep='first']: a row goes when a row before it, kept or not, is the
    same. *)
Fixpoint drop_from (seen : list FlightRecord) (df : DataFrame) : DataFrame :=
  match df with
  | [] => []
  | r :: df' =>
      if existsb (same_row r) seen then drop_from seen df'
      else r :: drop_from (r :: seen) df'
  end.

(** [df.drop_duplicates()]: hashing a list or a dict raises. *)
Definition drop_duplicates (df : DataFrame) : result DataFrame :=
  if forallb (fun r => hashable (f_wind_direction r) && hashable (f_humidity r)) df
  then Ok (drop_from [] df)
  else Raise TypeError.

(** The loop of numpy's pairwise sum over the groups of eight that follow
    the first eight values: each of the eight accumulators takes its value
    of the group. *)
Fixpoint add_groups (groups : nat) (r l : list float) : list float * list float :=
  match groups with
  | O => (r, l)
  | S groups' =>
      add_groups groups' (map (fun '(x, y) => (x + y)%float) (combine r (firstn 8 l)))
        (skipn 8 l)
  end.

(** numpy's [pairwise_sum], which [np.add.reduce] runs on a float array:
    fewer than 8 values are added from the left; up to 128 values are added
    into eight accumulators, which are then added as a tree, the values after
    the last full group of eight following one by one; more values are
    split in two near the middle, at a multiple of 8. *)
Fixpoint pairwise_sum (fuel : nat) (l : list float) : float :=
  let n := length l in
  if (n <? 8)%nat then fold_left PrimFloat.add l 0%float
  else if (n <=? 128)%nat then
    let '(r, rest) := add_groups (n / 8 - 1) (firstn 8 l) (skipn 8 l) in
    let res :=
      match r with
      | [r0; r1; r2; r3; r4; r5; r6; r7] =>
          (((r0 + r1) + (r2 + r3)) + ((r4 + r5) + (r6 + r7)))%float
      | _ => PrimFloat.nan
      end in
    fold_left PrimFloat.add rest res
  else
    match fuel with
    | O => PrimFloat.nan
    | S fuel' =>
        let n2 := (n / 2)%nat in
        let n2 := (n2 - n2 mod 8)%nat in
        (pairwise_sum fuel' (firstn n2 l) + pairwise_sum fuel' (skipn n2 l))%float
    end.

(** [Series.mean()] ([nanops.nanmean]): the missing cells count as 0 in
    the sum, which starts from 0, and not in the count; NaN when no cell is
    present. *)
Definition mean (xs : list float) : float :=
  let values := map (fun x => if PrimFloat.is_nan x then 0%float else x) xs in
  let count := length (List.filter (fun x => negb (PrimFloat.is_nan x)) xs) in
  let the_sum := (0 + pairwise_sum (length values) values)%float in
  if (count =? 0)%nat then PrimFloat.nan
  else (the_sum / float_of_Z (Z.of_nat count))%float.

Definition fill (x fallback : float) : float :=
  if PrimFloat.is_nan x then fallback else x.

(** [df.fillna({...})] on one row. *)
Definition fillna (mean_temperature : float) (r : FlightRecord) : FlightRecord :=
  {| date := date r;
     airline := airline r;
     origin := origin r;
     destination := destination r;
     f_temperature := fill (f_temperature r) mean_temperature;
     f_precipitation := fill (f_precipitation r) 0;
     f_weather_condition := Some (default "Clear"%string (f_weather_condition r));
     f_wind_speed := f_wind_speed r;
     f_wind_direction := f_wind_direction r;
     f_visibility := f_visibility r;
     f_cloud_coverage := f_cloud_coverage r;
     f_humidity := f_humidity r;
     f_pressure := f_pressure r;
     delay_minutes := fill (delay_minutes r) 0;
     weather_delay := Some (default false (weather_delay r)) |}.

(** [_clean_data].  A frame without rows was built from no record and has
    no column: [df['temperature']] raises. *)
Definition _clean_data (df : DataFrame) : result DataFrame :=
  rbind (drop_duplicates df) (fun df =>
    match df with
    | [] => Raise (KeyError "temperature")
    | _ => Ok (map (fillna (mean (map f_temperature df))) df)
    end).

(** *** The table *)

(** [init_database]: the file is removed and the table created empty. *)
Definition init_database (st : State) : State :=
  {| service := service st; rng := rng st; db := Some []; log := log st |}.

(** [_store_data]: [to_sql(..., if_exists='append')], which creates the
    table when it is not there. *)
Definition _store_data (df : DataFrame) (st : State) : State :=
  {| service := service st; rng := rng st;
     db := Some (default [] (db st) ++ df);
     log := log st ++ [Stored (length df)] |}.

(** The store step of a collection, [_clean_data] then [_store_data]; a
    batch whose cleaning raises is not written. *)
Definition store (df : DataFrame) (st : State) : State :=
  match _clean_data df with
  | Ok cleaned_data => _store_data cleaned_data st
  | Raise _ => st
  end.

(** The rows of the table, none when the table is not there. *)
Definition table_rows (st : State) : list FlightRecord := default [] (db st).

(** How many rows of a table are the same row as [r]. *)
Definition copies (r : FlightRecord) (rows : list FlightRecord) : nat :=
  length (List.filter (same_row r) rows).

(** [date BETWEEN 'start' AND 'end'] on the texts of the dates. *)
Definition date_between (start_date end_date : Dates.date) (r : FlightRecord) : bool :=
  String.leb (Dates.isoformat start_date) (Dates.isoformat (date r))
  && String.leb (Dates.isoformat (date r)) (Dates.isoformat end_date).

(** [get_stored_data]: a date object is always true, [None] is false. *)
Definition get_stored_data (start_date end_date : option Dates.date)
    (table : option (list FlightRecord)) : result DataFrame :=
  match table with
  | None => Raise DatabaseError        (* no such table: flight_data *)
  | Some rows =>
      match start_date, end_date with
      | Some s, Some e => Ok (List.filter (date_between s e) rows)
      | _, _ => Ok rows
      end
  end.

(** *** Collection *)

Definition add_log (e : event) (st : State) : State :=
  {| service := service st; rng := rng st; db := db st; log := log st ++ [e] |}.

(** The days the [while current_date <= end_date] loop goes through. *)
Definition days_from (start_date end_date : Dates.date) : list Dates.date :=
  map (fun i => start_date + Z.of_nat i) (seq 0 (Z.to_nat (end_date - start_date + 1))).

Section Collection.

Variable env : Env.

(** One turn of the loop over the days. *)
Definition collect_day (current_date : Dates.date)
    (acc : list DataFrame * State) : list DataFrame * State :=
  let '(all_data, st) := acc in
  let st := add_log (ProcessingDate current_date) st in
  let '(weather_data, svc) :=
    get_bulk_weather env AIRPORT_COORDINATES
      (Some (Dates.midnight current_date)) ∅ (service st) in
  match _generate_flight_data env weather_data current_date (rng st) with
  | (Ok daily_data, n) =>
      (all_data ++ [daily_data],
       {| service := svc; rng := n; db := db st; log := log st |})
  | (Raise e, n) =>
      (all_data,
       add_log (DayFailed current_date e)
         {| service := svc; rng := n; db := db st; log := log st |})
  end.

Definition collect_and_store_data (start_date end_date : option Dates.date)
    (st : State) : State :=
  let start_date := default (Dates.toordinal 2024 12 11) start_date in
  let end_date := default (Dates.toordinal 2023 12 11) end_date in
  let '(all_data, st) :=
    fold_left (fun acc d => collect_day d acc) (days_from start_date end_date) ([], st) in
  match all_data with
  | [] => add_log NoDataCollected st
  | _ =>
      let combined_data := concat all_data in
      match _clean_data combined_data with
      | Ok cleaned_data => add_log CollectionCompleted (_store_data cleaned_data st)
      | Raise e => add_log (CollectionFailed e) st
      end
  end.

Definition initialize_historical_data (force : bool) (st : State)
  : result DataFrame * State :=
  let end_date := Dates.toordinal 2024 12 13 in
  let start_date := end_date - 369 in
  let st :=
    if force then
      collect_and_store_data (Some start_date) (Some end_date)
        (init_database (add_log Reinitializing st))
    else st in
  match get_stored_data (Some start_date) (Some end_date) (db st) with
  | Ok stored_data =>
      match stored_data with
      | [] =>
          let e := PlainException "No data was stored after collection" in
          (Raise e, add_log (InitializationFailed e) st)
      | _ => (Ok stored_data, st)
      end
  | Raise e => (Raise e, add_log (InitializationFailed e) st)
  end.

End Collection.

End DataCollector.

(** ** utils/analysis.py *)

Module Analysis.

Import DataCollector.

(** *** What pandas computes for the module *)

Fixpoint insert_sorted (x : float) (l : list float) : list float :=
  match l with
  | [] => [x]
  | y :: l' => if PrimFloat.leb x y then x :: l else y :: insert_sorted x l'
  end.

Definition sort (l : list float) : list float := fold_right insert_sorted [] l.

Definition dropna (l : list float) : list float :=
  List.filter (fun x => negb (PrimFloat.is_nan x)) l.

(** The integer part of a float that is not negative. *)
Definition floor_nat (x : float) : nat :=
  match Prim2SF x with
  | S754_finite false m e =>
      Z.to_nat (if 0 <=? e then Z.pos m * 2 ^ e else Z.pos m / 2 ^ (- e))
  | _ => O
  end.

Definition float_of_nat (n : nat) : float := float_of_Z (Z.of_nat n).

(** numpy's [_lerp]: the point at [t] between [a] and [b], computed from
    [b] when [t >= 0.5]. *)
Definition lerp (a b t : float) : float :=
  let diff_b_a := (b - a)%float in
  if PrimFloat.leb 0.5 t then (b - diff_b_a * (1 - t))%float
  else (a + diff_b_a * t)%float.

(** [Series.quantile(q)] with [q] between 0 and 1, linear interpolation:
    the missing values are dropped and [np.percentile] gets the rest with
    [q * 100], which it divides by 100.  With the values in order, the
    virtual index is [(n - 1) * q]; the result is [_lerp] between the values
    at its floor and the next index by its fraction.  At the last index and
    above, both values are the last one and the fraction is taken from index
    -1.  NaN when no value is present. *)
Definition quantile (xs : list float) (q : float) : float :=
  let sorted := sort (dropna xs) in
  match sorted with
  | [] => PrimFloat.nan
  | _ =>
      let q := (q * 100 / 100)%float in
      let n := length sorted in
      let virtual_index := (float_of_nat (n - 1) * q)%float in
      if PrimFloat.leb (float_of_nat (n - 1)) virtual_index then
        let last := nth (n - 1) sorted PrimFloat.nan in
        lerp last last (virtual_index - (-1))
      else
        let previous_index := floor_nat virtual_index in
        lerp (nth previous_index sorted PrimFloat.nan)
          (nth (S previous_index) sorted PrimFloat.nan)
          (virtual_index - float_of_nat previous_index)
  end.

(** [np.linspace(0, 1, q + 1)] *)
Definition linspace01 (q : nat) : list float :=
  map (fun i => (float_of_nat i * (1 / float_of_nat q))%float) (seq 0 (S q)).

(** [algos.unique]: first occurrences, missing values being one value. *)
Fixpoint unique_from (seen : list float) (l : list float) : list float :=
  match l with
  | [] => []
  | x :: l' =>
      if existsb (float_same x) seen then unique_from seen l'
      else x :: unique_from (x :: seen) l'
  end.

Definition unique (l : list float) : list float := unique_from [] l.

(** [bins.searchsorted(x, side='left')]: how many edges are below [x]. *)
Definition searchsorted_left (bins : list float) (x : float) : nat :=
  length (List.filter (fun b => PrimFloat.ltb b x) bins).

(** The label of one value among the bins ([include_lowest=True]);
    [None] is the missing category. *)
Definition cut_one (bins : list float) (labels : list string) (x : float)
  : option string :=
  let id :=
    match bins with
    | b0 :: _ => if PrimFloat.eqb x b0 then 1%nat else searchsorted_left bins x
    | [] => searchsorted_left bins x
    end in
  if PrimFloat.is_nan x || (id =? length bins)%nat || (id =? 0)%nat then None
  else nth_error labels (id - 1).

(** [pd.qcut(x, q, labels=labels, duplicates='drop')]: the edges are the
    quantiles of the present values; equal edges are dropped; then the
    labels must be one fewer than the edges. *)
Definition qcut (x : list float) (q : nat) (labels : list string)
  : result (list (option string)) :=
  let bins := map (quantile x) (linspace01 q) in
  let unique_bins := unique bins in
  let bins :=
    if (length unique_bins <? length bins)%nat && negb (length bins =? 2)%nat
    then unique_bins else bins in
  if negb (length labels =? length bins - 1)%nat
  then Raise ValueError     (* Bin labels must be one fewer than the number of bin edges *)
  else Ok (map (cut_one bins labels) x).

(** *** perform_weather_analysis *)

Definition severity_labels : list string := [ "Low"; "Moderate"; "High"; "Severe" ]%string.

(** The [try] block: the column [weather_severity] that it sets. *)
Definition weather_severity (df : DataFrame) : list string :=
  let severity_score := map delay_minutes df in
  match qcut severity_score 4 severity_labels with
  | Ok severity_thresholds =>
      map (fun c => default "nan"%string c) severity_thresholds    (* astype(str) *)
  | Raise _ => map (fun _ => "Low"%string) df
  end.

(** [stats.pearsonr(x, y)] as far as it raises: the two samples must have
    the same length, and at least two points.  The coefficient is not
    modelled. *)
Definition pearsonr (x y : list float) : result unit :=
  if negb (length x =? length y)%nat then Raise ValueError
  else if (length x <? 2)%nat then Raise ValueError
  else Ok tt.

(** [perform_weather_analysis] up to the column [weather_severity] it sets
    on the frame (a frame with the columns of the table): the two
    correlations are computed first, then the [try] block runs.  The
    statistics that follow read the column. *)
Definition perform_weather_analysis (df : DataFrame) : result (list string) :=
  rbind (pearsonr (map f_temperature df) (map delay_minutes df)) (fun temp_corr =>
  rbind (pearsonr (map f_precipitation df) (map delay_minutes df)) (fun precip_corr =>
  Ok (weather_severity df))).

(** *** train_model: engineer_features *)

Record Features := {
  x_temperature : float;
  x_precipitation : float;
  day_of_week : Z;
  x_month : Z;
  temp_precip_interaction : float;
  severe_weather : bool
}.

Definition engineer_features (data : DataFrame) : list Features :=
  let temp_low := quantile (map f_temperature data) 0.2 in
  let precip_high := quantile (map f_precipitation data) 0.8 in
  map (fun r =>
         {| x_temperature := f_temperature r;
            x_precipitation := f_precipitation r;
            day_of_week := Dates.dayofweek (date r);
            x_month := Dates.month (date r);
            temp_precip_interaction := (f_temperature r * f_precipitation r)%float;
            severe_weather :=
              PrimFloat.ltb (f_temperature r) temp_low
              && PrimFloat.ltb precip_high (f_precipitation r) |})
      data.

(** *** The stored model *)

(** What [predict_with_interval] uses of the dict of results: the fitted
    regressor on one scaled row, the fitted scaler on one row, and the
    cross-validated RMSE. *)
Record Model := {
  predict : list float -> float;          (* model['model'].predict(...)[0] *)
  scaler_transform : Features -> list float;   (* model['scaler'].transform *)
  cv_rmse : float                         (* model['metrics']['cv_rmse'] *)
}.

(** The file [results.pkl]. *)
Inductive file :=
| Absent
| Unreadable
| Content (bytes : string).

(** [open('results.pkl', 'rb')] and reading it. *)
Definition open_read (f : file) : result string :=
  match f with
  | Content bytes => Ok bytes
  | _ => Raise FileError
  end.

Section GetModel.

(** [pickle.load] on the bytes of a file. *)
Variable unpickle : string -> result Model.

(** [get_model]: the handler logs and goes on; [results] is bound only
    when the [try] block went through. *)
Definition get_model (f : file) : result Model :=
  let results : option Model :=
    match rbind (open_read f) unpickle with
    | Ok loaded => Some loaded
    | Raise _ => None
    end in
  match results with
  | Some r => Ok r
  | None => Raise (UnboundLocalError "results")
  end.

End GetModel.

(** *** predict_with_interval *)

Record Prediction := {
  prediction : float;
  lower_bound : float;
  upper_bound : float;
  confidence : float
}.

(** [date=None] calls [None] as a function.  Otherwise [date] is a
    [pd.Timestamp]. *)
Definition predict_with_interval (df : DataFrame) (model : Model)
    (temp precip : float) (date : option Dates.date) (confidence : float)
  : result Prediction :=
  match date with
  | None => Raise TypeError
  | Some date =>
      let features :=
        {| x_temperature := temp;
           x_precipitation := precip;
           day_of_week := Dates.dayofweek date;
           x_month := Dates.month date;
           temp_precip_interaction := (temp * precip)%float;
           severe_weather :=
             PrimFloat.ltb (quantile (map f_temperature df) 0.8) temp
             && PrimFloat.ltb (quantile (map f_precipitation df) 0.8) precip |} in
      let features_scaled := scaler_transform model features in
      let prediction := predict model features_scaled in
      let margin := (cv_rmse model * 1.96)%float in
      Ok {| prediction := prediction;
            lower_bound := max0 (prediction - margin);
            upper_bound := (prediction + margin)%float;
            confidence := confidence |}
  end.

End Analysis.

(** ** utils/data_processor.py *)

Module DataProcessor.

Import DataCollector Analysis.

(** [load_sample_data]: the stored table when it can be read and is not
    empty; otherwise the function runs to its end and returns None (the
    generation of sample data is commented out). *)
Definition load_sample_data (table : option (list FlightRecord)) : option DataFrame :=
  match get_stored_data None None table with
  | Ok stored_data =>
      match stored_data with
      | [] => None
      | _ => Some stored_data
      end
  | Raise _ => None
  end.

Definition delay_bins : list float := [0; 10; 20; 40; PrimFloat.infinity]%float.

Definition delay_labels : list string :=
  [ "No Delay"; "Minor"; "Significant"; "Severe" ]%string.

(** [pd.cut(x, bins, labels=labels)] for one value: intervals closed on the
    right, the lowest edge not included; [None] is the missing category.
    (The edges above increase and the labels are one fewer, as [pd.cut]
    requires.) *)
Definition cut_one_right (bins : list float) (labels : list string) (x : float)
  : option string :=
  let id := searchsorted_left bins x in
  if PrimFloat.is_nan x || (id =? length bins)%nat || (id =? 0)%nat then None
  else nth_error labels (id - 1).

(** [process_delay_data]: the column [delay_category]. *)
Definition process_delay_data (df : DataFrame) : list (option string) :=
  map (fun r => cut_one_right delay_bins delay_labels (delay_minutes r)) df.

End DataProcessor.

(** ** scheduler.py *)

Module Scheduler.

Import WeatherService DataCollector.

Section WithEnv.

Variable env : Env.

(** [collect_historical_data]: the database is initialized, then the 365
    days before today and today are collected. *)
Definition collect_historical_data (st : State) : State :=
  let st := init_database st in
  let today := Dates.date_of (clock env (ticks (service st))) in
  let svc := {| cache := cache (service st); default_stamp := default_stamp (service st);
                requests := requests (service st); ticks := S (ticks (service st)) |} in
  let end_date := today in
  let start_date := end_date - 365 in
  collect_and_store_data env (Some start_date) (Some end_date)
    {| service := svc; rng := rng st; db := db st; log := log st |}.

(** The job that [run_scheduler] schedules every day at 00:00:
    [collect_and_store_data()] with no argument. *)
Definition daily_update (st : State) : State :=
  collect_and_store_data env None None st.

End WithEnv.

End Scheduler.

Import WeatherService DataCollector Analysis.

(** * Sample inputs *)

Module Samples.

(** A flight of Delta from SEA to LAX with the given date, temperature,
    precipitation and delay, in clear, calm weather. *)
Definition flight (d : Dates.date) (temp precip delay : float) : FlightRecord :=
  {| date := d;
     airline := "Delta";
     origin := "SEA";
     destination := "LAX";
     f_temperature := temp;
     f_precipitation := precip;
     f_weather_condition := Some "Clear"%string;
     f_wind_speed := 0;
     f_wind_direction := JNum 0;
     f_visibility := 10;
     f_cloud_coverage := 0;
     f_humidity := JNum 50;
     f_pressure := 1013.25;
     delay_minutes := delay;
     weather_delay := Some (PrimFloat.ltb 30 delay) |}.

Definition dec_11 : Dates.date := Dates.toordinal 2024 12 11.

(** Seven flights of one day; the first is cold and wet, the fifth hot and
    wet, the others dry. *)
Definition seven_flights : DataFrame :=
  [ flight dec_11 10 0.9 45; flight dec_11 50 0.1 12; flight dec_11 60 0.1 8;
    flight dec_11 70 0.1 20; flight dec_11 80 0.9 33; flight dec_11 55 0.1 15;
    flight dec_11 65 0.1 27 ]%float.

(** Four flights that were all 5 minutes late. *)
Definition tied_flights : DataFrame :=
  [ flight dec_11 10 0 5; flight dec_11 20 0 5; flight dec_11 30 0 5;
    flight dec_11 40 0 5 ]%float.

(** A model whose regressor always answers 20 minutes, with a
    cross-validated RMSE of 5. *)
Definition constant_model : Model :=
  {| predict := fun _ => 20%float;
     scaler_transform := fun x => [x_temperature x; x_precipitation x];
     cv_rmse := 5%float |}.

(** A measurement as weather.gov wraps it. *)
Definition measured (v : float) : json :=
  JObj [("unitCode", JStr "wmoUnit"); ("value", JNum v)]%string.

(** An observation with every field the service reads. *)
Definition full_observation : json :=
  JObj [("properties",
         JObj [("temperature", measured 5);
               ("windChill", measured 2);
               ("relativeHumidity", measured 80);
               ("barometricPressure", measured 101000);
               ("windSpeed", measured 4);
               ("windDirection", measured 180);
               ("visibility", measured 16000);
               ("layers", JArr [JObj [("amount", JStr "BKN")]]);
               ("textDescription", JStr "Light Rain");
               ("precipitationLastHour", measured 0.5)])]%string%float.

(** A well-formed observation that carries no measurement at all. *)
Definition bare_observation : json := JObj [("properties", JObj [])]%string.

Definition ok (j : json) : option Response := Some {| status_code := 200; body := Some j |}.

(** weather.gov answering every request, the latest observation being [obs]. *)
Definition weather_gov (obs : json) (n : nat) (url : string) : option Response :=
  if contains "/points/" url then
    ok (JObj [("properties",
               JObj [("observationStations",
                      JStr "https://api.weather.gov/gridpoints/SEW/124,61/stations")])])
  else if contains "/observations/latest" url then ok obs
  else
    ok (JObj [("features",
               JArr [JObj [("id", JStr "https://api.weather.gov/stations/KSEA")]])]).

(** No request gets through. *)
Definition no_network (n : nat) (url : string) : option Response := None.

Definition noon_dec_11 : Dates.datetime := Dates.midnight dec_11 + Dates.minutes 720.

(** A world with the given network: the clock starts at noon of
    2024-12-11 and advances one second per reading; every draw gives the
    centre or the lower end of its distribution, one flight per route. *)
Definition world (network : nat -> string -> option Response) : Env :=
  {| http := network;
     clock := fun n => noon_dec_11 + 1000000 * Z.of_nat n;
     sample := fun _ d =>
                 match d with
                 | Normal mu _ => mu
                 | Beta _ _ => 0.25%float
                 | Uniform lo _ => lo
                 | _ => 0%float
                 end;
     sample_int := fun _ d =>
                     match d with
                     | Poisson _ => 1
                     | Randint lo _ => lo
                     | _ => 0
                     end;
     float_of_str := fun _ => None;
     str_of := fun _ => EmptyString;
     str_upper := fun s => s |}.

Definition sea : Coordinates := {| lat := "47.4484"; lon := "-122.379" |}.

(** A collector that has just been built, its table holding [rows]. *)
Definition collector (env : Env) (rows : option (list FlightRecord)) : State :=
  {| service := init env; rng := 0; db := rows; log := [] |}.

Definition dry_flight : FlightRecord := flight dec_11 50 0.1 12.
Definition wet_flight : FlightRecord := flight dec_11 10 0.9 45.
Definition late_flight : FlightRecord := flight (dec_11 + 1) 60 0.1 8.

(** An unpickler that rejects every file. *)
Definition reject_all (bytes : string) : result Model := Raise UnpicklingError.

End Samples.

(** * Notions used in the statements *)

(** What holds of every flight record. *)
Definition delay_invariant (r : FlightRecord) : Prop :=
  PrimFloat.leb 0 (delay_minutes r) = true
  /\ (weather_delay r = Some true <-> PrimFloat.ltb 30 (delay_minutes r) = true)
  /\ weather_delay r = Some (PrimFloat.ltb 30 (delay_minutes r)).

(** Every row a computation returns satisfies [P]. *)
Definition emits {B} (P : B -> Prop) (m : R (list B)) : Prop :=
  forall n rows n', m n = (Ok rows, n') -> Forall P rows.

(** The precipitation of a snapshot can enter the delay: it is null, zero
    or empty (then 0.0 is taken), or a number. *)
Definition precipitation_usable (w : WeatherSnapshot) : Prop :=
  truthy (precipitation w) = false \/ as_number (precipitation w) <> None.

(** A computation returns, whatever was drawn before. *)
Definition returns {B} (m : R B) : Prop := forall n, exists b n', m n = (Ok b, n').

(** No row is the same as a row before it. *)
Definition distinct_rows (rows : list FlightRecord) : Prop :=
  ForallOrdPairs (fun earlier later => same_row later earlier = false) rows.

(** The days a log says were processed, in order. *)
Definition processed_days (events : list event) : list Dates.date :=
  omap (fun e => match e with ProcessingDate d => Some d | _ => None end) events.

(** What the n-th request gives: the decoded body, unless the request
    fails, the status is an error or the body is not JSON. *)
Definition exchange (env : Env) (n : nat) (url : string) : result json :=
  match http env n url with
  | None => Raise (RequestException "request failed")
  | Some r =>
      if (400 <=? status_code r) && (status_code r <? 600)
      then Raise (RequestException "http error")
      else match body r with
           | Some j => Ok j
           | None => Raise (RequestException "body is not JSON")
           end
  end.

(** What the three exchanges give when the first is the n-th request: the
    properties of the latest observation, unless an exchange fails or a key
    on the way is missing. *)
Definition fetch_outcome (env : Env) (airport_data : Coordinates) (n : nat) : result json :=
  rbind (exchange env n (points_url airport_data)) (fun points_data =>
  rbind (getitem points_data "properties") (fun props =>
  rbind (getitem props "observationStations") (fun observation_url =>
  rbind (exchange env (S n) (text_of env observation_url)) (fun stations =>
  rbind (getitem stations "features") (fun features =>
  rbind (getfirst features) (fun first_station =>
  rbind (getitem first_station "id") (fun station_url =>
  rbind (exchange env (S (S n)) (text_of env station_url +:+ "/observations/latest"))
    (fun current_data =>
  getitem current_data "properties")))))))).

(** The service after one more request. *)
Definition sent (url : string) (s : Service) : Service :=
  {| cache := cache s; default_stamp := default_stamp s;
     requests := requests s ++ [url]; ticks := ticks s |}.

(** The snapshot of an observation that carries no measurement: each
    field has its own fallback, and two of them differ from the default
    snapshot (feels_like 68.0, visibility 10000 m in miles). *)
Definition fallback_snapshot (stamp : Dates.datetime) : WeatherSnapshot :=
  {| temperature := 68.0;
     feels_like := 68.0;
     humidity := JNum 50;
     pressure := 1013.25;
     wind_speed := 0;
     wind_direction := JNum 0;
     visibility := 6.2137099999999998;
     cloud_coverage := 0;
     weather_condition := "Clear";
     precipitation := JNum 0;
     timestamp := stamp |}.

(** The cache check of a call of [get_weather]: the target date is
    settled, then the cache is looked up under its key.  [Ok None]: nothing
    is served from the cache (no entry under the key, or one that is 30
    minutes old or more), and the call goes on to fetch. *)
Definition cache_check (env : Env) (airport_code : string)
    (target_date : option Dates.datetime) : M (option WeatherSnapshot) :=
  let* target := match target_date with
                 | Some t => ret t
                 | None => now env
                 end in
  cache_lookup env (cache_key airport_code target).

(** Every run of [m] takes a service to one related to it by [Rel]. *)
Definition preserves {A} (Rel : Service -> Service -> Prop) (m : M A) : Prop :=
  forall s, Rel s (snd (m s)).

(** ** Notions of the further properties *)

(** The codes of the airports of the network. *)
Definition airport_codes : list string := map fst AIRPORT_COORDINATES.

(** A record is a flight of the network on the given day: one of the five
    airlines, between two different airports of the five. *)
Definition scheduled (target_date : Dates.date) (r : FlightRecord) : Prop :=
  date r = target_date
  /\ In (airline r) airlines
  /\ In (origin r) airport_codes
  /\ In (destination r) airport_codes
  /\ origin r <> destination r.

(** The precipitation that enters a delay: a reading that counts as false
    is 0.0, otherwise the reading must be a number. *)
Definition precipitation_reading (v : json) : option float :=
  as_number (if negb (truthy v) then JNum 0.0 else v).

(** The weather columns of a record are those of a snapshot. *)
Definition from_snapshot (w : WeatherSnapshot) (r : FlightRecord) : Prop :=
  f_temperature r = temperature w
  /\ precipitation_reading (precipitation w) = Some (f_precipitation r)
  /\ f_weather_condition r = Some (weather_condition w)
  /\ f_wind_speed r = wind_speed w
  /\ f_wind_direction r = wind_direction w
  /\ f_visibility r = visibility w
  /\ f_cloud_coverage r = cloud_coverage w
  /\ f_humidity r = humidity w
  /\ f_pressure r = pressure w.

(** A computation that returns gives [c] rows. *)
Definition counts {B} (c : nat) (m : R (list B)) : Prop :=
  forall n rows n', m n = (Ok rows, n') -> length rows = c.

(** The six conditions the service reports. *)
Definition conditions : list string :=
  [ "Clear"; "Clouds"; "Rain"; "Snow"; "Fog"; "Thunderstorm" ]%string.

(** The coverages a list of cloud layers can have, in percent. *)
Definition coverages : list Z := [0; 25; 50; 75; 100].

(** A computation sends at most [c] requests, and the requests made before
    it stay as they are. *)
Definition sends {A} (c : nat) (m : M A) : Prop :=
  forall s, exists more,
    requests (snd (m s)) = requests s ++ more /\ (length more <= c)%nat.

(** The service after one more reading of the clock. *)
Definition ticked (s : Service) : Service :=
  {| cache := cache s; default_stamp := default_stamp s;
     requests := requests s; ticks := S (ticks s) |}.

(** The weather columns of a record are those of the default snapshot. *)
Definition default_conditions (r : FlightRecord) : Prop :=
  f_temperature r = 68.0%float
  /\ f_precipitation r = 0%float
  /\ f_weather_condition r = Some "Clear"%string
  /\ f_wind_speed r = 0%float
  /\ f_wind_direction r = JNum 0
  /\ f_visibility r = 10%float
  /\ f_cloud_coverage r = 0
  /\ f_humidity r = JNum 50
  /\ f_pressure r = 1013.25%float.

(** No request gets an answer. *)
Definition network_down (env : Env) : Prop := forall n url, http env n url = None.

(** A flight of the network on a day of the range. *)
Definition scheduled_between (start_date end_date : Dates.date) (r : FlightRecord) : Prop :=
  start_date <= date r <= end_date /\ scheduled (date r) r.

(** The category of a delay, by the thresholds of [process_delay_data]
    read from the highest down. *)
Definition delay_category (minutes : float) : option string :=
  if PrimFloat.ltb 40 minutes then Some "Severe"%string
  else if PrimFloat.ltb 20 minutes then Some "Significant"%string
  else if PrimFloat.ltb 10 minutes then Some "Minor"%string
  else if PrimFloat.ltb 0 minutes then Some "No Delay"%string
  else None.

(** What cleaning leaves no row without. *)
Definition filled (r : FlightRecord) : Prop :=
  PrimFloat.is_nan (f_precipitation r) = false
  /\ PrimFloat.is_nan (delay_minutes r) = false
  /\ f_weather_condition r <> None
  /\ weather_delay r <> None.

(** The days a [datetime.date] can be: 0001-01-01 to 9999-12-31. *)
Definition is_date (o : Dates.date) : Prop := 1 <= o <= 3652059.

(** Year, month and day as one number, YYYYMMDD. *)
Definition yyyymmdd (c : Z * Z * Z) : Z :=
  let '(y, m, d) := c in y * 10000 + m * 100 + d.

(** [civil] inside a 400-year era: the year of the era, the month and the
    day of the day [doe] of the era, as one number. *)
Definition era_yyyymmdd (doe : Z) : Z :=
  let yoe := (doe - doe / 1460 + doe / 36524 - doe / 146096) / 365 in
  let doy := doe - (365 * yoe + yoe / 4 - yoe / 100) in
  let mp := (5 * doy + 2) / 153 in
  let d := doy - (153 * mp + 2) / 5 + 1 in
  let m := if mp <? 10 then mp + 3 else mp - 9 in
  yyyymmdd (if m <=? 2 then yoe + 1 else yoe, m, d).

(** The numbers of the [fuel] days after the day [doe] of an era increase
    from each day to the next, [today] being the number of [doe]. *)
Fixpoint increases_from (fuel : nat) (doe today : Z) : bool :=
  match fuel with
  | O => true
  | S fuel' =>
      let tomorrow := era_yyyymmdd (doe + 1) in
      (today <? tomorrow) && increases_from fuel' (doe + 1) tomorrow
  end.

(** The range query on the dates themselves. *)
Definition in_range (start_date end_date : Dates.date) (r : FlightRecord) : bool :=
  (start_date <=? date r) && (date r <=? end_date).

(** A computation that returns gives at least [c] rows. *)
Definition at_least {B} (c : nat) (m : R (list B)) : Prop :=
  forall n rows n', m n = (Ok rows, n') -> (c <= length rows)%nat.

(** Every route of every day has at least one flight. *)
Definition busy (env : Env) : Prop := forall k, 1 <= sample_int env k (Poisson 5).

(** Every key of the cache is a bare airport code of the network. *)
Definition keyed_by_code (s : Service) : Prop :=
  forall key entry, cache s !! key = Some entry -> In key airport_codes.

(** * Properties *)

(** ** Sanity checks of the embedding on the examples of the specification *)

Example toordinal_epoch : Dates.toordinal 1970 1 1 = 719163.
Proof. reflexivity. Qed.

Example isoformat_2024_12_13 :
  Dates.isoformat (Dates.toordinal 2024 12 13) = "2024-12-13"%string.
Proof. reflexivity. Qed.

Example isoformat_leap_day :
  Dates.isoformat (Dates.toordinal 2024 2 28 + 1) = "2024-02-29"%string.
Proof. reflexivity. Qed.

Example quantile_pandas_doc :
  quantile [1; 2; 3; 4; 5]%float 0.2 = 1.8%float
  /\ quantile [0; 10]%float 0.25 = 2.5%float.
Proof. split; vm_compute; reflexivity. Qed.

(** At a fraction of 0.5 or more the interpolation starts from the upper
    value: 35.4 - 22.3 * 0.2 is 30.94, where 13.1 + 22.3 * 0.8 would be
    30.939999999999998. *)
Example quantile_upper_half : quantile [35.4; 13.1]%float 0.8 = 30.94%float.
Proof. vm_compute. reflexivity. Qed.

(** Ten values are summed in eight accumulators: ten times 0.1 give 1.0,
    where adding from the left gives 0.9999999999999999. *)
Example mean_pairwise :
  mean (repeat 0.1%float 10) = 0.1%float
  /\ fold_left PrimFloat.add (repeat 0.1%float 10) 0%float = 0.9999999999999999%float.
Proof. split; vm_compute; reflexivity. Qed.

Example cloud_coverage_max_wins (env : Env) :
  _parse_cloud_coverage env
    (JArr [JObj [("amount", JStr "FEW")]; JObj [("amount", JStr "OVC")]]%string) = 100
  /\ _parse_cloud_coverage env (JArr []) = 0.
Proof. split; reflexivity. Qed.

(** ** Floats *)

Lemma float_lt_le (x y : float) : PrimFloat.ltb x y = true -> PrimFloat.leb x y = true.
Proof.
  rewrite ltb_spec, leb_spec. unfold SFltb, SFleb.
  destruct (SFcompare (Prim2SF x) (Prim2SF y)) as [[ | | ]|]; congruence.
Qed.

Lemma max0_nonneg (x : float) : PrimFloat.leb 0 (max0 x) = true.
Proof.
  unfold max0. destruct (PrimFloat.ltb 0 x) eqn:E.
  - now apply float_lt_le.
  - reflexivity.
Qed.

Lemma float_same_refl (x : float) : float_same x x = true.
Proof.
  unfold float_same, PrimFloat.is_nan.
  destruct (PrimFloat.eqb x x); reflexivity.
Qed.

(** ** Range query *)

(** C10. When [get_stored_data] gets only one of its two bounds, no date
    filter is applied: the whole table is returned, as with no bound. *)
Theorem get_stored_data_one_bound (table : option (list FlightRecord)) (d : Dates.date) :
  get_stored_data (Some d) None table = get_stored_data None None table
  /\ get_stored_data None (Some d) table = get_stored_data None None table
  /\ (forall rows, table = Some rows ->
        get_stored_data (Some d) None table = Ok rows
        /\ get_stored_data None (Some d) table = Ok rows).
Proof.
  repeat split; destruct table; try reflexivity; intros; simplify_eq; reflexivity.
Qed.

(** ** Loading the model *)

(** C9. When [results.pkl] is absent, cannot be read, or cannot be
    unpickled, [get_model] raises to its caller (the unbound [results]) and
    returns no model. *)
Theorem get_model_fails_loudly (unpickle : string -> result Model) (f : file) :
  (f = Absent \/ f = Unreadable
   \/ exists bytes e, f = Content bytes /\ unpickle bytes = Raise e) ->
  get_model unpickle f = Raise (UnboundLocalError "results")
  /\ forall m, get_model unpickle f <> Ok m.
Proof.
  intros H.
  assert (E : get_model unpickle f = Raise (UnboundLocalError "results")).
  { destruct H as [-> | [-> | (bytes & e & -> & Hb)]]; unfold get_model; simpl;
      try rewrite Hb; reflexivity. }
  split; [exact E | intros m; rewrite E; discriminate].
Qed.

Lemma get_model_fails_loudly_witness :
  get_model Samples.reject_all Absent = Raise (UnboundLocalError "results")
  /\ forall m, get_model Samples.reject_all Absent <> Ok m.
Proof.
  apply (get_model_fails_loudly Samples.reject_all Absent). left. reflexivity.
Defined.

(** The file is there and readable but its bytes are no pickle. *)
Example get_model_corrupt_file :
  get_model Samples.reject_all (Content "not a pickle") = Raise (UnboundLocalError "results").
Proof. reflexivity. Qed.

(** A readable pickle is returned. *)
Example get_model_loads (m : Model) :
  get_model (fun _ => Ok m) (Content "pickle") = Ok m.
Proof. reflexivity. Qed.

(** ** Prediction interval *)

(** C7. Every prediction returns margin = cv_rmse * 1.96 around the point
    estimate, the lower bound cut at 0; with cv_rmse 5.0 and a point
    estimate of 20.0 the bounds are 10.2 and 29.8. *)
Theorem predict_with_interval_bounds (df : DataFrame) (model : Model)
    (temp precip : float) (d : Dates.date) (confidence : float) :
  exists p,
    predict_with_interval df model temp precip (Some d) confidence = Ok p
    /\ lower_bound p = max0 (prediction p - cv_rmse model * 1.96)
    /\ upper_bound p = (prediction p + cv_rmse model * 1.96)%float
    /\ (cv_rmse model = 5.0%float -> prediction p = 20.0%float ->
        lower_bound p = 10.2%float /\ upper_bound p = 29.8%float).
Proof.
  eexists. split; [reflexivity|]. cbn [lower_bound upper_bound prediction].
  split; [reflexivity|]. split; [reflexivity|].
  intros -> ->. split; vm_compute; reflexivity.
Qed.

Lemma predict_with_interval_bounds_witness :
  exists p,
    predict_with_interval Samples.seven_flights Samples.constant_model 40 0.5
      (Some Samples.dec_11) 0.95 = Ok p
    /\ lower_bound p = 10.2%float /\ upper_bound p = 29.8%float.
Proof.
  destruct (predict_with_interval_bounds Samples.seven_flights Samples.constant_model
              40 0.5 Samples.dec_11 0.95) as (p & Hp & _ & _ & H).
  exists p. split; [exact Hp|].
  apply H; injection Hp as <-; reflexivity.
Defined.

(** The lower bound is never negative. *)
Lemma predict_with_interval_lower_nonneg df model temp precip d confidence p :
  predict_with_interval df model temp precip (Some d) confidence = Ok p ->
  PrimFloat.leb 0 (lower_bound p) = true.
Proof. intros [= <-]. apply max0_nonneg. Qed.

(** Without a date the call raises before any prediction. *)
Example predict_with_interval_no_date df model temp precip confidence :
  predict_with_interval df model temp precip None confidence = Raise TypeError.
Proof. reflexivity. Qed.

(** ** Severity levels *)

Lemma linspace01_length (q : nat) : length (linspace01 q) = S q.
Proof. unfold linspace01. now rewrite length_map, length_seq. Qed.

(** The labels fit only when the five quartile edges are all different. *)
Lemma qcut_quartiles_raise (x : list float) :
  (length (unique (map (quantile x) (linspace01 4))) < 5)%nat ->
  qcut x 4 severity_labels = Raise ValueError.
Proof.
  intros H. unfold qcut.
  assert (L : length (map (quantile x) (linspace01 4)) = 5%nat)
    by now rewrite length_map, linspace01_length.
  rewrite L.
  destruct (Nat.ltb_spec (length (unique (map (quantile x) (linspace01 4)))) 5) as [_|?];
    [|lia].
  cbn [andb negb Nat.eqb].
  destruct (Nat.eqb_spec (length severity_labels)
              (length (unique (map (quantile x) (linspace01 4))) - 1)) as [E|_].
  - change (length severity_labels) with 4%nat in E. lia.
  - reflexivity.
Qed.

(** C8, as the code has it.  The correlations come before the severity
    block and need two rows.  On a frame of at least two rows whose delays
    give fewer than 4 different quartile cut points nothing is raised and
    every row gets the level Low; a frame of fewer than two rows raises
    ValueError before the block is reached, and gets no level.  The block
    itself, run on any such frame, sets Low on every row. *)
Theorem weather_severity_degenerate_all_low (df : DataFrame) :
  (length (unique (map (quantile (map delay_minutes df)) (linspace01 4))) < 4)%nat ->
  ((2 <= length df)%nat ->
   exists column,
     perform_weather_analysis df = Ok column
     /\ column = map (fun _ => "Low"%string) df
     /\ Forall (fun level => level = "Low"%string) column)
  /\ ((length df < 2)%nat -> perform_weather_analysis df = Raise ValueError)
  /\ weather_severity df = map (fun _ => "Low"%string) df.
Proof.
  intros H. unfold perform_weather_analysis, pearsonr. rewrite !length_map.
  rewrite Nat.eqb_refl. cbn [negb].
  assert (E : weather_severity df = map (fun _ => "Low"%string) df)
    by (unfold weather_severity; rewrite qcut_quartiles_raise by lia; reflexivity).
  split; [|split; [|exact E]].
  - intros Hrows. destruct (Nat.ltb_spec (length df) 2) as [?|_]; [lia|]. cbn [rbind].
    exists (map (fun _ => "Low"%string) df).
    split; [|split; [reflexivity|]].
    + now rewrite E.
    + clear. induction df as [|r df IH]; simpl; constructor; [reflexivity | exact IH].
  - intros Hrows. destruct (Nat.ltb_spec (length df) 2) as [_|?]; [reflexivity | lia].
Qed.

Lemma weather_severity_degenerate_all_low_witness :
  perform_weather_analysis Samples.tied_flights = Ok ["Low"; "Low"; "Low"; "Low"]%string.
Proof.
  destruct (proj1 (weather_severity_degenerate_all_low Samples.tied_flights
                     ltac:(vm_compute; lia)) ltac:(cbn; lia))
    as (column & E & -> & _).
  exact E.
Defined.

(** C8, as stated, fails on a frame of one row: its delays give one cut
    point, and the analysis raises ValueError in the first correlation, so
    that no row gets a level. *)
Lemma perform_weather_analysis_one_row_raises :
  (length (unique (map (quantile (map delay_minutes [Samples.dry_flight]))
                     (linspace01 4))) < 4)%nat
  /\ perform_weather_analysis [Samples.dry_flight] = Raise ValueError
  /\ ~ (exists column, perform_weather_analysis [Samples.dry_flight] = Ok column).
Proof.
  split; [vm_compute; lia|]. split; [reflexivity|].
  intros [column E]. discriminate E.
Qed.

(** The fallback is taken as soon as two of the five edges are equal. *)
Lemma weather_severity_equal_edges (df : DataFrame) :
  (length (unique (map (quantile (map delay_minutes df)) (linspace01 4))) < 5)%nat ->
  weather_severity df = map (fun _ => "Low"%string) df.
Proof.
  intros H. unfold weather_severity. now rewrite qcut_quartiles_raise.
Qed.

(** With five different edges the four levels are used. *)
Example weather_severity_spread :
  weather_severity Samples.seven_flights
  = ["Severe"; "Low"; "Low"; "Moderate"; "Severe"; "Moderate"; "High"]%string.
Proof. vm_compute. reflexivity. Qed.

(** Two different delays already give five different edges, so that fewer
    than four different delays still use the levels. *)
Example weather_severity_two_values :
  weather_severity [Samples.flight Samples.dec_11 50 0 0; Samples.flight Samples.dec_11 50 0 10]
  = ["Low"; "Severe"]%string.
Proof. vm_compute. reflexivity. Qed.

(** ** The severe weather flag *)

(** C6. The flag is computed in two ways: when training, temperature
    below the 20th percentile of the training temperatures and
    precipitation above the 80th percentile of the training precipitations;
    when predicting, temperature above the 80th percentile and precipitation
    above the 80th percentile.  The two disagree on a row of the data. *)
Theorem severe_weather_two_definitions :
  (forall (data : DataFrame) (i : nat) (r : FlightRecord),
      nth_error data i = Some r ->
      option_map severe_weather (nth_error (engineer_features data) i)
      = Some (PrimFloat.ltb (f_temperature r) (quantile (map f_temperature data) 0.2)
              && PrimFloat.ltb (quantile (map f_precipitation data) 0.8) (f_precipitation r)))
  /\ (forall (df : DataFrame) (model : Model) (temp precip : float) (d : Dates.date)
             (confidence : float),
        exists features,
          predict_with_interval df model temp precip (Some d) confidence
          = Ok {| prediction := predict model (scaler_transform model features);
                  lower_bound :=
                    max0 (predict model (scaler_transform model features)
                          - cv_rmse model * 1.96);
                  upper_bound :=
                    (predict model (scaler_transform model features)
                     + cv_rmse model * 1.96)%float;
                  confidence := confidence |}
          /\ severe_weather features
             = PrimFloat.ltb (quantile (map f_temperature df) 0.8) temp
               && PrimFloat.ltb (quantile (map f_precipitation df) 0.8) precip)
  /\ (exists (data : DataFrame) (r : FlightRecord),
        In r data
        /\ (PrimFloat.ltb (f_temperature r) (quantile (map f_temperature data) 0.2)
            && PrimFloat.ltb (quantile (map f_precipitation data) 0.8) (f_precipitation r))
           = true
        /\ (PrimFloat.ltb (quantile (map f_temperature data) 0.8) (f_temperature r)
            && PrimFloat.ltb (quantile (map f_precipitation data) 0.8) (f_precipitation r))
           = false).
Proof.
  split; [|split].
  - intros data i r Hr. unfold engineer_features.
    rewrite nth_error_map, Hr. reflexivity.
  - intros. eexists. split; reflexivity.
  - exists Samples.seven_flights, (Samples.flight Samples.dec_11 10 0.9 45).
    split; [left; reflexivity|]. split; vm_compute; reflexivity.
Qed.

(** On the seven sample flights the training flag marks the cold wet flight
    and the prediction flag the hot wet one. *)
Example severe_weather_on_samples :
  map severe_weather (engineer_features Samples.seven_flights)
  = [true; false; false; false; false; false; false]
  /\ map (fun r => PrimFloat.ltb (quantile (map f_temperature Samples.seven_flights) 0.8)
                     (f_temperature r)
                   && PrimFloat.ltb (quantile (map f_precipitation Samples.seven_flights) 0.8)
                        (f_precipitation r))
       Samples.seven_flights
     = [false; false; false; false; true; false; false].
Proof. split; vm_compute; reflexivity. Qed.

(** ** The simulator *)

Lemma bound_after_ok {A B} (rows : list B) (m : R A) (n : nat) (a : A) (n' : nat) :
  bound_after rows m n = (Ok a, n') <-> m n = (Ok a, n').
Proof.
  unfold bound_after. destruct rows as [|row rows]; [reflexivity|].
  destruct (m n) as [[a0|[]] n0]; split; intros H; try exact H; discriminate H.
Qed.

Lemma emits_rret_nil {B} (P : B -> Prop) : emits P (rret []).
Proof. intros n rows n' [= <- _]. constructor. Qed.

Lemma emits_for_each {A B} (P : B -> Prop) (l : list A) (body : A -> R (list B)) :
  (forall a, emits P (body a)) -> emits P (for_each l body).
Proof.
  intros Hbody. induction l as [|a l IH]; cbn [for_each].
  - apply emits_rret_nil.
  - intros n rows n'. unfold rbindR at 1.
    destruct (body a n) as [[rows1|e] n1] eqn:E1; [|discriminate].
    unfold rbindR at 1.
    destruct (bound_after rows1 (for_each l body) n1) as [[rows2|e] n2] eqn:E2;
      [|discriminate].
    apply bound_after_ok in E2.
    intros [= <- _]. apply Forall_app. split; [eapply Hbody | eapply IH]; eassumption.
Qed.

Lemma emits_repeat_times {B} (P : B -> Prop) (k : nat) (body : R B) :
  (forall n r n', body n = (Ok r, n') -> P r) -> emits P (repeat_times k body).
Proof.
  intros Hbody. induction k as [|k IH]; cbn [repeat_times].
  - apply emits_rret_nil.
  - intros n rows n'. unfold rbindR at 1.
    destruct (body n) as [[r|e] n1] eqn:E1; [|discriminate].
    unfold rbindR at 1.
    destruct (bound_after [r] (repeat_times k body) n1) as [[rows2|e] n2] eqn:E2;
      [|discriminate].
    apply bound_after_ok in E2.
    intros [= <- _]. constructor; [eapply Hbody | eapply IH]; eassumption.
Qed.

Lemma one_flight_invariant env weather target_date airline origin dest n r n' :
  one_flight env weather target_date airline origin dest n = (Ok r, n') ->
  delay_invariant r.
Proof.
  unfold one_flight, rbindR, draw, draw_int, attempt.
  destruct (simulate_delay _ _ _ _ _) as [[[[p alpha] airline_factor]|e] n1].
  - destruct (assoc origin airport_params) as [[mu sigma]|]; [|discriminate].
    intros [= <- _]. unfold delay_invariant. cbn [delay_minutes weather_delay].
    split; [apply max0_nonneg|]. split; [|reflexivity].
    split; [now intros [= ->] | now intros ->].
  - destruct (assoc origin airport_params) as [[mu sigma]|]; discriminate.
Qed.

Lemma generate_flight_data_invariant env weather_data target_date :
  emits delay_invariant (_generate_flight_data env weather_data target_date).
Proof.
  unfold _generate_flight_data.
  apply emits_for_each; intros airline.
  apply emits_for_each; intros [origin oc].
  apply emits_for_each; intros [dest dc].
  destruct (negb (String.eqb origin dest)); [|apply emits_rret_nil].
  intros n rows n'. unfold rbindR at 1, draw_int at 1.
  apply emits_repeat_times. intros ? ? ?. apply one_flight_invariant.
Qed.

(** *** The simulator returns when every precipitation reading is a number
        or counts as false *)

Lemma returns_for_each {A B} (l : list A) (body : A -> R (list B)) :
  (forall a, In a l -> returns (body a)) -> returns (for_each l body).
Proof.
  induction l as [|a l IH]; intros Hbody n; cbn [for_each].
  - now eexists _, _.
  - destruct (Hbody a (or_introl eq_refl) n) as (rows1 & n1 & E1).
    destruct (IH (fun a' H => Hbody a' (or_intror H)) n1) as (rows2 & n2 & E2).
    apply (bound_after_ok rows1) in E2.
    unfold rbindR. rewrite E1, E2. now eexists _, _.
Qed.

Lemma returns_repeat_times {B} (k : nat) (body : R B) :
  returns body -> returns (repeat_times k body).
Proof.
  intros Hbody. induction k as [|k IH]; intros n; cbn [repeat_times].
  - now eexists _, _.
  - destruct (Hbody n) as (r & n1 & E1). destruct (IH n1) as (rows & n2 & E2).
    apply (bound_after_ok [r]) in E2.
    unfold rbindR. rewrite E1, E2. now eexists _, _.
Qed.

Lemma delay_params_complete airline :
  In airline airlines -> exists mu sigma, assoc airline delay_params = Some (mu, sigma).
Proof.
  intros H. repeat (destruct H as [<-|H]; [now eexists _, _|]). destruct H.
Qed.

Lemma airport_params_complete origin c :
  In (origin, c) AIRPORT_COORDINATES ->
  exists mu sigma, assoc origin airport_params = Some (mu, sigma).
Proof.
  intros H. repeat (destruct H as [[= <- <-]|H]; [now eexists _, _|]). destruct H.
Qed.

Lemma simulate_delay_returns env airline temp precip :
  In airline airlines ->
  (truthy precip = false \/ as_number precip <> None) ->
  returns (simulate_delay env airline temp precip).
Proof.
  intros Ha Hp n. destruct (delay_params_complete airline Ha) as (mu & sigma & Hd).
  unfold simulate_delay.
  assert (exists p, as_number (if negb (truthy precip) then JNum 0.0 else precip) = Some p)
    as [p ->].
  { destruct Hp as [-> | Hp]; [now eexists|].
    destruct (truthy precip); cbn [negb]; [|now eexists].
    destruct (as_number precip); [now eexists | congruence]. }
  rewrite Hd. unfold rbindR, draw, rret.
  destruct (PrimFloat.leb 0.3 p); [destruct (PrimFloat.leb temp 32)|]; now eexists _, _.
Qed.

Lemma one_flight_returns env weather target_date airline origin c dest :
  In airline airlines -> In (origin, c) AIRPORT_COORDINATES ->
  (forall w, weather = Some w -> precipitation_usable w) ->
  returns (one_flight env weather target_date airline origin dest).
Proof.
  intros Ha Ho Hw n. destruct (airport_params_complete origin c Ho) as (mu & sigma & Hp).
  unfold one_flight, rbindR, draw, draw_int, attempt.
  match goal with
  | |- context [simulate_delay env airline ?t ?p ?k] =>
      destruct (simulate_delay_returns env airline t p Ha) with (n := k)
        as ([[pr alpha] af] & n1 & ->)
  end.
  - destruct weather as [w|]; cbn [field_or].
    + apply Hw. reflexivity.
    + right. discriminate.
  - rewrite Hp. now eexists _, _.
Qed.

Lemma generate_flight_data_returns env weather_data target_date :
  (forall code w, weather_data !! code = Some w -> precipitation_usable w) ->
  returns (_generate_flight_data env weather_data target_date).
Proof.
  intros Hw. unfold _generate_flight_data.
  apply returns_for_each; intros airline Ha.
  apply returns_for_each; intros [origin oc] Ho.
  apply returns_for_each; intros [dest dc] _.
  destruct (negb (String.eqb origin dest)); [|intros n; now eexists _, _].
  intros n. unfold rbindR at 1, draw_int at 1.
  apply returns_repeat_times.
  eapply one_flight_returns; eauto.
Qed.

(** C5. Whatever the weather and the draws, every flight record the
    simulator returns has a delay that is not negative and is flagged as a
    weather delay exactly when the delay is above 30 minutes; and the
    simulator does return its records when each precipitation reading is a
    number or counts as false. *)
Theorem generated_flights_delay_invariant (env : Env)
    (weather_data : gmap string WeatherSnapshot) (target_date : Dates.date) (n : nat) :
  (forall rows n',
      _generate_flight_data env weather_data target_date n = (Ok rows, n') ->
      Forall delay_invariant rows)
  /\ ((forall code w, weather_data !! code = Some w -> precipitation_usable w) ->
      exists rows n',
        _generate_flight_data env weather_data target_date n = (Ok rows, n')
        /\ Forall delay_invariant rows).
Proof.
  split.
  - intros rows n'. apply generate_flight_data_invariant.
  - intros Hw.
    destruct (generate_flight_data_returns env weather_data target_date Hw n)
      as (rows & n' & E).
    exists rows, n'. split; [exact E|].
    eapply generate_flight_data_invariant. exact E.
Qed.

Lemma generated_flights_delay_invariant_witness :
  exists rows n',
    _generate_flight_data (Samples.world Samples.no_network)
      {[ "SEA"%string := default_weather (init (Samples.world Samples.no_network)) ]}
      Samples.dec_11 0%nat = (Ok rows, n')
    /\ Forall delay_invariant rows.
Proof.
  apply (generated_flights_delay_invariant (Samples.world Samples.no_network)
           {[ "SEA"%string := default_weather (init (Samples.world Samples.no_network)) ]}
           Samples.dec_11 0%nat).
  intros code w H. apply lookup_singleton_Some in H as [_ <-].
  left. reflexivity.
Defined.

(** One flight per route: 5 airlines on 20 routes. *)
Example generate_flight_data_count :
  option_map (@length FlightRecord)
    (match fst (_generate_flight_data (Samples.world Samples.no_network) ∅ Samples.dec_11 0%nat) with
     | Ok rows => Some rows
     | Raise _ => None
     end) = Some 100%nat.
Proof. vm_compute. reflexivity. Qed.

(** A precipitation reading that is a text stops the simulator: no record
    of the day is returned.  At the first airport the first flight fails on
    the name that has no value yet, at a later airport on the sum. *)
Example generate_flight_data_text_precipitation :
  let snapshot := default_weather (init (Samples.world Samples.no_network)) in
  let wet := {| temperature := temperature snapshot; feels_like := feels_like snapshot;
                humidity := humidity snapshot; pressure := pressure snapshot;
                wind_speed := wind_speed snapshot;
                wind_direction := wind_direction snapshot;
                visibility := visibility snapshot;
                cloud_coverage := cloud_coverage snapshot;
                weather_condition := weather_condition snapshot;
                precipitation := JStr "heavy";
                timestamp := timestamp snapshot |} in
  fst (_generate_flight_data (Samples.world Samples.no_network)
         {[ "SEA"%string := wet ]} Samples.dec_11 0%nat)
  = Raise (UnboundLocalError "airline_factor")
  /\ fst (_generate_flight_data (Samples.world Samples.no_network)
            {[ "LAX"%string := wet ]} Samples.dec_11 0%nat)
     = Raise TypeError.
Proof. split; vm_compute; reflexivity. Qed.

(** ** Storing *)

Lemma drop_from_distinct (seen df : DataFrame) :
  Forall (fun r => existsb (same_row r) seen = false) (drop_from seen df)
  /\ distinct_rows (drop_from seen df).
Proof.
  revert seen. induction df as [|r df IH]; intros seen; cbn [drop_from].
  - split; constructor.
  - destruct (existsb (same_row r) seen) eqn:E; [apply IH|].
    destruct (IH (r :: seen)) as [Hseen Hdist].
    assert (Hsplit : Forall (fun x => same_row x r = false
                                      /\ existsb (same_row x) seen = false)
                       (drop_from (r :: seen) df)).
    { eapply List.Forall_impl; [|exact Hseen]. cbn. intros x Hx.
      now apply orb_false_iff in Hx. }
    split.
    + constructor; [exact E|]. eapply List.Forall_impl; [|exact Hsplit]. now intros x [_ H].
    + constructor; [|exact Hdist].
      eapply List.Forall_impl; [|exact Hsplit]. now intros x [H _].
Qed.

(** A batch without duplicates loses no row. *)
Lemma drop_from_distinct_batch (seen df : DataFrame) :
  Forall (fun r => existsb (same_row r) seen = false) df ->
  distinct_rows df ->
  drop_from seen df = df.
Proof.
  revert seen. induction df as [|r df IH]; intros seen Hseen Hdist; [reflexivity|].
  cbn [drop_from].
  apply List.Forall_cons_iff in Hseen as [Hr Hseen].
  inversion Hdist as [|? ? Hlater Hdist']; subst.
  rewrite Hr. f_equal. apply IH; [|exact Hdist'].
  apply List.Forall_forall. intros x Hx. cbn [existsb].
  apply orb_false_iff. split.
  - now apply (proj1 (List.Forall_forall _ _) Hlater).
  - now apply (proj1 (List.Forall_forall _ _) Hseen).
Qed.

Lemma clean_data_shape (df cleaned : DataFrame) :
  _clean_data df = Ok cleaned ->
  cleaned = map (fillna (mean (map f_temperature (drop_from [] df)))) (drop_from [] df).
Proof.
  unfold _clean_data, drop_duplicates.
  destruct (forallb _ df); [|discriminate]. cbn [rbind].
  destruct (drop_from [] df); [discriminate|]. now intros [= <-].
Qed.

Lemma copies_app (r : FlightRecord) (rows rows' : list FlightRecord) :
  copies r (rows ++ rows') = (copies r rows + copies r rows')%nat.
Proof. unfold copies. now rewrite List.filter_app, length_app. Qed.

(** C3, as the code has it.  Each store call drops, inside its own batch,
    every row that is the same as a row before it, and appends what is left
    to the table.  The rows already in the table are not compared: after two
    calls the table is the old table, then the first cleaned batch, then the
    second, and a row has as many copies as the three parts have together.
    A batch that has no duplicate inside is appended whole. *)
Theorem store_twice_appends (st : State) (batch1 batch2 cleaned1 cleaned2 : DataFrame) :
  _clean_data batch1 = Ok cleaned1 ->
  _clean_data batch2 = Ok cleaned2 ->
  db (store batch2 (store batch1 st)) = Some (table_rows st ++ cleaned1 ++ cleaned2)
  /\ (forall r,
        copies r (table_rows (store batch2 (store batch1 st)))
        = (copies r (table_rows st) + copies r cleaned1 + copies r cleaned2)%nat)
  /\ distinct_rows (drop_from [] batch1)
  /\ distinct_rows (drop_from [] batch2)
  /\ cleaned1 = map (fillna (mean (map f_temperature (drop_from [] batch1))))
                  (drop_from [] batch1)
  /\ cleaned2 = map (fillna (mean (map f_temperature (drop_from [] batch2))))
                  (drop_from [] batch2)
  /\ (distinct_rows batch1 -> drop_from [] batch1 = batch1)
  /\ (distinct_rows batch2 -> drop_from [] batch2 = batch2).
Proof.
  intros H1 H2.
  assert (E : db (store batch2 (store batch1 st))
              = Some (table_rows st ++ cleaned1 ++ cleaned2)).
  { unfold store. rewrite H1, H2. unfold _store_data, table_rows. cbn [db from_option id].
    f_equal. symmetry. apply app_assoc. }
  split; [exact E|]. split.
  - intros r. unfold table_rows at 1. rewrite E. cbn [from_option id].
    rewrite !copies_app. lia.
  - repeat split; try apply drop_from_distinct; try (now apply clean_data_shape);
      intros Hd;
      (apply drop_from_distinct_batch;
       [apply List.Forall_forall; intros r _; reflexivity | exact Hd]).
Qed.

Lemma store_twice_appends_witness :
  db (store [Samples.dry_flight; Samples.late_flight]
        (store [Samples.dry_flight; Samples.dry_flight; Samples.wet_flight]
           (Samples.collector (Samples.world Samples.no_network) (Some []))))
  = Some [Samples.dry_flight; Samples.wet_flight; Samples.dry_flight; Samples.late_flight].
Proof.
  destruct (store_twice_appends
              (Samples.collector (Samples.world Samples.no_network) (Some []))
              [Samples.dry_flight; Samples.dry_flight; Samples.wet_flight]
              [Samples.dry_flight; Samples.late_flight]
              [Samples.dry_flight; Samples.wet_flight]
              [Samples.dry_flight; Samples.late_flight]) as [E _].
  - vm_compute. reflexivity.
  - vm_compute. reflexivity.
  - exact E.
Defined.

(** C3, as stated, fails: the same one-row batch stored twice into an empty
    table leaves two copies of the row. *)
Lemma store_twice_leaves_two_copies :
  let st := Samples.collector (Samples.world Samples.no_network) (Some []) in
  let after := store [Samples.dry_flight] (store [Samples.dry_flight] st) in
  db after = Some [Samples.dry_flight; Samples.dry_flight]
  /\ copies Samples.dry_flight (table_rows after) = 2%nat
  /\ ~ (copies Samples.dry_flight (table_rows after) <= 1)%nat.
Proof.
  cbv zeta. split; [vm_compute; reflexivity|].
  assert (E : copies Samples.dry_flight
                (table_rows
                   (store [Samples.dry_flight]
                      (store [Samples.dry_flight]
                         (Samples.collector (Samples.world Samples.no_network) (Some [])))))
              = 2%nat) by (vm_compute; reflexivity).
  split; [exact E | rewrite E; lia].
Qed.

(** ** The weather gateway *)

(** *** What a call of the gateway leaves unchanged

    A relation between the service before and after that the clock, a
    request and the cache update respect is respected by every step of
    [get_weather]. *)

Section ServiceFrame.

Variable env : Env.
Variable airport_code : string.
Variable Rel : Service -> Service -> Prop.

Hypothesis Rel_refl : forall s, Rel s s.
Hypothesis Rel_trans : forall s1 s2 s3, Rel s1 s2 -> Rel s2 s3 -> Rel s1 s3.
Hypothesis Rel_now : forall s, Rel s (snd (now env s)).
Hypothesis Rel_request : forall url s, Rel s (snd (requests_get env url s)).
Hypothesis Rel_insert :
  forall entry s,
    Rel s {| cache := <[airport_code := entry]> (cache s);
             default_stamp := default_stamp s;
             requests := requests s; ticks := ticks s |}.

Lemma preserves_ret {A} (a : A) : preserves Rel (ret a).
Proof. intros s. apply Rel_refl. Qed.

Lemma preserves_throw {A} (e : exn) : preserves Rel (@throw A e).
Proof. intros s. apply Rel_refl. Qed.

Lemma preserves_lift {A} (r : result A) : preserves Rel (lift r).
Proof. intros s. apply Rel_refl. Qed.

Lemma preserves_bind {A B} (m : M A) (k : A -> M B) :
  preserves Rel m -> (forall a, preserves Rel (k a)) -> preserves Rel (bind m k).
Proof.
  intros Hm Hk s. unfold bind. specialize (Hm s).
  destruct (m s) as [[a|e] s1]; cbn [snd] in *; [|exact Hm].
  eapply Rel_trans; [exact Hm | apply Hk].
Qed.

Lemma preserves_raise_for_status (r : Response) : preserves Rel (raise_for_status r).
Proof.
  unfold raise_for_status.
  destruct (_ && _); [apply preserves_throw | apply preserves_ret].
Qed.

Lemma preserves_response_json (r : Response) : preserves Rel (response_json r).
Proof.
  unfold response_json. destruct (body r); [apply preserves_ret | apply preserves_throw].
Qed.

Lemma preserves_cache_lookup (key : string) : preserves Rel (cache_lookup env key).
Proof.
  intros s. unfold cache_lookup. destruct (cache s !! key) as [entry|]; [|apply Rel_refl].
  apply preserves_bind; [exact Rel_now|]. intros t.
  destruct (_ <? _); apply preserves_ret.
Qed.

Lemma preserves_cache_store (w : WeatherSnapshot) :
  preserves Rel (cache_store env airport_code w).
Proof.
  unfold cache_store. apply preserves_bind; [exact Rel_now|].
  intros t s. apply Rel_insert.
Qed.

Ltac preserves_steps :=
  repeat first
    [ apply preserves_ret | apply preserves_throw | apply preserves_lift
    | exact Rel_now | exact (Rel_request _)
    | apply preserves_raise_for_status | apply preserves_response_json
    | apply preserves_cache_lookup | apply preserves_cache_store
    | apply preserves_bind; [|intros ?] ].

Lemma preserves_fetch_properties (airport_data : Coordinates) :
  preserves Rel (fetch_properties env airport_data).
Proof. unfold fetch_properties. preserves_steps. Qed.

Lemma preserves_get_weather_try (airport_data : Coordinates)
    (target_date : option Dates.datetime) :
  preserves Rel (get_weather_try env airport_code airport_data target_date).
Proof.
  unfold get_weather_try.
  apply preserves_bind; [destruct target_date; preserves_steps|]. intros target.
  apply preserves_bind; [preserves_steps|]. intros [snapshot|]; [preserves_steps|].
  apply preserves_bind; [apply preserves_fetch_properties|]. intros properties.
  destruct (process_observation env properties); [preserves_steps|].
  intros s. apply Rel_refl.
Qed.

(** From the state after the first request on. *)
Lemma fetch_properties_after_request (airport_data : Coordinates) (s : Service) :
  Rel (snd (requests_get env (points_url airport_data) s))
      (snd (fetch_properties env airport_data s)).
Proof.
  unfold fetch_properties, bind at 1.
  destruct (requests_get env (points_url airport_data) s) as [[response|e] s1];
    cbn [snd]; [|apply Rel_refl].
  revert s1. change (preserves Rel
    (let* _ := raise_for_status response in
     let* points_data := response_json response in
     let* props := lift (getitem points_data "properties") in
     let* observation_url := lift (getitem props "observationStations") in
     let* stations_response := requests_get env (text_of env observation_url) in
     let* _ := raise_for_status stations_response in
     let* stations := response_json stations_response in
     let* features := lift (getitem stations "features") in
     let* first_station := lift (getfirst features) in
     let* station_url := lift (getitem first_station "id") in
     let* observation_response :=
       requests_get env (text_of env station_url +:+ "/observations/latest") in
     let* _ := raise_for_status observation_response in
     let* current_data := response_json observation_response in
     lift (getitem current_data "properties"))).
  preserves_steps.
Qed.

Lemma bind_from {A B} (m : M A) (k : A -> M B) (s0 s : Service) :
  Rel s0 (snd (m s)) -> (forall a, preserves Rel (k a)) -> Rel s0 (snd (bind m k s)).
Proof.
  intros Hm Hk. unfold bind.
  destruct (m s) as [[a|e] s1]; cbn [snd] in *; [|exact Hm].
  eapply Rel_trans; [exact Hm | apply Hk].
Qed.

Lemma get_weather_snd (airport_data : Coordinates) (target_date : option Dates.datetime)
    (s : Service) :
  snd (get_weather env airport_code airport_data target_date s)
  = snd (get_weather_try env airport_code airport_data target_date s).
Proof.
  unfold get_weather.
  destruct (get_weather_try _ _ _ _ s) as [[w|[]] s1]; reflexivity.
Qed.

Lemma get_weather_returns (airport_data : Coordinates)
    (target_date : option Dates.datetime) (s : Service) :
  exists snapshot,
    fst (get_weather env airport_code airport_data target_date s) = Ok snapshot.
Proof.
  unfold get_weather.
  destruct (get_weather_try _ _ _ _ s) as [[w|[]] s1]; now eexists.
Qed.

(** When the cache has nothing under the key that is looked up, the points
    request is sent and the call goes on from there. *)
Lemma get_weather_after_miss (airport_data : Coordinates) (target : Dates.datetime)
    (s : Service) :
  cache s !! cache_key airport_code target = None ->
  Rel (snd (requests_get env (points_url airport_data) s))
      (snd (get_weather env airport_code airport_data (Some target) s)).
Proof.
  intros Hmiss. rewrite get_weather_snd. unfold get_weather_try.
  unfold bind at 1, ret at 1. unfold bind at 1, cache_lookup at 1. rewrite Hmiss.
  apply bind_from; [apply fetch_properties_after_request|].
  intros properties.
  destruct (process_observation env properties); [preserves_steps|].
  intros s'. apply Rel_refl.
Qed.

Lemma preserves_get_weather (airport_data : Coordinates)
    (target_date : option Dates.datetime) (s : Service) :
  Rel s (snd (get_weather env airport_code airport_data target_date s)).
Proof. rewrite get_weather_snd. apply preserves_get_weather_try. Qed.

End ServiceFrame.

(** A call leaves every cache entry alone except the one of its airport code. *)
Lemma get_weather_cache_other_keys env airport_code airport_data target_date s key :
  key <> airport_code ->
  cache (snd (get_weather env airport_code airport_data target_date s)) !! key
  = cache s !! key.
Proof.
  intros Hkey.
  apply (preserves_get_weather env airport_code
           (fun s s' => cache s' !! key = cache s !! key)); try reflexivity.
  - intros s1 s2 s3 H12 H23. now rewrite H23.
  - intros entry s0. cbn [cache]. now apply lookup_insert_ne.
Qed.

(** The fixed default snapshot stays the same. *)
Lemma get_weather_default_stamp env airport_code airport_data target_date s :
  default_stamp (snd (get_weather env airport_code airport_data target_date s))
  = default_stamp s.
Proof.
  apply (preserves_get_weather env airport_code
           (fun s s' => default_stamp s' = default_stamp s)); try reflexivity.
  intros s1 s2 s3 H12 H23. now rewrite H23.
Qed.

Lemma fetch_properties_default_stamp env airport_data s :
  default_stamp (snd (fetch_properties env airport_data s)) = default_stamp s.
Proof.
  apply (preserves_fetch_properties env
           (fun s s' => default_stamp s' = default_stamp s)); try reflexivity.
  intros s1 s2 s3 H12 H23. now rewrite H23.
Qed.

Lemma string_length_app (a b : string) :
  String.length (a +:+ b) = (String.length a + String.length b)%nat.
Proof.
  induction a as [|c a IH]; [reflexivity|].
  change (S (String.length (a +:+ b)) = S (String.length a + String.length b)).
  now rewrite IH.
Qed.

(** The key that is looked up is never the key that is written. *)
Lemma cache_key_not_airport_code (airport_code : string) (target : Dates.datetime) :
  cache_key airport_code target <> airport_code.
Proof.
  unfold cache_key. intros E. apply (f_equal String.length) in E.
  rewrite !string_length_app in E. cbn in E. lia.
Qed.

(** *** The cache *)

(** A call that finds nothing under its lookup key sends the points
    request: the list of requests grows by it, and by what follows. *)
Lemma get_weather_miss_sends env airport_code airport_data target s :
  cache s !! cache_key airport_code target = None ->
  exists more,
    requests (snd (get_weather env airport_code airport_data (Some target) s))
    = requests s ++ points_url airport_data :: more.
Proof.
  intros Hmiss.
  assert (H : requests (snd (requests_get env (points_url airport_data) s))
              `prefix_of`
              requests (snd (get_weather env airport_code airport_data (Some target) s))).
  { apply (get_weather_after_miss env airport_code
             (fun s s' => requests s `prefix_of` requests s')); try reflexivity;
      [ intros s1 s2 s3; apply transitivity
      | intros url s0; cbn; now apply prefix_app_r
      | exact Hmiss ]. }
  destruct H as [more H]. exists more. rewrite H. cbn [requests_get snd requests].
  now rewrite <- app_assoc.
Qed.

(** After any call on a service whose cache was empty, the key that a
    later call for the same airport looks up is absent: the entry, if one
    was written, is under the bare airport code.  The later call therefore
    asks weather.gov again, whatever the age of the entry. *)
Lemma get_weather_same_airport_misses env airport_code airport_data target1 target2 s :
  cache s = ∅ ->
  let s1 := snd (get_weather env airport_code airport_data (Some target1) s) in
  cache s1 !! cache_key airport_code target2 = None
  /\ exists more,
       requests (snd (get_weather env airport_code airport_data (Some target2) s1))
       = requests s1 ++ points_url airport_data :: more.
Proof.
  intros Hempty s1.
  assert (Hmiss : cache s1 !! cache_key airport_code target2 = None).
  { unfold s1. rewrite get_weather_cache_other_keys
      by apply cache_key_not_airport_code.
    rewrite Hempty. apply lookup_empty. }
  split; [exact Hmiss|]. now apply get_weather_miss_sends.
Qed.

(** C2, on the code.  SEA is fetched for 2024-12-11 from a weather.gov
    that answers; the snapshot is stored, under the key SEA.  The same call
    again, when the entry is one second old, finds nothing under
    SEA_2024-12-11, sends the three requests again and returns a new
    snapshot rather than the stored one. *)
Theorem get_weather_second_call_refetches :
  let env := Samples.world (Samples.weather_gov Samples.full_observation) in
  let call := get_weather env "SEA" Samples.sea (Some Samples.noon_dec_11) in
  let first := call (init env) in
  let second := call (snd first) in
  exists stored fetched_again,
    fst first = Ok stored
    /\ fst second = Ok fetched_again
    /\ option_map data (cache (snd first) !! "SEA"%string) = Some stored
    /\ cache_key "SEA" Samples.noon_dec_11 = "SEA_2024-12-11"%string
    /\ cache (snd first) !! "SEA_2024-12-11"%string = None
    /\ option_map (fun entry => clock env (ticks (snd first)) - stamp entry <? cache_duration)
         (cache (snd first) !! "SEA"%string) = Some true
    /\ length (requests (snd first)) = 3%nat
    /\ length (requests (snd second)) = 6%nat
    /\ timestamp fetched_again <> timestamp stored.
Proof.
  cbv zeta. eexists _, _.
  split; [vm_compute; reflexivity|]. split; [vm_compute; reflexivity|].
  split; [vm_compute; reflexivity|]. split; [vm_compute; reflexivity|].
  split; [vm_compute; reflexivity|]. split; [vm_compute; reflexivity|].
  split; [vm_compute; reflexivity|]. split; [vm_compute; reflexivity|].
  vm_compute. discriminate.
Qed.

(** *** Failures of weather.gov *)

Lemma sent_length url s : length (requests (sent url s)) = S (length (requests s)).
Proof. cbn. rewrite length_app. cbn. lia. Qed.

Lemma bind_exchange {A} env url (k : json -> M A) s :
  bind (requests_get env url)
    (fun r => bind (raise_for_status r) (fun _ => bind (response_json r) k)) s
  = match exchange env (length (requests s)) url with
    | Ok j => k j (sent url s)
    | Raise e => (Raise e, sent url s)
    end.
Proof.
  unfold bind, requests_get, exchange, raise_for_status, response_json, throw, ret, sent.
  destruct (http env (length (requests s)) url) as [r|]; [|reflexivity].
  destruct (_ && _); [reflexivity|]. destruct (body r); reflexivity.
Qed.

Lemma bind_run {A B} (m : M A) (k : A -> M B) s :
  bind m k s = match m s with
               | (Ok a, s') => k a s'
               | (Raise e, s') => (Raise e, s')
               end.
Proof. reflexivity. Qed.

Lemma bind_lift {A B} (r : result A) (k : A -> M B) s :
  bind (lift r) k s = match r with Ok a => k a s | Raise e => (Raise e, s) end.
Proof. destruct r; reflexivity. Qed.

Lemma fetch_properties_outcome env airport_data s :
  fst (fetch_properties env airport_data s)
  = fetch_outcome env airport_data (length (requests s)).
Proof.
  unfold fetch_properties, fetch_outcome.
  rewrite bind_exchange.
  destruct (exchange env (length (requests s)) _) as [points_data|]; [|reflexivity].
  cbn [rbind]. rewrite bind_lift.
  destruct (getitem points_data "properties") as [props|]; [|reflexivity].
  cbn [rbind]. rewrite bind_lift.
  destruct (getitem props "observationStations") as [observation_url|]; [|reflexivity].
  cbn [rbind]. rewrite bind_exchange, sent_length.
  destruct (exchange env (S (length (requests s))) _) as [stations|]; [|reflexivity].
  cbn [rbind]. rewrite bind_lift.
  destruct (getitem stations "features") as [features|]; [|reflexivity].
  cbn [rbind]. rewrite bind_lift.
  destruct (getfirst features) as [first_station|]; [|reflexivity].
  cbn [rbind]. rewrite bind_lift.
  destruct (getitem first_station "id") as [station_url|]; [|reflexivity].
  cbn [rbind]. rewrite bind_exchange, !sent_length.
  destruct (exchange env (S (S (length (requests s)))) _) as [current_data|]; [|reflexivity].
  reflexivity.
Qed.

Lemma process_bare_observation env :
  process_observation env (JObj []) = Ok fallback_snapshot.
Proof. reflexivity. Qed.

Lemma fallback_snapshot_not_default stamp s : fallback_snapshot stamp <> default_weather s.
Proof.
  intros E. apply (f_equal (fun w => PrimFloat.eqb (visibility w) 10)) in E.
  vm_compute in E. discriminate.
Qed.

Lemma bind_assoc {A B C} (m : M A) (f : A -> M B) (k : B -> M C) (s : Service) :
  bind (bind m f) k s = bind m (fun a => bind (f a) k) s.
Proof. unfold bind. destruct (m s) as [[a|e] s']; reflexivity. Qed.

(** The cache check leaves the requests, the cache and the default
    snapshot as they are, and raises nothing. *)
Lemma cache_check_state env airport_code target_date s :
  exists cached s1,
    cache_check env airport_code target_date s = (Ok cached, s1)
    /\ requests s1 = requests s /\ default_stamp s1 = default_stamp s
    /\ cache s1 = cache s.
Proof.
  unfold cache_check.
  destruct target_date as [t|]; unfold bind at 1, ret, now, cache_lookup; cbn [cache].
  - destruct (cache s !! cache_key airport_code t) as [entry|]; [|now eexists _, _].
    unfold bind, now, ret. destruct (_ <? _); now eexists _, _.
  - destruct (cache s !! cache_key airport_code (clock env (ticks s))) as [entry|];
      [|now eexists _, _].
    unfold bind, now, ret. cbn [ticks]. destruct (_ <? _); now eexists _, _.
Qed.

(** Nothing under the key: nothing is served. *)
Lemma cache_check_miss env airport_code target_date s :
  cache s !! cache_key airport_code (default (clock env (ticks s)) target_date) = None ->
  fst (cache_check env airport_code target_date s) = Ok None.
Proof.
  intros Hmiss. unfold cache_check.
  destruct target_date as [t|]; cbn [from_option id] in Hmiss;
    unfold bind at 1, ret, now, cache_lookup; cbn [cache]; now rewrite Hmiss.
Qed.

(** An entry that is 30 minutes old or more when the call checks it:
    nothing is served either. *)
Lemma cache_check_stale env airport_code target s entry :
  cache s !! cache_key airport_code target = Some entry ->
  cache_duration <= clock env (ticks s) - stamp entry ->
  fst (cache_check env airport_code (Some target) s) = Ok None.
Proof.
  intros Hkey Hage. unfold cache_check.
  unfold bind at 1, ret, cache_lookup. rewrite Hkey.
  unfold bind, now, ret. apply Z.ltb_ge in Hage. now rewrite Hage.
Qed.

Lemma get_weather_try_check env airport_code airport_data target_date s :
  get_weather_try env airport_code airport_data target_date s
  = bind (cache_check env airport_code target_date)
      (fun cached =>
         match cached with
         | Some snapshot => ret snapshot
         | None =>
             let* properties := fetch_properties env airport_data in
             match process_observation env properties with
             | Ok fields =>
                 let* t := now env in
                 let weather_data := fields t in
                 let* _ := cache_store env airport_code weather_data in
                 ret weather_data
             | Raise _ => fun s => (Ok (default_weather s), s)
             end
         end) s.
Proof. unfold get_weather_try, cache_check. now rewrite bind_assoc. Qed.

(** C4, as the code has it.  [get_weather] never raises.  Whenever it
    fetches (the cache check serves nothing: no entry under the key, or one
    that is 30 minutes old or more) and the fetch raises (a request fails, a
    status is an error, a body is not JSON, a key on the way to the
    observation is missing, a value cannot be processed), it returns exactly
    the fixed default snapshot.  An observation that merely lacks its
    measurements is no failure: each field takes its own fallback and the
    snapshot returned is not the default one.  When the cache check serves a
    snapshot, that snapshot is returned and nothing is fetched. *)
Theorem get_weather_degrades_on_failure (env : Env) (airport_code : string)
    (airport_data : Coordinates) (target_date : option Dates.datetime) (s : Service) :
  (exists snapshot,
      fst (get_weather env airport_code airport_data target_date s) = Ok snapshot)
  /\ (fst (cache_check env airport_code target_date s) = Ok None ->
      (forall e,
          rbind (fetch_outcome env airport_data (length (requests s)))
            (process_observation env) = Raise e ->
          fst (get_weather env airport_code airport_data target_date s)
          = Ok (default_weather s))
      /\ (fetch_outcome env airport_data (length (requests s)) = Ok (JObj []) ->
          exists stamp,
            fst (get_weather env airport_code airport_data target_date s)
            = Ok (fallback_snapshot stamp)
            /\ fallback_snapshot stamp <> default_weather s))
  /\ (forall snapshot,
         fst (cache_check env airport_code target_date s) = Ok (Some snapshot) ->
         fst (get_weather env airport_code airport_data target_date s) = Ok snapshot
         /\ requests (snd (get_weather env airport_code airport_data target_date s))
            = requests s).
Proof.
  split; [apply get_weather_returns|].
  destruct (cache_check_state env airport_code target_date s)
    as (cached & s0 & Hcheck & Hrequests & Hstamp & _).
  split.
  - rewrite Hcheck. cbn [fst]. intros [= ->].
    pose proof (fetch_properties_outcome env airport_data s0) as Hout.
    pose proof (fetch_properties_default_stamp env airport_data s0) as Hdef.
    rewrite Hrequests in Hout. rewrite Hstamp in Hdef.
    unfold get_weather. rewrite get_weather_try_check, bind_run, Hcheck, bind_run.
    destruct (fetch_properties env airport_data s0) as [[properties|e'] s1];
      cbn [fst snd] in Hout, Hdef; rewrite <- Hout.
    + split.
      * intros e Hfail. cbn [rbind] in Hfail. rewrite Hfail. cbn [fst].
        unfold default_weather. now rewrite Hdef.
      * intros [= ->]. rewrite process_bare_observation.
        exists (clock env (ticks s1)). split; [reflexivity|].
        apply fallback_snapshot_not_default.
    + split.
      * intros _ _. destruct e'; cbn [fst]; unfold default_weather; now rewrite Hdef.
      * discriminate.
  - intros snapshot. rewrite Hcheck. cbn [fst]. intros [= ->].
    unfold get_weather. rewrite get_weather_try_check, bind_run, Hcheck.
    cbn. split; [reflexivity | exact Hrequests].
Qed.

Lemma get_weather_degrades_on_failure_witness :
  let down := Samples.world Samples.no_network in
  let old := {| cache := {[ "SEA_2024-12-11"%string :=
                              {| data := fallback_snapshot Samples.noon_dec_11;
                                 stamp := Samples.noon_dec_11 - Dates.minutes 30 |} ]};
                default_stamp := Samples.noon_dec_11; requests := []; ticks := 1 |} in
  fst (get_weather down "SEA" Samples.sea (Some Samples.noon_dec_11) (init down))
  = Ok (default_weather (init down))
  /\ fst (get_weather down "SEA" Samples.sea (Some Samples.noon_dec_11) old)
     = Ok (default_weather old)
  /\ exists stamp,
       fst (get_weather (Samples.world (Samples.weather_gov Samples.bare_observation))
              "SEA" Samples.sea None
              (init (Samples.world (Samples.weather_gov Samples.bare_observation))))
       = Ok (fallback_snapshot stamp).
Proof.
  intros down old. split; [|split].
  - apply (proj1 (proj1 (proj2 (get_weather_degrades_on_failure down
                           "SEA" Samples.sea (Some Samples.noon_dec_11) (init down)))
                    eq_refl)
             (RequestException "request failed")).
    vm_compute. reflexivity.
  - apply (proj1 (proj1 (proj2 (get_weather_degrades_on_failure down
                           "SEA" Samples.sea (Some Samples.noon_dec_11) old))
                    (cache_check_stale down "SEA" Samples.noon_dec_11 old _
                       (proj2 (lookup_singleton_Some _ _ _ _) (conj eq_refl eq_refl))
                       ltac:(vm_compute; discriminate)))
             (RequestException "request failed")).
    vm_compute. reflexivity.
  - destruct (proj2 (proj1 (proj2 (get_weather_degrades_on_failure
                              (Samples.world (Samples.weather_gov Samples.bare_observation))
                              "SEA" Samples.sea None
                              (init (Samples.world
                                       (Samples.weather_gov Samples.bare_observation)))))
                       eq_refl))
      as (stamp & E & _).
    + vm_compute. reflexivity.
    + exists stamp. exact E.
Defined.

(** C4, as stated, fails on missing fields: weather.gov answers every
    request, the observation has its properties but no measurement in them;
    the snapshot returned has visibility 6.21371 and feels_like 68.0 where
    the default snapshot has 10 and 65.0. *)
Lemma get_weather_missing_fields_not_default :
  let env := Samples.world (Samples.weather_gov Samples.bare_observation) in
  exists snapshot,
    fst (get_weather env "SEA" Samples.sea (Some Samples.noon_dec_11) (init env))
    = Ok snapshot
    /\ fetch_outcome env Samples.sea 0 = Ok (JObj [])
    /\ visibility snapshot = 6.2137099999999998%float
    /\ feels_like snapshot = 68.0%float
    /\ visibility (default_weather (init env)) = 10%float
    /\ feels_like (default_weather (init env)) = 65.0%float
    /\ snapshot <> default_weather (init env).
Proof.
  cbv zeta. eexists.
  split; [vm_compute; reflexivity|]. split; [vm_compute; reflexivity|].
  split; [vm_compute; reflexivity|]. split; [vm_compute; reflexivity|].
  split; [vm_compute; reflexivity|]. split; [vm_compute; reflexivity|].
  intros E. apply (f_equal (fun w => PrimFloat.eqb (visibility w) 10)) in E.
  vm_compute in E. discriminate.
Qed.

(** Each kind of failure at the first request makes the fetch raise. *)
Lemma fetch_outcome_request_fails env airport_data n :
  http env n (points_url airport_data) = None ->
  fetch_outcome env airport_data n = Raise (RequestException "request failed").
Proof. intros H. unfold fetch_outcome, exchange. now rewrite H. Qed.

Lemma fetch_outcome_error_status env airport_data n r :
  http env n (points_url airport_data) = Some r ->
  400 <= status_code r < 600 ->
  fetch_outcome env airport_data n = Raise (RequestException "http error").
Proof.
  intros H Hs. unfold fetch_outcome, exchange. rewrite H.
  destruct (Z.leb_spec 400 (status_code r)); [|lia].
  destruct (Z.ltb_spec (status_code r) 600); [|lia]. reflexivity.
Qed.

Lemma fetch_outcome_not_json env airport_data n r :
  http env n (points_url airport_data) = Some r ->
  body r = None ->
  exists e, fetch_outcome env airport_data n = Raise e.
Proof.
  intros H Hb. unfold fetch_outcome, exchange. rewrite H, Hb.
  destruct (_ && _); now eexists.
Qed.

Lemma fetch_outcome_missing_properties env airport_data n fields :
  exchange env n (points_url airport_data) = Ok (JObj fields) ->
  assoc "properties" fields = None ->
  fetch_outcome env airport_data n = Raise (KeyError "properties").
Proof.
  intros H Hf. unfold fetch_outcome. rewrite H. cbn [rbind getitem]. now rewrite Hf.
Qed.

(** A barometric pressure whose value is null cannot be divided: the
    processing raises. *)
Example process_null_pressure env :
  process_observation env
    (JObj [("barometricPressure", JObj [("value", JNull)])]%string) = Raise TypeError.
Proof. reflexivity. Qed.

(** ** The collection run *)

Lemma processed_days_app (l1 l2 : list event) :
  processed_days (l1 ++ l2) = processed_days l1 ++ processed_days l2.
Proof. apply omap_app. Qed.

Lemma processed_days_other (l : list event) (e : event) :
  match e with ProcessingDate _ => False | _ => True end ->
  processed_days (l ++ [e]) = processed_days l.
Proof.
  intros H. rewrite processed_days_app.
  destruct e; try contradiction; apply app_nil_r.
Qed.

Lemma collect_day_processed env d all_data st :
  processed_days (log (snd (collect_day env d (all_data, st))))
  = processed_days (log st) ++ [d].
Proof.
  unfold collect_day.
  destruct (get_bulk_weather env AIRPORT_COORDINATES _ _ _) as [weather_data svc].
  cbn [add_log rng db log].
  destruct (_generate_flight_data env weather_data d (rng st)) as [[daily|e] n];
    cbn [snd add_log log]; rewrite ?processed_days_other by exact I;
    now rewrite processed_days_app.
Qed.

Lemma collect_days_processed env days acc :
  processed_days (log (snd (fold_left (fun acc d => collect_day env d acc) days acc)))
  = processed_days (log (snd acc)) ++ days.
Proof.
  revert acc. induction days as [|d days IH]; intros acc; cbn [fold_left].
  - now rewrite app_nil_r.
  - rewrite IH. destruct acc as [all_data st]. rewrite collect_day_processed.
    cbn [snd]. now rewrite <- app_assoc.
Qed.

(** A collection processes every day from the start to the end, in order,
    whatever happens on each. *)
Lemma collect_and_store_data_processed env start_date end_date st :
  processed_days (log (collect_and_store_data env (Some start_date) (Some end_date) st))
  = processed_days (log st) ++ days_from start_date end_date.
Proof.
  unfold collect_and_store_data. cbn [default from_option id].
  pose proof (collect_days_processed env (days_from start_date end_date) ([], st)) as H.
  destruct (fold_left _ (days_from start_date end_date) ([], st)) as [all_data st'].
  cbn [snd] in H. rewrite <- H.
  destruct all_data as [|daily all_data].
  - cbn [add_log log]. now apply processed_days_other.
  - destruct (_clean_data _) as [cleaned|e]; cbn [add_log _store_data log];
      now rewrite !processed_days_other.
Qed.

Lemma collect_days_db env days acc :
  db (snd (fold_left (fun acc d => collect_day env d acc) days acc)) = db (snd acc).
Proof.
  revert acc. induction days as [|d days IH]; intros acc; cbn [fold_left]; [reflexivity|].
  rewrite IH. destruct acc as [all_data st]. unfold collect_day.
  destruct (get_bulk_weather env AIRPORT_COORDINATES _ _ _) as [weather_data svc].
  cbn [add_log rng db].
  now destruct (_generate_flight_data env weather_data d (rng st)) as [[daily|e] n].
Qed.

(** What a collection leaves in the table: the cleaned rows of all days
    after what was there, or what was there when no day gave a frame or the
    cleaning raised. *)
Lemma collect_and_store_data_db env start_date end_date st :
  db (collect_and_store_data env (Some start_date) (Some end_date) st)
  = match fold_left (fun acc d => collect_day env d acc)
            (days_from start_date end_date) ([], st) with
    | ([], _) => db st
    | (all_data, _) =>
        match _clean_data (concat all_data) with
        | Ok cleaned_data => Some (default [] (db st) ++ cleaned_data)
        | Raise _ => db st
        end
    end.
Proof.
  unfold collect_and_store_data. cbn [default from_option id].
  pose proof (collect_days_db env (days_from start_date end_date) ([], st)) as H.
  destruct (fold_left _ (days_from start_date end_date) ([], st)) as [all_data st'].
  cbn [snd] in H.
  destruct all_data as [|daily all_data]; [exact H|].
  destruct (_clean_data _) as [cleaned|e]; cbn [add_log _store_data db];
    now rewrite H.
Qed.

Lemma initialize_historical_data_db env force st :
  db (snd (initialize_historical_data env force st))
  = db (if force then
          collect_and_store_data env (Some (Dates.toordinal 2024 12 13 - 369))
            (Some (Dates.toordinal 2024 12 13))
            (init_database (add_log Reinitializing st))
        else st).
Proof.
  unfold initialize_historical_data.
  destruct (get_stored_data _ _ _) as [[|r stored]|e]; reflexivity.
Qed.

Lemma days_from_length (start_date end_date : Dates.date) :
  length (days_from start_date end_date) = Z.to_nat (end_date - start_date + 1).
Proof. unfold days_from. now rewrite length_map, length_seq. Qed.

(** With the days in order, each day of the range is met. *)
Lemma days_from_complete (start_date end_date d : Dates.date) :
  start_date <= d <= end_date -> In d (days_from start_date end_date).
Proof.
  intros H. unfold days_from. apply in_map_iff.
  exists (Z.to_nat (d - start_date)). split; [lia|].
  apply in_seq. lia.
Qed.

(** C1, as the code has it.  The collection is inside [if force]: with
    force=True the database is reinitialized (what the table held is
    discarded), every calendar day from 2023-12-10 to 2024-12-13, 370 days,
    is processed in order, and the cleaned rows of all days are stored in
    the new table before the stored range is read back; with
    force=False no day is processed, and the service, the generator and the
    table are left as they were: the run only reads the stored range back. *)
Theorem initialize_historical_data_collects_when_forced (env : Env) (st : State) :
  let end_date := Dates.toordinal 2024 12 13 in
  let start_date := end_date - 369 in
  let unforced := initialize_historical_data env false st in
  let forced := initialize_historical_data env true st in
  (processed_days (log (snd unforced)) = processed_days (log st)
   /\ service (snd unforced) = service st
   /\ rng (snd unforced) = rng st
   /\ db (snd unforced) = db st
   /\ fst unforced
      = rbind (get_stored_data (Some start_date) (Some end_date) (db st))
          (fun stored_data =>
             match stored_data with
             | [] => Raise (PlainException "No data was stored after collection")
             | _ => Ok stored_data
             end))
  /\ (processed_days (log (snd forced))
      = processed_days (log st) ++ days_from start_date end_date
      /\ length (days_from start_date end_date) = 370%nat
      /\ (forall d, start_date <= d <= end_date -> In d (processed_days (log (snd forced))))
      /\ forced
         = initialize_historical_data env false
             (collect_and_store_data env (Some start_date) (Some end_date)
                (init_database (add_log Reinitializing st)))
      /\ (forall rows,
            forced
            = initialize_historical_data env true
                {| service := service st; rng := rng st; db := rows; log := log st |})
      /\ db (snd forced)
         = match fold_left (fun acc d => collect_day env d acc)
                   (days_from start_date end_date)
                   ([], init_database (add_log Reinitializing st)) with
           | ([], _) => Some []
           | (all_data, _) =>
               match _clean_data (concat all_data) with
               | Ok cleaned_data => Some cleaned_data
               | Raise _ => Some []
               end
           end).
Proof.
  cbv zeta. split.
  - unfold initialize_historical_data.
    destruct (get_stored_data _ _ (db st)) as [[|r stored]|e]; cbn [fst snd rbind];
      cbn [add_log log service rng db]; rewrite ?processed_days_other by exact I;
      repeat split; reflexivity.
  - assert (Hlog : processed_days
                     (log (snd (initialize_historical_data env true st)))
                   = processed_days (log st)
                     ++ days_from (Dates.toordinal 2024 12 13 - 369)
                          (Dates.toordinal 2024 12 13)).
    { unfold initialize_historical_data.
      set (st' := collect_and_store_data env _ _ _).
      assert (Hst' : processed_days (log st')
                     = processed_days (log st)
                       ++ days_from (Dates.toordinal 2024 12 13 - 369)
                            (Dates.toordinal 2024 12 13)).
      { unfold st'. rewrite collect_and_store_data_processed.
        cbn [init_database add_log log]. now rewrite processed_days_other. }
      destruct (get_stored_data _ _ (db st')) as [[|r stored]|e]; cbn [snd add_log log];
        rewrite ?processed_days_other by exact I; exact Hst'. }
    split; [exact Hlog|]. split; [rewrite days_from_length; reflexivity|].
    split; [|split; [reflexivity | split; [intros rows; reflexivity|]]].
    + intros d Hd. rewrite Hlog. apply in_or_app. right. now apply days_from_complete.
    + rewrite initialize_historical_data_db, collect_and_store_data_db. reflexivity.
Qed.

(** C1, as stated, fails: with force=False on a collector whose table
    holds one flight of the range, the run returns that flight and has
    processed none of the 370 days: no request was sent, no number drawn, the
    table is as it was. *)
Lemma initialize_historical_data_unforced_collects_nothing :
  let env := Samples.world (Samples.weather_gov Samples.full_observation) in
  let st := Samples.collector env (Some [Samples.dry_flight]) in
  let run := initialize_historical_data env false st in
  fst run = Ok [Samples.dry_flight]
  /\ processed_days (log (snd run)) = []
  /\ requests (service (snd run)) = []
  /\ rng (snd run) = 0%nat
  /\ db (snd run) = Some [Samples.dry_flight]
  /\ length (days_from (Dates.toordinal 2024 12 13 - 369) (Dates.toordinal 2024 12 13))
     = 370%nat
  /\ processed_days (log (snd run))
     <> days_from (Dates.toordinal 2024 12 13 - 369) (Dates.toordinal 2024 12 13).
Proof.
  cbv zeta.
  split; [vm_compute; reflexivity|]. split; [vm_compute; reflexivity|].
  split; [vm_compute; reflexivity|]. split; [vm_compute; reflexivity|].
  split; [vm_compute; reflexivity|]. split; [vm_compute; reflexivity|].
  intros E. apply (f_equal (@length Dates.date)) in E. vm_compute in E. discriminate.
Qed.

(** A forced run over a short range, as [collect_and_store_data] is called
    by the scheduler: three days, one hundred flights each. *)
Example collect_three_days :
  let env := Samples.world Samples.no_network in
  let st := collect_and_store_data env (Some Samples.dec_11) (Some (Samples.dec_11 + 2))
              (Samples.collector env (Some [])) in
  processed_days (log st) = [Samples.dec_11; Samples.dec_11 + 1; Samples.dec_11 + 2]
  /\ length (requests (service st)) = 15%nat.
Proof. cbv zeta. split; vm_compute; reflexivity. Qed.

(** * Further properties *)

(** ** The simulator: routes, weather columns and number of flights *)

Lemma emits_for_each_in {A B} (P : B -> Prop) (l : list A) (body : A -> R (list B)) :
  (forall a, In a l -> emits P (body a)) -> emits P (for_each l body).
Proof.
  induction l as [|a l IH]; intros Hbody; cbn [for_each].
  - apply emits_rret_nil.
  - intros n rows n'. unfold rbindR at 1.
    destruct (body a n) as [[rows1|e] n1] eqn:E1; [|discriminate].
    unfold rbindR at 1.
    destruct (bound_after rows1 (for_each l body) n1) as [[rows2|e] n2] eqn:E2;
      [|discriminate].
    apply bound_after_ok in E2.
    intros [= <- _]. apply Forall_app. split.
    + eapply Hbody; [now left | eassumption].
    + eapply IH; [|eassumption]. intros a' H. apply Hbody. now right.
Qed.

Lemma simulate_delay_precipitation env airline temp precip n p alpha factor n' :
  simulate_delay env airline temp precip n = (Ok (p, alpha, factor), n') ->
  precipitation_reading precip = Some p.
Proof.
  unfold simulate_delay, precipitation_reading.
  destruct (as_number _) as [q|]; [|discriminate].
  unfold rbindR at 1.
  match goal with |- context [match ?c n with _ => _ end] => destruct (c n) as [[a|e] n1] end;
    [|discriminate].
  destruct (assoc airline delay_params) as [[mu sigma]|]; [|discriminate].
  unfold rbindR, draw, rret. intros [= <- _ _ _]. reflexivity.
Qed.

(** What one turn of the innermost loop writes into its record. *)
Lemma one_flight_record env weather target_date airline0 origin0 dest n r n' :
  one_flight env weather target_date airline0 origin0 dest n = (Ok r, n') ->
  date r = target_date /\ airline r = airline0 /\ origin r = origin0
  /\ destination r = dest
  /\ forall w, weather = Some w -> from_snapshot w r.
Proof.
  unfold one_flight, rbindR, draw, draw_int, attempt.
  destruct (simulate_delay _ _ _ _ _) as [[[[p alpha] airline_factor]|e] n1] eqn:Es.
  - destruct (assoc origin0 airport_params) as [[mu sigma]|]; [|discriminate].
    intros [= <- _]. cbn. do 4 (split; [reflexivity|]).
    intros w0 ->. cbn [field_or] in Es.
    apply simulate_delay_precipitation in Es.
    unfold from_snapshot. cbn. repeat split; try reflexivity. exact Es.
  - destruct (assoc origin0 airport_params) as [[mu sigma]|]; discriminate.
Qed.

Lemma airport_code_listed (code : string) (c : Coordinates) :
  In (code, c) AIRPORT_COORDINATES -> In code airport_codes.
Proof. intros H. unfold airport_codes. change code with (fst (code, c)). now apply in_map. Qed.

Lemma generate_flight_data_scheduled env weather_data target_date n rows n' :
  _generate_flight_data env weather_data target_date n = (Ok rows, n') ->
  Forall (scheduled target_date) rows.
Proof.
  revert n rows n'. fold (emits (scheduled target_date)
                            (_generate_flight_data env weather_data target_date)).
  unfold _generate_flight_data.
  apply emits_for_each_in; intros airline0 Ha.
  apply emits_for_each_in; intros [origin0 oc] Ho.
  apply emits_for_each_in; intros [dest dc] Hd.
  destruct (String.eqb origin0 dest) eqn:Eod; cbn [negb]; [apply emits_rret_nil|].
  intros n rows n'. unfold rbindR at 1, draw_int at 1.
  apply emits_repeat_times. intros k r k' E.
  apply one_flight_record in E as (Hdate & Hair & Horig & Hdest & _).
  unfold scheduled. rewrite Hdate, Hair, Horig, Hdest.
  split; [reflexivity|]. split; [assumption|].
  split; [eapply airport_code_listed; eassumption|].
  split; [eapply airport_code_listed; eassumption|].
  now apply String.eqb_neq.
Qed.

(** X1. Every record the simulator returns for a day is a flight of that
    day, of one of the five airlines, between two different airports of the
    network. *)
Theorem generated_flights_scheduled (env : Env)
    (weather_data : gmap string WeatherSnapshot) (target_date : Dates.date)
    (n : nat) (rows : DataFrame) (n' : nat) :
  _generate_flight_data env weather_data target_date n = (Ok rows, n') ->
  Forall (scheduled target_date) rows.
Proof. apply generate_flight_data_scheduled. Qed.

Lemma generated_flights_scheduled_witness :
  exists rows n',
    _generate_flight_data (Samples.world Samples.no_network) ∅ Samples.dec_11 0%nat
    = (Ok rows, n')
    /\ Forall (scheduled Samples.dec_11) rows.
Proof.
  destruct (generate_flight_data_returns (Samples.world Samples.no_network) ∅ Samples.dec_11)
    with (n := 0%nat) as (rows & n' & E).
  - intros code w H. rewrite lookup_empty in H. discriminate.
  - exists rows, n'. split; [exact E|].
    exact (generated_flights_scheduled _ _ _ _ _ _ E).
Defined.

Lemma generate_flight_data_weather env weather_data target_date n rows n' :
  _generate_flight_data env weather_data target_date n = (Ok rows, n') ->
  Forall (fun r => forall w, weather_data !! origin r = Some w -> from_snapshot w r) rows.
Proof.
  revert n rows n'.
  fold (emits (fun r => forall w, weather_data !! origin r = Some w -> from_snapshot w r)
          (_generate_flight_data env weather_data target_date)).
  unfold _generate_flight_data.
  apply emits_for_each; intros airline0.
  apply emits_for_each; intros [origin0 oc].
  apply emits_for_each; intros [dest dc].
  destruct (negb (String.eqb origin0 dest)); [|apply emits_rret_nil].
  intros n rows n'. unfold rbindR at 1, draw_int at 1.
  apply emits_repeat_times. intros k r k' E.
  apply one_flight_record in E as (_ & _ & Horig & _ & Hw).
  subst origin0. exact Hw.
Qed.

(** X2. The weather columns of a record are copied from the snapshot of
    its origin airport whenever the day's weather has one: temperature,
    condition, wind, visibility, clouds, humidity and pressure unchanged,
    the precipitation as a number (0.0 for a reading that counts as false).
    The randomly drawn weather is used only for an origin without
    snapshot. *)
Theorem generated_flights_carry_origin_weather (env : Env)
    (weather_data : gmap string WeatherSnapshot) (target_date : Dates.date)
    (n : nat) (rows : DataFrame) (n' : nat) :
  _generate_flight_data env weather_data target_date n = (Ok rows, n') ->
  Forall (fun r => forall w, weather_data !! origin r = Some w -> from_snapshot w r) rows.
Proof. apply generate_flight_data_weather. Qed.

Lemma generated_flights_carry_origin_weather_witness :
  let w := default_weather (init (Samples.world Samples.no_network)) in
  exists rows n',
    _generate_flight_data (Samples.world Samples.no_network) {[ "SEA"%string := w ]}
      Samples.dec_11 0%nat = (Ok rows, n')
    /\ Forall (fun r => origin r = "SEA"%string -> from_snapshot w r) rows.
Proof.
  intros w.
  destruct (generate_flight_data_returns (Samples.world Samples.no_network)
              {[ "SEA"%string := w ]} Samples.dec_11)
    with (n := 0%nat) as (rows & n' & E).
  - intros code w' H. apply lookup_singleton_Some in H as [_ <-]. left. reflexivity.
  - exists rows, n'. split; [exact E|].
    eapply List.Forall_impl;
      [|exact (generated_flights_carry_origin_weather _ _ _ _ _ _ E)].
    intros r H Ho. apply H. rewrite Ho.
    apply (proj2 (lookup_singleton_Some _ _ _ _)). split; reflexivity.
Defined.

Lemma counts_rret_nil {B} : counts 0 (@rret (list B) []).
Proof. intros n rows n' [= <- _]. reflexivity. Qed.

Lemma counts_for_each {A B} (c : A -> nat) (l : list A) (body : A -> R (list B)) :
  (forall a, In a l -> counts (c a) (body a)) ->
  counts (list_sum (map c l)) (for_each l body).
Proof.
  induction l as [|a l IH]; intros Hbody; cbn [for_each map list_sum fold_right].
  - apply counts_rret_nil.
  - intros n rows n'. unfold rbindR at 1.
    destruct (body a n) as [[rows1|e] n1] eqn:E1; [|discriminate].
    unfold rbindR at 1.
    destruct (bound_after rows1 (for_each l body) n1) as [[rows2|e] n2] eqn:E2;
      [|discriminate].
    apply bound_after_ok in E2.
    intros [= <- _]. rewrite length_app. f_equal.
    + eapply Hbody; [now left | eassumption].
    + eapply IH; [|eassumption]. intros a' H. apply Hbody. now right.
Qed.

Lemma counts_repeat_times {B} (k : nat) (body : R B) : counts k (repeat_times k body).
Proof.
  induction k as [|k IH]; cbn [repeat_times].
  - apply counts_rret_nil.
  - intros n rows n'. unfold rbindR at 1.
    destruct (body n) as [[r|e] n1]; [|discriminate].
    unfold rbindR at 1.
    destruct (bound_after [r] (repeat_times k body) n1) as [[rows2|e] n2] eqn:E2;
      [|discriminate].
    apply bound_after_ok in E2.
    intros [= <- _]. cbn. f_equal. eapply IH. eassumption.
Qed.

(** X3. When every Poisson draw gives the same number of flights, a day
    has that many flights for each of the 5 airlines on each of the 20
    routes between different airports, and none from an airport to
    itself. *)
Theorem generated_flights_count (env : Env)
    (weather_data : gmap string WeatherSnapshot) (target_date : Dates.date)
    (flights : Z) (n : nat) (rows : DataFrame) (n' : nat) :
  (forall k, sample_int env k (Poisson 5) = flights) ->
  _generate_flight_data env weather_data target_date n = (Ok rows, n') ->
  length rows = (100 * Z.to_nat flights)%nat
  /\ Forall (fun r => origin r <> destination r) rows.
Proof.
  intros Hdraw E. split.
  - revert E. unfold _generate_flight_data.
    set (per_route := Z.to_nat flights).
    intros E.
    apply (counts_for_each (fun _ => (20 * per_route)%nat)) in E; [rewrite E; cbn; lia|].
    intros airline0 _ k rows1 k' E1.
    apply (counts_for_each (fun _ => (4 * per_route)%nat)) in E1; [rewrite E1; cbn; lia|].
    intros [origin0 oc] Ho k2 rows2 k2' E2.
    apply (counts_for_each
             (fun a : string * Coordinates =>
                if negb (String.eqb origin0 (fst a)) then per_route else 0%nat)) in E2.
    + rewrite E2. clear E2.
      repeat (destruct Ho as [[= <- <-]|Ho]; [cbn; lia|]). destruct Ho.
    + intros [dest dc] _. cbn [fst].
      destruct (negb (String.eqb origin0 dest)); [|apply counts_rret_nil].
      intros k3 rows3 k3'. unfold rbindR at 1, draw_int at 1.
      rewrite Hdraw. apply counts_repeat_times.
  - eapply List.Forall_impl; [|exact (generate_flight_data_scheduled _ _ _ _ _ _ E)].
    intros r (_ & _ & _ & _ & H). exact H.
Qed.

Lemma generated_flights_count_witness :
  exists rows n',
    _generate_flight_data (Samples.world Samples.no_network) ∅ Samples.dec_11 0%nat
    = (Ok rows, n')
    /\ length rows = 100%nat.
Proof.
  destruct (generate_flight_data_returns (Samples.world Samples.no_network) ∅ Samples.dec_11)
    with (n := 0%nat) as (rows & n' & E).
  - intros code w H. rewrite lookup_empty in H. discriminate.
  - exists rows, n'. split; [exact E|].
    apply (generated_flights_count (Samples.world Samples.no_network) ∅ Samples.dec_11 1
             0%nat rows n'); [reflexivity | exact E].
Defined.

(** ** The weather service: conditions and cloud layers *)

Lemma first_match_value (table : list (string * string)) (u value : string) :
  first_match table u = Some value -> In value (map snd table).
Proof.
  induction table as [|[key v] table IH]; cbn [first_match map snd]; [discriminate|].
  destruct (contains key u).
  - intros [= <-]. now left.
  - intros H. right. now apply IH.
Qed.

(** X4. Whatever text (or other value) weather.gov sends as description,
    the condition of a snapshot is one of Clear, Clouds, Rain, Snow, Fog
    and Thunderstorm. *)
Theorem map_weather_condition_range (env : Env) (noaa_description : json) :
  In (_map_weather_condition env noaa_description) conditions.
Proof.
  unfold _map_weather_condition.
  destruct (negb (truthy noaa_description)); [now left|].
  destruct (first_match _ _) as [value|] eqn:E; [|now left].
  apply first_match_value in E. cbn in E. unfold conditions.
  repeat (destruct E as [<-|E]; [cbn; tauto|]). destruct E.
Qed.

Lemma contains_prefix (needle hay : string) :
  String.prefix needle hay = true -> contains needle hay = true.
Proof. intros H. destruct hay; cbn [contains]; rewrite H; reflexivity. Qed.

Lemma contains_tail (needle : string) (c : ascii) (hay : string) :
  contains needle hay = true -> contains needle (String c hay) = true.
Proof. intros H. cbn [contains]. rewrite H. apply orb_true_r. Qed.

Lemma prefix_app_contains (p q hay : string) :
  String.prefix (p +:+ q) hay = true -> contains q hay = true.
Proof.
  revert hay. induction p as [|a p IH]; intros hay H.
  - now apply contains_prefix.
  - change (String.prefix (String a (p +:+ q)) hay = true) in H.
    destruct hay as [|b hay]; cbn [String.prefix] in H; [discriminate|].
    destruct (ascii_dec a b); [|discriminate].
    apply contains_tail, IH, H.
Qed.

(** A text that contains a phrase contains the end of the phrase. *)
Lemma contains_app (p q hay : string) :
  contains (p +:+ q) hay = true -> contains q hay = true.
Proof.
  induction hay as [|c hay IH]; cbn [contains]; intros H.
  - rewrite orb_false_r in H. now apply (prefix_app_contains p q EmptyString).
  - apply orb_true_iff in H as [H|H].
    + now apply (prefix_app_contains p q (String c hay)).
    + fold (contains q (String c hay)). apply contains_tail, IH, H.
Qed.

(** X6. The entry for snow showers is never reached: the table is searched
    in order and SHOWERS, which stands for Rain, comes before every entry
    for snow.  A description that mentions snow showers is reported as
    Rain, or as Clear or Clouds if it also mentions one of their words, and
    never as Snow. *)
Theorem map_weather_condition_snow_showers (env : Env) (noaa_description : json) :
  contains "SNOW SHOWERS" (upper env (text_of env noaa_description)) = true ->
  In (_map_weather_condition env noaa_description) ["Clear"; "Clouds"; "Rain"]%string
  /\ _map_weather_condition env noaa_description <> "Snow"%string.
Proof.
  intros H.
  assert (Hin : In (_map_weather_condition env noaa_description)
                  ["Clear"; "Clouds"; "Rain"]%string).
  { apply (contains_app "SNOW " "SHOWERS") in H.
    unfold _map_weather_condition.
    destruct (negb (truthy noaa_description)); [now left|].
    unfold condition_mapping. cbn [first_match].
    repeat match goal with
    | |- context [if contains ?key ?u then _ else _] =>
        first [ rewrite H | destruct (contains key u) ]
    end; cbn; tauto. }
  split; [exact Hin|].
  intros E. rewrite E in Hin. cbn in Hin.
  repeat (destruct Hin as [Hin|Hin]; [discriminate|]). destruct Hin.
Qed.

Lemma map_weather_condition_snow_showers_witness :
  _map_weather_condition (Samples.world Samples.no_network) (JStr "Snow Showers")
  <> "Snow"%string.
Proof.
  apply (map_weather_condition_snow_showers (Samples.world Samples.no_network)
           (JStr "Snow Showers")).
  reflexivity.
Defined.

Lemma assoc_value {A} (k : string) (l : list (string * A)) (v : A) :
  assoc k l = Some v -> In v (map snd l).
Proof.
  induction l as [|[k' v'] l IH]; cbn [assoc map snd]; [discriminate|].
  destruct (String.eqb k k').
  - intros [= <-]. now left.
  - intros H. right. now apply IH.
Qed.

Lemma layer_coverage_range env (layer : json) (c : Z) :
  layer_coverage env layer = Ok c -> In c coverages.
Proof.
  unfold layer_coverage. destruct (dict_get layer "amount" (JStr "CLR")) as [amount|e];
    cbn [rbind]; [|discriminate].
  destruct amount as [| | |a| |]; try discriminate.
  destruct (assoc (upper env a) coverage_values) as [v|] eqn:E;
    cbn [from_option id]; intros [= <-]; [|now left].
  apply assoc_value in E. cbn in E. unfold coverages.
  repeat (destruct E as [<-|E]; [cbn; tauto|]). destruct E.
Qed.

Lemma max_coverages (a b : Z) : In a coverages -> In b coverages -> In (Z.max a b) coverages.
Proof. intros Ha Hb. destruct (Z.max_spec a b) as [[_ ->]|[_ ->]]; assumption. Qed.

Lemma max_over_layers_range env (layers : list json) (acc m : Z) :
  In acc coverages -> max_over_layers env acc layers = Ok m -> In m coverages.
Proof.
  revert acc. induction layers as [|layer layers IH]; intros acc Hacc; cbn [max_over_layers].
  - now intros [= <-].
  - destruct (layer_coverage env layer) as [c|e] eqn:E; cbn [rbind]; [|discriminate].
    apply IH. apply max_coverages; [exact Hacc | eapply layer_coverage_range, E].
Qed.

(** X7. The cloud coverage of a snapshot is always one of 0, 25, 50, 75
    and 100 percent, whatever weather.gov sends as layers. *)
Theorem parse_cloud_coverage_range (env : Env) (cloud_layers : json) :
  In (_parse_cloud_coverage env cloud_layers) coverages
  /\ 0 <= _parse_cloud_coverage env cloud_layers <= 100.
Proof.
  assert (H : In (_parse_cloud_coverage env cloud_layers) coverages).
  { unfold _parse_cloud_coverage.
    destruct cloud_layers as [| | | |layers|]; try now left.
    destruct (max_over_layers env 0 layers) as [m|e] eqn:E; [|now left].
    eapply max_over_layers_range; [|exact E]. now left. }
  split; [exact H|].
  unfold coverages in H. cbn in H.
  repeat (destruct H as [<-|H]; [lia|]). destruct H.
Qed.

Lemma max_over_layers_ok env (layers : list json) (cs : list Z) (acc : Z) :
  Forall2 (fun layer c => layer_coverage env layer = Ok c) layers cs ->
  max_over_layers env acc layers = Ok (fold_left Z.max cs acc).
Proof.
  intros H. revert acc. induction H as [|layer c layers cs Hc _ IH]; intros acc.
  - reflexivity.
  - cbn [max_over_layers fold_left]. rewrite Hc. cbn [rbind]. apply IH.
Qed.

Lemma max_over_layers_raise env (before after : list json) (bad : json) (e : exn)
    (acc : Z) :
  layer_coverage env bad = Raise e ->
  exists e', max_over_layers env acc (before ++ bad :: after) = Raise e'.
Proof.
  intros Hbad. revert acc. induction before as [|layer before IH]; intros acc.
  - cbn [app max_over_layers]. rewrite Hbad. now eexists.
  - cbn [app max_over_layers]. destruct (layer_coverage env layer) as [c|e1]; cbn [rbind].
    + apply IH.
    + now eexists.
Qed.

Lemma fold_left_max_ge (cs : list Z) (acc : Z) :
  acc <= fold_left Z.max cs acc /\ Forall (fun c => c <= fold_left Z.max cs acc) cs.
Proof.
  revert acc. induction cs as [|c cs IH]; intros acc; cbn [fold_left].
  - split; [lia | constructor].
  - destruct (IH (Z.max acc c)) as [H1 H2]. split; [lia|].
    constructor; [lia | exact H2].
Qed.

(** X8. When every layer can be read, the coverage is that of the densest
    layer: no layer has more.  And one layer that cannot be read (it is no
    dict, or its amount is no text) makes the whole coverage 0, whatever the
    other layers say. *)
Theorem parse_cloud_coverage_layers (env : Env) (layers : list json) :
  (forall cs,
      Forall2 (fun layer c => layer_coverage env layer = Ok c) layers cs ->
      _parse_cloud_coverage env (JArr layers) = fold_left Z.max cs 0
      /\ Forall (fun c => c <= _parse_cloud_coverage env (JArr layers)) cs)
  /\ (forall bad e,
         In bad layers -> layer_coverage env bad = Raise e ->
         _parse_cloud_coverage env (JArr layers) = 0).
Proof.
  split.
  - intros cs H. unfold _parse_cloud_coverage.
    rewrite (max_over_layers_ok env layers cs 0 H).
    split; [reflexivity | apply fold_left_max_ge].
  - intros bad e Hin Hbad. apply in_split in Hin as (before & after & ->).
    unfold _parse_cloud_coverage.
    destruct (max_over_layers_raise env before after bad e 0 Hbad) as [e' ->]. reflexivity.
Qed.

Lemma parse_cloud_coverage_layers_witness :
  _parse_cloud_coverage (Samples.world Samples.no_network)
    (JArr [JObj [("amount", JStr "sct")]; JObj []; JObj [("amount", JStr "BKN")]]%string) = 75
  /\ _parse_cloud_coverage (Samples.world Samples.no_network)
       (JArr [JObj [("amount", JStr "OVC")]; JObj [("amount", JNull)]]%string) = 0.
Proof.
  split.
  - refine (proj1 (proj1 (parse_cloud_coverage_layers (Samples.world Samples.no_network)
             [JObj [("amount", JStr "sct")]; JObj []; JObj [("amount", JStr "BKN")]]%string)
             [50; 0; 75] _)).
    repeat constructor.
  - apply (proj2 (parse_cloud_coverage_layers (Samples.world Samples.no_network)
                    [JObj [("amount", JStr "OVC")]; JObj [("amount", JNull)]]%string)
             (JObj [("amount", JNull)]%string) AttributeError).
    + right. now left.
    + reflexivity.
Defined.

(** ** The weather service: requests, cache and bulk fetch *)

Lemma sends_here {A} (m : M A) : (forall s, snd (m s) = s) -> sends 0 m.
Proof. intros H s. exists []. rewrite H, app_nil_r. split; [reflexivity | cbn; lia]. Qed.

Lemma sends_ret {A} (a : A) : sends 0 (ret a).
Proof. now apply sends_here. Qed.

Lemma sends_throw {A} (e : exn) : sends 0 (@throw A e).
Proof. now apply sends_here. Qed.

Lemma sends_lift {A} (r : result A) : sends 0 (lift r).
Proof. now apply sends_here. Qed.

Lemma sends_now env : sends 0 (now env).
Proof. intros s. exists []. cbn. rewrite app_nil_r. split; [reflexivity | lia]. Qed.

Lemma sends_requests_get env url : sends 1 (requests_get env url).
Proof. intros s. exists [url]. cbn. split; [reflexivity | lia]. Qed.

Lemma sends_bind {A B} (c1 c2 : nat) (m : M A) (k : A -> M B) :
  sends c1 m -> (forall a, sends c2 (k a)) -> sends (c1 + c2) (bind m k).
Proof.
  intros Hm Hk s. unfold bind. destruct (Hm s) as (more1 & E1 & L1).
  destruct (m s) as [[a|e] s1]; cbn [snd] in *.
  - destruct (Hk a s1) as (more2 & E2 & L2). exists (more1 ++ more2).
    rewrite E2, E1, <- app_assoc, length_app. split; [reflexivity | lia].
  - exists more1. split; [exact E1 | lia].
Qed.

Lemma sends_le {A} (c c' : nat) (m : M A) : sends c m -> (c <= c')%nat -> sends c' m.
Proof.
  intros H L s. destruct (H s) as (more & E & L'). exists more. split; [exact E | lia].
Qed.

Lemma sends_raise_for_status (r : Response) : sends 0 (raise_for_status r).
Proof.
  unfold raise_for_status. destruct (_ && _); [apply sends_throw | apply sends_ret].
Qed.

Lemma sends_response_json (r : Response) : sends 0 (response_json r).
Proof.
  unfold response_json. destruct (body r); [apply sends_ret | apply sends_throw].
Qed.

Lemma sends_cache_lookup env (key : string) : sends 0 (cache_lookup env key).
Proof.
  intros s. unfold cache_lookup. destruct (cache s !! key) as [entry|].
  - unfold bind, now. destruct (_ <? _); exists []; cbn; rewrite app_nil_r;
      (split; [reflexivity | lia]).
  - exists []. cbn. rewrite app_nil_r. split; [reflexivity | lia].
Qed.

Lemma sends_cache_store env (airport_code : string) (w : WeatherSnapshot) :
  sends 0 (cache_store env airport_code w).
Proof. intros s. exists []. cbn. rewrite app_nil_r. split; [reflexivity | lia]. Qed.

(** One exchange with weather.gov: the request, the check of its status,
    the decoding of its body. *)
Lemma sends_exchange {A} env url (c : nat) (k : json -> M A) :
  (forall j, sends c (k j)) ->
  sends (S c)
    (bind (requests_get env url)
       (fun r => bind (raise_for_status r) (fun _ => bind (response_json r) k))).
Proof.
  intros Hk. apply (sends_bind 1 c); [apply sends_requests_get|]. intros r.
  apply (sends_bind 0 c); [apply sends_raise_for_status|]. intros _.
  apply (sends_bind 0 c); [apply sends_response_json|]. exact Hk.
Qed.

Lemma sends_lift_bind {A B} (c : nat) (r : result A) (k : A -> M B) :
  (forall a, sends c (k a)) -> sends c (bind (lift r) k).
Proof. intros Hk. apply (sends_bind 0 c); [apply sends_lift | exact Hk]. Qed.

Lemma sends_fetch_properties env airport_data : sends 3 (fetch_properties env airport_data).
Proof.
  unfold fetch_properties.
  apply sends_exchange; intros points_data.
  apply sends_lift_bind; intros props.
  apply sends_lift_bind; intros observation_url.
  apply sends_exchange; intros stations.
  apply sends_lift_bind; intros features.
  apply sends_lift_bind; intros first_station.
  apply sends_lift_bind; intros station_url.
  apply sends_exchange; intros current_data.
  apply sends_lift.
Qed.

Lemma sends_get_weather_try env airport_code airport_data target_date :
  sends 3 (get_weather_try env airport_code airport_data target_date).
Proof.
  unfold get_weather_try.
  apply (sends_bind 0 3); [destruct target_date; [apply sends_ret | apply sends_now]|].
  intros target.
  apply (sends_bind 0 3); [apply sends_cache_lookup|]. intros [snapshot|].
  - eapply sends_le; [apply sends_ret | lia].
  - apply (sends_bind 3 0); [apply sends_fetch_properties|]. intros properties.
    destruct (process_observation env properties).
    + apply (sends_bind 0 0); [apply sends_now|]. intros t.
      apply (sends_bind 0 0); [apply sends_cache_store|]. intros _. apply sends_ret.
    + now apply sends_here.
Qed.

Lemma sends_get_weather env airport_code airport_data target_date :
  sends 3 (get_weather env airport_code airport_data target_date).
Proof.
  intros s. rewrite get_weather_snd. apply sends_get_weather_try.
Qed.

(** X9. One call of [get_weather] sends at most three requests to
    weather.gov and a bulk fetch at most three per airport; the requests
    made before are kept in order. *)
Theorem weather_requests_bounded (env : Env) (target_date : option Dates.datetime)
    (s : Service) :
  (forall airport_code airport_data,
      exists more,
        requests (snd (get_weather env airport_code airport_data target_date s))
        = requests s ++ more
        /\ (length more <= 3)%nat)
  /\ (forall airports weather_data,
         exists more,
           requests (snd (get_bulk_weather env airports target_date weather_data s))
           = requests s ++ more
           /\ (length more <= 3 * length airports)%nat).
Proof.
  split.
  - intros airport_code airport_data. apply sends_get_weather.
  - intros airports. revert s.
    induction airports as [|[code data] airports IH]; intros s weather_data.
    + exists []. cbn. rewrite app_nil_r. split; [reflexivity | lia].
    + cbn [get_bulk_weather].
      destruct (sends_get_weather env code data target_date s) as (more1 & E1 & L1).
      destruct (get_weather env code data target_date s) as [fetched s1]; cbn [snd] in E1.
      match goal with
      | |- context [get_bulk_weather env airports target_date ?w s1] =>
          destruct (IH s1 w) as (more2 & E2 & L2)
      end.
      exists (more1 ++ more2). rewrite E2, E1, <- app_assoc, length_app.
      split; [reflexivity | cbn [length]; lia].
Qed.

Lemma get_bulk_weather_keys env airports target_date weather_data s code :
  (In code (map fst airports) ->
   is_Some (fst (get_bulk_weather env airports target_date weather_data s) !! code))
  /\ (~ In code (map fst airports) ->
      fst (get_bulk_weather env airports target_date weather_data s) !! code
      = weather_data !! code).
Proof.
  revert weather_data s.
  induction airports as [|[code0 data] airports IH]; intros weather_data s.
  - split; [intros [] | reflexivity].
  - cbn [get_bulk_weather map fst In].
    destruct (get_weather env code0 data target_date s) as [fetched s1].
    match goal with
    | |- context [get_bulk_weather env airports target_date ?w s1] =>
        destruct (IH w s1) as [IH1 IH2]
    end.
    split.
    + intros Hin. destruct (in_dec String.string_dec code (map fst airports)) as [Hrest|Hrest].
      * now apply IH1.
      * rewrite (IH2 Hrest). destruct Hin as [->|Hin]; [|contradiction].
        rewrite lookup_insert_eq. now eexists.
    + intros Hnot. rewrite IH2 by tauto. apply lookup_insert_ne. tauto.
Qed.

(** X10. A bulk fetch gives a snapshot for every airport that was asked
    for, whatever the network does, and leaves the entries of the other
    codes as they were. *)
Theorem get_bulk_weather_covers (env : Env) (airports : list (string * Coordinates))
    (target_date : option Dates.datetime) (weather_data : gmap string WeatherSnapshot)
    (s : Service) (code : string) :
  (In code (map fst airports) ->
   is_Some (fst (get_bulk_weather env airports target_date weather_data s) !! code))
  /\ (~ In code (map fst airports) ->
      fst (get_bulk_weather env airports target_date weather_data s) !! code
      = weather_data !! code).
Proof. apply get_bulk_weather_keys. Qed.

Lemma get_bulk_weather_covers_witness :
  is_Some (fst (get_bulk_weather (Samples.world Samples.no_network) AIRPORT_COORDINATES
                  None ∅ (init (Samples.world Samples.no_network))) !! "DFW"%string).
Proof.
  apply (get_bulk_weather_covers (Samples.world Samples.no_network) AIRPORT_COORDINATES
           None ∅ (init (Samples.world Samples.no_network)) "DFW").
  cbn. tauto.
Defined.

(** X11. An entry under the key that is looked up (airport code, underscore,
    day) is served while it is less than 30 minutes old: the call returns its
    snapshot, sends no request and leaves the cache alone.  Once it is 30
    minutes old or more, the points request is sent again. *)
Theorem get_weather_cache_entry (env : Env) (airport_code : string)
    (airport_data : Coordinates) (target : Dates.datetime) (s : Service)
    (entry : CacheEntry) :
  cache s !! cache_key airport_code target = Some entry ->
  (clock env (ticks s) - stamp entry < cache_duration ->
   get_weather env airport_code airport_data (Some target) s
   = (Ok (data entry), ticked s))
  /\ (cache_duration <= clock env (ticks s) - stamp entry ->
      exists more,
        requests (snd (get_weather env airport_code airport_data (Some target) s))
        = requests s ++ points_url airport_data :: more).
Proof.
  intros Hkey. split; intros Hage.
  - unfold get_weather, get_weather_try.
    unfold bind at 1, ret at 1. unfold bind at 1, cache_lookup at 1. rewrite Hkey.
    unfold bind at 1, now at 1.
    apply Z.ltb_lt in Hage. rewrite Hage. reflexivity.
  - rewrite get_weather_snd. unfold get_weather_try.
    unfold bind at 1, ret at 1. unfold bind at 1, cache_lookup at 1. rewrite Hkey.
    unfold bind at 1, now at 1.
    apply Z.ltb_ge in Hage. rewrite Hage. unfold ret at 1.
    fold (ticked s).
    match goal with
    | |- exists more, requests (snd ?run) = _ =>
        assert (H : requests (snd (requests_get env (points_url airport_data) (ticked s)))
                    `prefix_of` requests (snd run))
    end.
    { apply (bind_from (fun s s' => requests s `prefix_of` requests s')).
      - intros s1 s2 s3. apply transitivity.
      - apply (fetch_properties_after_request env
                 (fun s s' => requests s `prefix_of` requests s')); try reflexivity.
        + intros s1 s2 s3. apply transitivity.
        + intros url s0. cbn. now apply prefix_app_r.
      - intros properties s0.
        destruct (process_observation env properties) as [fields|e]; [|reflexivity].
        cbn. reflexivity. }
    destruct H as [more H]. exists more. rewrite H. cbn. now rewrite <- app_assoc.
Qed.

Lemma get_weather_cache_entry_witness :
  let env := Samples.world Samples.no_network in
  let entry := {| data := fallback_snapshot Samples.noon_dec_11;
                  stamp := Samples.noon_dec_11 |} in
  let s := {| cache := {[ "SEA_2024-12-11"%string := entry ]};
              default_stamp := Samples.noon_dec_11; requests := []; ticks := 1 |} in
  get_weather env "SEA" Samples.sea (Some Samples.noon_dec_11) s
  = (Ok (fallback_snapshot Samples.noon_dec_11), ticked s).
Proof.
  intros env entry s.
  apply (proj1 (get_weather_cache_entry env "SEA" Samples.sea Samples.noon_dec_11 s entry
                  (proj2 (lookup_singleton_Some _ _ _ _) (conj eq_refl eq_refl)))).
  vm_compute. reflexivity.
Defined.

(** ** Collection runs *)

Lemma default_end_before_default_start :
  Dates.toordinal 2023 12 11 < Dates.toordinal 2024 12 11.
Proof. reflexivity. Qed.

Lemma collect_and_store_data_no_day env start_date end_date st :
  default (Dates.toordinal 2023 12 11) end_date
  < default (Dates.toordinal 2024 12 11) start_date ->
  collect_and_store_data env start_date end_date st = add_log NoDataCollected st.
Proof.
  intros H. unfold collect_and_store_data, days_from.
  replace (Z.to_nat _) with 0%nat by lia. reflexivity.
Qed.

(** X12. A collection whose end date is before its start date processes
    no day: nothing is fetched, drawn or stored, and the only trace is the
    log line that no data was collected.  The defaults of the two dates
    (start 2024-12-11, end 2023-12-11) are such a range. *)
Theorem collect_and_store_data_empty_range (env : Env)
    (start_date end_date : option Dates.date) (st : State) :
  default (Dates.toordinal 2023 12 11) end_date
  < default (Dates.toordinal 2024 12 11) start_date ->
  collect_and_store_data env start_date end_date st = add_log NoDataCollected st.
Proof. apply collect_and_store_data_no_day. Qed.

Lemma collect_and_store_data_empty_range_witness :
  collect_and_store_data (Samples.world Samples.no_network)
    (Some (Samples.dec_11 + 1)) (Some Samples.dec_11)
    (Samples.collector (Samples.world Samples.no_network) None)
  = add_log NoDataCollected (Samples.collector (Samples.world Samples.no_network) None).
Proof.
  apply (collect_and_store_data_empty_range (Samples.world Samples.no_network)
           (Some (Samples.dec_11 + 1)) (Some Samples.dec_11)).
  cbn [from_option id]. lia.
Defined.

(** X13. The job the scheduler runs every day calls the collection
    without dates, so it collects nothing: the table, the service and the
    random generator are left as they were and the log gets the line that no
    data was collected. *)
Theorem daily_update_collects_nothing (env : Env) (st : State) :
  Scheduler.daily_update env st = add_log NoDataCollected st
  /\ db (Scheduler.daily_update env st) = db st
  /\ service (Scheduler.daily_update env st) = service st
  /\ rng (Scheduler.daily_update env st) = rng st
  /\ processed_days (log (Scheduler.daily_update env st)) = processed_days (log st).
Proof.
  unfold Scheduler.daily_update.
  rewrite (collect_and_store_data_no_day env None None st
             default_end_before_default_start).
  repeat split. cbn [add_log log]. now apply processed_days_other.
Qed.

Lemma drop_from_incl (seen df : DataFrame) (r : FlightRecord) :
  In r (drop_from seen df) -> In r df.
Proof.
  revert seen. induction df as [|r0 df IH]; intros seen; cbn [drop_from]; [easy|].
  destruct (existsb (same_row r0) seen).
  - intros H. right. eapply IH, H.
  - intros [->|H]; [now left | right; eapply IH, H].
Qed.

(** What a predicate of the rows needs to hold of the rows a collection
    stores: each day's rows have it, given an invariant of the service, and
    filling the missing cells keeps it. *)
Lemma collect_days_rows env (Inv : Service -> Prop) (Q : FlightRecord -> Prop)
    (days : list Dates.date) :
  (forall d svc n, In d days -> Inv svc ->
     Inv (snd (get_bulk_weather env AIRPORT_COORDINATES (Some (Dates.midnight d)) ∅ svc))
     /\ forall rows n',
          _generate_flight_data env
            (fst (get_bulk_weather env AIRPORT_COORDINATES (Some (Dates.midnight d)) ∅ svc))
            d n = (Ok rows, n') ->
          Forall Q rows) ->
  forall acc,
    Inv (service (snd acc)) -> Forall (Forall Q) (fst acc) ->
    Inv (service (snd (fold_left (fun acc d => collect_day env d acc) days acc)))
    /\ Forall (Forall Q) (fst (fold_left (fun acc d => collect_day env d acc) days acc)).
Proof.
  induction days as [|d days IH]; intros Hday acc Hinv Hrows; cbn [fold_left].
  - now split.
  - apply IH.
    + intros d' svc n Hin. apply Hday. now right.
    + destruct acc as [all_data st]. cbn [fst snd] in *. unfold collect_day.
      cbn [add_log service rng db log].
      destruct (Hday d (service st) (rng st) (or_introl eq_refl) Hinv) as [Hinv' _].
      destruct (get_bulk_weather env AIRPORT_COORDINATES _ _ _) as [weather_data svc].
      now destruct (_generate_flight_data env weather_data d (rng st)) as [[daily|e] n].
    + destruct acc as [all_data st]. cbn [fst snd] in *. unfold collect_day.
      cbn [add_log service rng db log].
      destruct (Hday d (service st) (rng st) (or_introl eq_refl) Hinv) as [_ Hgen].
      destruct (get_bulk_weather env AIRPORT_COORDINATES _ _ _) as [weather_data svc].
      cbn [fst] in Hgen.
      destruct (_generate_flight_data env weather_data d (rng st)) as [[daily|e] n] eqn:E;
        cbn [fst]; [|exact Hrows].
      apply Forall_app. split; [exact Hrows|]. constructor; [|constructor].
      eapply Hgen. reflexivity.
Qed.

Lemma collect_and_store_data_rows env (Inv : Service -> Prop) (Q : FlightRecord -> Prop)
    (start_date end_date : Dates.date) (st : State) :
  (forall d svc n, In d (days_from start_date end_date) -> Inv svc ->
     Inv (snd (get_bulk_weather env AIRPORT_COORDINATES (Some (Dates.midnight d)) ∅ svc))
     /\ forall rows n',
          _generate_flight_data env
            (fst (get_bulk_weather env AIRPORT_COORDINATES (Some (Dates.midnight d)) ∅ svc))
            d n = (Ok rows, n') ->
          Forall Q rows) ->
  Inv (service st) ->
  (forall m r, Q r -> Q (fillna m r)) ->
  exists new,
    table_rows (collect_and_store_data env (Some start_date) (Some end_date) st)
    = table_rows st ++ new
    /\ Forall Q new.
Proof.
  intros Hday Hinv Hfill. unfold table_rows. rewrite collect_and_store_data_db.
  destruct (collect_days_rows env Inv Q (days_from start_date end_date) Hday ([], st) Hinv)
    as [_ Hrows]; [constructor|].
  destruct (fold_left _ (days_from start_date end_date) ([], st)) as [all_data st'].
  cbn [fst] in Hrows.
  destruct all_data as [|daily all_data].
  { exists []. rewrite app_nil_r. split; [reflexivity | constructor]. }
  destruct (_clean_data (concat (daily :: all_data))) as [cleaned|e] eqn:E.
  - exists cleaned. cbn [from_option id]. split; [reflexivity|].
    apply clean_data_shape in E. rewrite E.
    apply List.Forall_forall. intros r Hr. apply in_map_iff in Hr as (r0 & <- & Hr0).
    apply Hfill. apply drop_from_incl in Hr0. apply in_concat in Hr0 as (frame & Hf & Hr0).
    rewrite List.Forall_forall in Hrows. specialize (Hrows frame Hf).
    rewrite List.Forall_forall in Hrows. now apply Hrows.
  - exists []. rewrite app_nil_r. split; [reflexivity | constructor].
Qed.

Lemma days_from_range (start_date end_date d : Dates.date) :
  In d (days_from start_date end_date) -> start_date <= d <= end_date.
Proof.
  unfold days_from. intros H. apply in_map_iff in H as (i & <- & Hi).
  apply in_seq in Hi. lia.
Qed.

Lemma collect_and_store_data_scheduled env start_date end_date st :
  exists new,
    table_rows (collect_and_store_data env (Some start_date) (Some end_date) st)
    = table_rows st ++ new
    /\ Forall (scheduled_between start_date end_date) new.
Proof.
  apply (collect_and_store_data_rows env (fun _ => True)); [|exact I|].
  - intros d svc n Hin _. split; [exact I|]. intros rows n' E.
    apply days_from_range in Hin.
    eapply List.Forall_impl; [|exact (generate_flight_data_scheduled _ _ _ _ _ _ E)].
    intros r Hr. assert (Hd : date r = d) by apply Hr.
    unfold scheduled_between. rewrite Hd. split; [exact Hin | exact Hr].
  - intros m r H. exact H.
Qed.

(** X14. A collection only adds to the table, and every row it adds is a
    flight dated within the range asked for, of one of the five airlines,
    between two different airports of the network. *)
Theorem collect_and_store_data_adds_scheduled (env : Env)
    (start_date end_date : Dates.date) (st : State) :
  exists new,
    table_rows (collect_and_store_data env (Some start_date) (Some end_date) st)
    = table_rows st ++ new
    /\ Forall (scheduled_between start_date end_date) new.
Proof. apply collect_and_store_data_scheduled. Qed.

Lemma collect_and_store_data_table_exists env start_date end_date st old :
  db st = Some old ->
  exists rows, db (collect_and_store_data env (Some start_date) (Some end_date) st) = Some rows.
Proof.
  intros Hdb. rewrite collect_and_store_data_db, Hdb.
  destruct (fold_left _ _ _) as [[|daily all_data] st']; [now eexists|].
  destruct (_clean_data _); now eexists.
Qed.

(** X15. The scheduler's first run empties the table and then processes
    the 366 days that end today, in order; afterwards the table exists and
    holds only flights of the network dated within these days. *)
Theorem collect_historical_data_year (env : Env) (st : State) :
  let today := Dates.date_of (clock env (ticks (service st))) in
  processed_days (log (Scheduler.collect_historical_data env st))
  = processed_days (log st) ++ days_from (today - 365) today
  /\ length (days_from (today - 365) today) = 366%nat
  /\ exists rows,
       db (Scheduler.collect_historical_data env st) = Some rows
       /\ Forall (scheduled_between (today - 365) today) rows.
Proof.
  intros today. unfold Scheduler.collect_historical_data.
  cbn [init_database service rng db log]. fold today.
  set (st0 := {| service := _; rng := rng st; db := Some []; log := log st |}).
  split; [apply (collect_and_store_data_processed env (today - 365) today st0)|].
  split; [rewrite days_from_length; lia|].
  destruct (collect_and_store_data_table_exists env (today - 365) today st0 [] eq_refl)
    as [rows Hrows].
  exists rows. split; [exact Hrows|].
  destruct (collect_and_store_data_scheduled env (today - 365) today st0) as (new & E & Hnew).
  unfold table_rows in E. rewrite Hrows in E. cbn in E. now subst new.
Qed.

(** *** With the network down *)

Lemma fetch_properties_network_down env airport_data s :
  network_down env ->
  fetch_properties env airport_data s
  = (Raise (RequestException "request failed"), sent (points_url airport_data) s).
Proof.
  intros Hdown. unfold fetch_properties. rewrite bind_exchange.
  unfold exchange. now rewrite Hdown.
Qed.

Lemma get_weather_network_down env airport_code airport_data target s :
  network_down env ->
  cache s !! cache_key airport_code target = None ->
  get_weather env airport_code airport_data (Some target) s
  = (Ok (default_weather s), sent (points_url airport_data) s).
Proof.
  intros Hdown Hmiss. unfold get_weather, get_weather_try.
  unfold bind at 1, ret at 1. unfold bind at 1, cache_lookup at 1. rewrite Hmiss.
  rewrite bind_run, fetch_properties_network_down by exact Hdown. reflexivity.
Qed.

Lemma get_bulk_weather_network_down env airports target weather_data s :
  network_down env -> cache s = ∅ ->
  cache (snd (get_bulk_weather env airports (Some target) weather_data s)) = ∅
  /\ forall code w,
       fst (get_bulk_weather env airports (Some target) weather_data s) !! code = Some w ->
       w = default_weather s \/ weather_data !! code = Some w.
Proof.
  intros Hdown. revert weather_data s.
  induction airports as [|[code0 data] airports IH]; intros weather_data s Hempty.
  - split; [exact Hempty | now right].
  - cbn [get_bulk_weather].
    rewrite get_weather_network_down;
      [|exact Hdown | rewrite Hempty; apply lookup_empty].
    destruct (IH (<[code0 := default_weather s]> weather_data)
                (sent (points_url data) s) Hempty) as [IH1 IH2].
    split; [exact IH1|]. intros code w Hw. apply IH2 in Hw as [->|Hw]; [now left|].
    destruct (decide (code0 = code)) as [->|Hne].
    + rewrite lookup_insert_eq in Hw. injection Hw as <-. now left.
    + rewrite lookup_insert_ne in Hw by exact Hne. now right.
Qed.

Lemma from_default_snapshot (s : Service) (r : FlightRecord) :
  from_snapshot (default_weather s) r -> default_conditions r.
Proof.
  intros (Ht & Hp & Hc & Hw & Hd & Hv & Hcl & Hh & Hpr).
  unfold default_conditions. cbn in *. injection Hp as <-. now repeat split.
Qed.

Lemma fillna_default_conditions (m : float) (r : FlightRecord) :
  default_conditions r -> default_conditions (fillna m r).
Proof.
  intros (Ht & Hp & Hc & Hw & Hd & Hv & Hcl & Hh & Hpr).
  unfold default_conditions. cbn. rewrite Ht, Hp, Hc. now repeat split.
Qed.

(** Each day of a collection with the network down: the cache stays empty
    and the rows carry the default weather. *)
Lemma network_down_day env (Hdown : network_down env) (days : list Dates.date)
    (d : Dates.date) (svc : Service) (n : nat) :
  In d days -> cache svc = ∅ ->
  cache (snd (get_bulk_weather env AIRPORT_COORDINATES (Some (Dates.midnight d)) ∅ svc)) = ∅
  /\ forall rows n',
       _generate_flight_data env
         (fst (get_bulk_weather env AIRPORT_COORDINATES (Some (Dates.midnight d)) ∅ svc))
         d n = (Ok rows, n') ->
       Forall default_conditions rows.
Proof.
  intros _ Hsvc.
  destruct (get_bulk_weather_network_down env AIRPORT_COORDINATES (Dates.midnight d) ∅ svc
              Hdown Hsvc) as [Hcache Hdefault].
  split; [exact Hcache|]. intros rows n' E.
  pose proof (generate_flight_data_scheduled env _ d n rows n' E) as Hs.
  pose proof (generate_flight_data_weather env _ d n rows n' E) as Hw.
  apply List.Forall_forall. intros r Hr.
  rewrite List.Forall_forall in Hs, Hw. specialize (Hs r Hr). specialize (Hw r Hr).
  destruct Hs as (_ & _ & Horigin & _).
  destruct (proj1 (get_bulk_weather_keys env AIRPORT_COORDINATES
                     (Some (Dates.midnight d)) ∅ svc (origin r)) Horigin) as [w Hlookup].
  specialize (Hw w Hlookup).
  destruct (Hdefault _ _ Hlookup) as [->|Habs].
  - eapply from_default_snapshot, Hw.
  - rewrite lookup_empty in Habs. discriminate.
Qed.

Lemma collect_and_store_data_default_conditions env start_date end_date st :
  network_down env ->
  cache (service st) = ∅ ->
  exists new,
    table_rows (collect_and_store_data env (Some start_date) (Some end_date) st)
    = table_rows st ++ new
    /\ Forall default_conditions new.
Proof.
  intros Hdown Hempty.
  apply (collect_and_store_data_rows env (fun svc => cache svc = ∅));
    [|exact Hempty|exact fillna_default_conditions].
  intros d svc n. apply (network_down_day env Hdown).
Qed.

(** X16. With the network down and nothing cached, a collection still
    fills the table: every row it adds carries the weather of the default
    snapshot (68.0 degrees, no precipitation, Clear, no wind, visibility 10,
    no clouds, humidity 50, pressure 1013.25), for every airport and day. *)
Theorem collect_and_store_data_network_down (env : Env)
    (start_date end_date : Dates.date) (st : State) :
  network_down env ->
  cache (service st) = ∅ ->
  exists new,
    table_rows (collect_and_store_data env (Some start_date) (Some end_date) st)
    = table_rows st ++ new
    /\ Forall default_conditions new.
Proof. apply collect_and_store_data_default_conditions. Qed.

Lemma collect_and_store_data_network_down_witness :
  exists new,
    table_rows (collect_and_store_data (Samples.world Samples.no_network)
                  (Some Samples.dec_11) (Some (Samples.dec_11 + 1))
                  (Samples.collector (Samples.world Samples.no_network) (Some [])))
    = [] ++ new
    /\ Forall default_conditions new.
Proof.
  apply (collect_and_store_data_network_down (Samples.world Samples.no_network)
           Samples.dec_11 (Samples.dec_11 + 1)
           (Samples.collector (Samples.world Samples.no_network) (Some []))).
  - intros n url. reflexivity.
  - reflexivity.
Defined.

(** ** Delay categories *)

Lemma SFltb_trans (x y z : spec_float) :
  SFltb x y = true -> SFltb y z = true -> SFltb x z = true.
Proof.
  unfold SFltb.
  destruct x as [sx|sx| |sx mx ex], y as [sy|sy| |sy my ey], z as [sz|sz| |sz mz ez]; cbn;
    repeat match goal with s : bool |- _ => destruct s end; cbn; try congruence.
  all: try (destruct (Z.compare_spec ex ey), (Z.compare_spec ey ez), (Z.compare_spec ex ez);
            try congruence; try lia).
  all: subst.
  all: rewrite ?Pos.compare_cont_spec; cbn.
  all: try (destruct (Pos.compare_spec mx my), (Pos.compare_spec my mz),
              (Pos.compare_spec mx mz); cbn; try congruence; try lia).
Qed.

Lemma float_lt_trans (x y z : float) :
  PrimFloat.ltb x y = true -> PrimFloat.ltb y z = true -> PrimFloat.ltb x z = true.
Proof. rewrite !FloatAxioms.ltb_spec. apply SFltb_trans. Qed.

Lemma SFcompare_refl (y : spec_float) :
  y <> S754_nan -> SFcompare y y = Some Eq.
Proof.
  destruct y as [s|s| |s m e]; intros H; cbn; try reflexivity; try congruence.
  - now destruct s.
  - destruct s; now rewrite Z.compare_refl, ?Pos.compare_cont_refl.
Qed.

Lemma float_lt_not_nan (x y : float) :
  PrimFloat.ltb x y = true -> PrimFloat.is_nan y = false.
Proof.
  unfold PrimFloat.is_nan. rewrite FloatAxioms.ltb_spec, FloatAxioms.eqb_spec.
  unfold SFltb, SFeqb.
  destruct (Prim2SF y) as [sy|sy| |sy my ey] eqn:Ey;
    try (intros _; now rewrite SFcompare_refl).
  destruct (Prim2SF x) as [sx|sx| |sx mx ex]; cbn; discriminate.
Qed.

Lemma float_infinity_not_lt (x : float) : PrimFloat.ltb PrimFloat.infinity x = false.
Proof.
  rewrite FloatAxioms.ltb_spec. unfold SFltb.
  change (Prim2SF PrimFloat.infinity) with (S754_infinity false).
  destruct (Prim2SF x) as [s|s| |s m e]; cbn; try reflexivity; now destruct s.
Qed.

Lemma float_le_not_lt_eq (x : float) :
  PrimFloat.leb 0 x = true -> PrimFloat.ltb 0 x = false -> PrimFloat.eqb x 0 = true.
Proof.
  rewrite FloatAxioms.leb_spec, FloatAxioms.ltb_spec, FloatAxioms.eqb_spec. unfold SFleb, SFltb, SFeqb.
  change (Prim2SF 0) with (S754_zero false).
  destruct (Prim2SF x) as [s|s| |s m e]; cbn; try discriminate; try reflexivity;
    destruct s; cbn; discriminate.
Qed.

Lemma float_eq_zero_not_lt (x : float) :
  PrimFloat.eqb x 0 = true -> PrimFloat.ltb 0 x = false.
Proof.
  rewrite FloatAxioms.ltb_spec, FloatAxioms.eqb_spec. unfold SFltb, SFeqb.
  change (Prim2SF 0) with (S754_zero false).
  destruct (Prim2SF x) as [s|s| |s m e]; cbn; try discriminate; try reflexivity;
    destruct s; cbn; discriminate.
Qed.

Lemma delay_bins_ordered :
  PrimFloat.ltb 0 10 = true /\ PrimFloat.ltb 10 20 = true
  /\ PrimFloat.ltb 20 40 = true /\ PrimFloat.ltb 30 40 = true /\ PrimFloat.ltb 20 30 = true.
Proof. repeat split. Qed.

(** The category [pd.cut] gives with the edges 0, 10, 20, 40 and infinity. *)
Lemma cut_delay_bins (x : float) :
  DataProcessor.cut_one_right DataProcessor.delay_bins DataProcessor.delay_labels x
  = delay_category x.
Proof.
  unfold DataProcessor.cut_one_right, DataProcessor.delay_bins, delay_category,
    searchsorted_left.
  cbn [List.filter]. rewrite float_infinity_not_lt.
  destruct delay_bins_ordered as (H01 & H12 & H24 & _).
  destruct (PrimFloat.ltb 40 x) eqn:E40.
  { pose proof (float_lt_trans 20 40 _ H24 E40) as E20.
    pose proof (float_lt_trans 10 20 _ H12 E20) as E10.
    pose proof (float_lt_trans 0 10 _ H01 E10) as E0.
    rewrite E20, E10, E0, (float_lt_not_nan _ _ E0). reflexivity. }
  destruct (PrimFloat.ltb 20 x) eqn:E20.
  { pose proof (float_lt_trans 10 20 _ H12 E20) as E10.
    pose proof (float_lt_trans 0 10 _ H01 E10) as E0.
    rewrite E10, E0, (float_lt_not_nan _ _ E0). reflexivity. }
  destruct (PrimFloat.ltb 10 x) eqn:E10.
  { pose proof (float_lt_trans 0 10 _ H01 E10) as E0.
    rewrite E0, (float_lt_not_nan _ _ E0). reflexivity. }
  destruct (PrimFloat.ltb 0 x) eqn:E0.
  { rewrite (float_lt_not_nan _ _ E0). reflexivity. }
  cbn. now rewrite orb_true_r.
Qed.

Lemma float_nan_not_lt (a x : float) :
  PrimFloat.is_nan x = true -> PrimFloat.ltb a x = false.
Proof.
  intros H. destruct (PrimFloat.ltb a x) eqn:E; [|reflexivity].
  apply float_lt_not_nan in E. congruence.
Qed.

Lemma delay_category_none (x : float) :
  PrimFloat.ltb 0 x = false -> delay_category x = None.
Proof.
  intros E0. unfold delay_category.
  destruct delay_bins_ordered as (H01 & H12 & H24 & _).
  destruct (PrimFloat.ltb 40 x) eqn:E40.
  { pose proof (float_lt_trans 20 40 _ H24 E40) as E20.
    pose proof (float_lt_trans 10 20 _ H12 E20) as E10.
    pose proof (float_lt_trans 0 10 _ H01 E10). congruence. }
  destruct (PrimFloat.ltb 20 x) eqn:E20.
  { pose proof (float_lt_trans 10 20 _ H12 E20) as E10.
    pose proof (float_lt_trans 0 10 _ H01 E10). congruence. }
  destruct (PrimFloat.ltb 10 x) eqn:E10.
  { pose proof (float_lt_trans 0 10 _ H01 E10). congruence. }
  now rewrite E0.
Qed.

(** X17. [process_delay_data] sorts each delay by the thresholds 40, 20,
    10 and 0, each exclusive: above 40 minutes Severe, above 20 Significant,
    above 10 Minor, above 0 No Delay.  A delay of exactly 0 (a flight on
    time) and a missing delay get no category at all.  The column has one
    entry per row. *)
Theorem process_delay_data_categories (df : DataFrame) :
  DataProcessor.process_delay_data df = map (fun r => delay_category (delay_minutes r)) df
  /\ length (DataProcessor.process_delay_data df) = length df
  /\ (forall x, PrimFloat.eqb x 0 = true \/ PrimFloat.is_nan x = true ->
        delay_category x = None).
Proof.
  unfold DataProcessor.process_delay_data. split; [|split].
  - apply map_ext. intros r. apply cut_delay_bins.
  - apply length_map.
  - intros x [Hzero|Hnan]; apply delay_category_none.
    + now apply float_eq_zero_not_lt.
    + now apply float_nan_not_lt.
Qed.

(** X18. On the records of the simulator (delay not negative, weather flag
    set exactly above 30 minutes): a record is left without category exactly
    when its delay is 0, and a record flagged as a weather delay is always
    Significant or Severe. *)
Theorem simulated_delay_categories (r : FlightRecord) :
  delay_invariant r ->
  let category :=
    DataProcessor.cut_one_right DataProcessor.delay_bins DataProcessor.delay_labels
      (delay_minutes r) in
  (category = None <-> PrimFloat.eqb (delay_minutes r) 0 = true)
  /\ (weather_delay r = Some true ->
      category = Some "Significant"%string \/ category = Some "Severe"%string).
Proof.
  intros (Hnonneg & Hflag & _) category. unfold category. rewrite cut_delay_bins.
  unfold delay_category.
  destruct delay_bins_ordered as (H01 & H12 & H24 & H34 & H23).
  split.
  - split.
    + intros Hnone. apply float_le_not_lt_eq; [exact Hnonneg|].
      destruct (PrimFloat.ltb 40 (delay_minutes r)); [discriminate|].
      destruct (PrimFloat.ltb 20 (delay_minutes r)); [discriminate|].
      destruct (PrimFloat.ltb 10 (delay_minutes r)); [discriminate|].
      now destruct (PrimFloat.ltb 0 (delay_minutes r)).
    + intros Hzero. apply delay_category_none. now apply float_eq_zero_not_lt.
  - intros Hw. apply Hflag in Hw.
    pose proof (float_lt_trans 20 30 _ H23 Hw) as E20.
    destruct (PrimFloat.ltb 40 (delay_minutes r)); [now right|].
    rewrite E20. now left.
Qed.

Lemma simulated_delay_categories_witness :
  DataProcessor.cut_one_right DataProcessor.delay_bins DataProcessor.delay_labels
    (delay_minutes Samples.wet_flight) = Some "Significant"%string
  \/ DataProcessor.cut_one_right DataProcessor.delay_bins DataProcessor.delay_labels
       (delay_minutes Samples.wet_flight) = Some "Severe"%string.
Proof.
  apply (simulated_delay_categories Samples.wet_flight).
  - repeat split; try reflexivity; now intros _.
  - reflexivity.
Defined.

(** ** Cleaning *)

Lemma drop_from_length (seen df : DataFrame) : (length (drop_from seen df) <= length df)%nat.
Proof.
  revert seen. induction df as [|r df IH]; intros seen; cbn [drop_from length]; [lia|].
  destruct (existsb (same_row r) seen); cbn [length].
  - specialize (IH seen). lia.
  - specialize (IH (r :: seen)). lia.
Qed.

Lemma fill_not_nan (x fallback : float) :
  PrimFloat.is_nan fallback = false -> PrimFloat.is_nan (fill x fallback) = false.
Proof. intros H. unfold fill. now destruct (PrimFloat.is_nan x) eqn:E. Qed.

(** X19. When [_clean_data] returns, its frame is not empty and has no
    more rows than the frame it was given; the rows are the first
    occurrences of the given rows, in order, with date, airline, origin and
    destination untouched; and no row is left with a missing precipitation,
    delay, weather condition or weather flag. *)
Theorem clean_data_filled (df cleaned : DataFrame) :
  _clean_data df = Ok cleaned ->
  cleaned <> []
  /\ (length cleaned <= length df)%nat
  /\ map (fun r => (date r, airline r, origin r, destination r)) cleaned
     = map (fun r => (date r, airline r, origin r, destination r)) (drop_from [] df)
  /\ Forall filled cleaned.
Proof.
  intros H. pose proof (clean_data_shape df cleaned H) as ->.
  assert (Hne : drop_from [] df <> []).
  { unfold _clean_data, drop_duplicates in H.
    destruct (forallb _ df); [|discriminate]. cbn [rbind] in H.
    now destruct (drop_from [] df). }
  split; [|split; [|split]].
  - destruct (drop_from [] df); [contradiction | discriminate].
  - rewrite length_map. apply drop_from_length.
  - rewrite map_map. reflexivity.
  - apply Forall_map. apply List.Forall_forall. intros r _. unfold filled. cbn.
    repeat split; try discriminate; now apply fill_not_nan.
Qed.

Lemma clean_data_filled_witness :
  Forall filled
    (map (fillna (mean (map f_temperature [Samples.dry_flight; Samples.wet_flight])))
       [Samples.dry_flight; Samples.wet_flight]).
Proof.
  apply (clean_data_filled
           [Samples.dry_flight; Samples.dry_flight; Samples.wet_flight]
           (map (fillna (mean (map f_temperature [Samples.dry_flight; Samples.wet_flight])))
              [Samples.dry_flight; Samples.wet_flight])).
  vm_compute. reflexivity.
Defined.

(** X20. What a store writes can be loaded: after a batch whose cleaning
    returns is stored, [load_sample_data] gives the whole table, the rows
    that were there followed by the cleaned batch, also when there was no
    table before.  With no table, or an empty one, it gives None. *)
Theorem load_sample_data_after_store (st : State) (batch cleaned : DataFrame) :
  _clean_data batch = Ok cleaned ->
  DataProcessor.load_sample_data (db (store batch st)) = Some (table_rows st ++ cleaned)
  /\ DataProcessor.load_sample_data None = None
  /\ DataProcessor.load_sample_data (Some []) = None.
Proof.
  intros H. split; [|split; reflexivity].
  unfold store. rewrite H. cbn [_store_data db]. unfold DataProcessor.load_sample_data.
  cbn [get_stored_data]. unfold table_rows.
  destruct (default [] (db st) ++ cleaned) as [|r rows] eqn:E; [|reflexivity].
  apply app_eq_nil in E as [_ ->].
  unfold _clean_data in H. destruct (drop_duplicates batch) as [[|r df]|e]; discriminate.
Qed.

Lemma load_sample_data_after_store_witness :
  DataProcessor.load_sample_data
    (db (store [Samples.dry_flight]
           (Samples.collector (Samples.world Samples.no_network) None)))
  = Some [Samples.dry_flight].
Proof.
  apply (load_sample_data_after_store
           (Samples.collector (Samples.world Samples.no_network) None)
           [Samples.dry_flight] [Samples.dry_flight]).
  vm_compute. reflexivity.
Defined.

(** ** Dates and their texts *)

Lemma digit_char_compare (i j : Z) :
  0 <= i < 10 -> 0 <= j < 10 ->
  Ascii.compare (ascii_of_nat (48 + Z.to_nat i)) (ascii_of_nat (48 + Z.to_nat j))
  = (i ?= j).
Proof.
  intros Hi Hj.
  assert (Ei : i = 0 \/ i = 1 \/ i = 2 \/ i = 3 \/ i = 4 \/ i = 5 \/ i = 6 \/ i = 7
               \/ i = 8 \/ i = 9) by lia.
  assert (Ej : j = 0 \/ j = 1 \/ j = 2 \/ j = 3 \/ j = 4 \/ j = 5 \/ j = 6 \/ j = 7
               \/ j = 8 \/ j = 9) by lia.
  clear Hi Hj.
  repeat (destruct Ei as [->|Ei]); try subst i;
    repeat (destruct Ej as [->|Ej]); try subst j; reflexivity.
Qed.

Lemma append_cons (c : ascii) (a b : string) : String c a +:+ b = String c (a +:+ b).
Proof. reflexivity. Qed.

Lemma append_nil (b : string) : EmptyString +:+ b = b.
Proof. reflexivity. Qed.

Lemma digit_compare (i j : Z) (s t : string) :
  String.compare (Dates.digit i +:+ s) (Dates.digit j +:+ t)
  = match i mod 10 ?= j mod 10 with
    | Eq => String.compare s t
    | c => c
    end.
Proof.
  unfold Dates.digit. rewrite !append_cons, !append_nil.
  cbn [String.compare].
  rewrite digit_char_compare by (apply Z.mod_pos_bound; lia). reflexivity.
Qed.

Lemma dash_compare (s t : string) :
  String.compare ("-" +:+ s) ("-" +:+ t) = String.compare s t.
Proof. reflexivity. Qed.

Lemma append_assoc (a b c : string) : (a +:+ b) +:+ c = a +:+ (b +:+ c).
Proof.
  induction a as [|x a IH]; [reflexivity|]. now rewrite !append_cons, IH.
Qed.

Lemma append_empty (a : string) : a +:+ EmptyString = a.
Proof.
  induction a as [|x a IH]; [reflexivity|]. now rewrite append_cons, IH.
Qed.

(** The texts of two days compare as their numbers YYYYMMDD. *)
Lemma text_compare (y m d y' m' d' : Z) :
  0 <= y < 10000 -> 0 <= m < 100 -> 0 <= d < 100 ->
  0 <= y' < 10000 -> 0 <= m' < 100 -> 0 <= d' < 100 ->
  String.compare
    (Dates.pad4 y +:+ "-" +:+ Dates.pad2 m +:+ "-" +:+ Dates.pad2 d)
    (Dates.pad4 y' +:+ "-" +:+ Dates.pad2 m' +:+ "-" +:+ Dates.pad2 d')
  = (yyyymmdd (y, m, d) ?= yyyymmdd (y', m', d')).
Proof.
  intros Hy Hm Hd Hy' Hm' Hd'.
  rewrite <- (append_empty (Dates.pad2 d)), <- (append_empty (Dates.pad2 d')).
  unfold Dates.pad4, Dates.pad2. rewrite !append_assoc.
  rewrite !digit_compare, dash_compare, !digit_compare, dash_compare, !digit_compare.
  cbn [String.compare]. unfold yyyymmdd.
  assert (Ey : y = 1000 * ((y / 100 / 10) mod 10) + 100 * ((y / 100) mod 10)
                   + 10 * ((y / 10) mod 10) + y mod 10)
    by (Z.to_euclidean_division_equations; lia).
  assert (Ey' : y' = 1000 * ((y' / 100 / 10) mod 10) + 100 * ((y' / 100) mod 10)
                     + 10 * ((y' / 10) mod 10) + y' mod 10)
    by (Z.to_euclidean_division_equations; lia).
  assert (Em : m = 10 * ((m / 10) mod 10) + m mod 10)
    by (Z.to_euclidean_division_equations; lia).
  assert (Em' : m' = 10 * ((m' / 10) mod 10) + m' mod 10)
    by (Z.to_euclidean_division_equations; lia).
  assert (Ed : d = 10 * ((d / 10) mod 10) + d mod 10)
    by (Z.to_euclidean_division_equations; lia).
  assert (Ed' : d' = 10 * ((d' / 10) mod 10) + d' mod 10)
    by (Z.to_euclidean_division_equations; lia).
  repeat match goal with
  | |- context [?a mod 10] =>
      let R := fresh "R" in
      pose proof (Z.mod_pos_bound a 10 eq_refl) as R;
      let q := fresh "q" in
      generalize dependent (a mod 10); intros q; intros
  end.
  repeat match goal with
  | |- context [?a ?= ?b] =>
      is_var a; is_var b; destruct (Z.compare_spec a b)
  end.
  all: symmetry; first [ apply Z.compare_eq_iff | apply Z.compare_lt_iff | apply Z.compare_gt_iff ];
    lia.
Qed.

Lemma civil_valid (o : Z) :
  is_date o ->
  let '(y, m, d) := Dates.civil o in
  1 <= y <= 9999 /\ 1 <= m <= 12 /\ 1 <= d <= 31 /\ Dates.toordinal y m d = o.
Proof.
  unfold is_date. intros H. unfold Dates.civil, Dates.toordinal. cbv zeta.
  repeat match goal with
  | |- context [Z.ltb ?a ?b] => destruct (Z.ltb_spec a b)
  | |- context [Z.leb ?a ?b] => destruct (Z.leb_spec a b)
  end.
  all: (Z.to_euclidean_division_equations; lia).
Qed.

Lemma civil_era (o : Z) :
  yyyymmdd (Dates.civil o)
  = era_yyyymmdd ((o + 305) mod 146097) + (o + 305) / 146097 * 4000000.
Proof.
  unfold Dates.civil, era_yyyymmdd. cbv zeta.
  replace (o + 305 - (o + 305) / 146097 * 146097) with ((o + 305) mod 146097)
    by (rewrite Z.mod_eq by lia; ring).
  generalize ((o + 305) mod 146097). intros doe.
  repeat match goal with
  | |- context [if ?c then _ else _] => destruct c
  end; unfold yyyymmdd; ring.
Qed.

Lemma increases_from_spec (fuel : nat) (doe : Z) :
  increases_from fuel doe (era_yyyymmdd doe) = true ->
  forall i, doe <= i < doe + Z.of_nat fuel -> era_yyyymmdd i < era_yyyymmdd (i + 1).
Proof.
  revert doe. induction fuel as [|fuel IH]; intros doe H i Hi; [lia|].
  cbn [increases_from] in H. cbv zeta in H. apply andb_true_iff in H as [H1 H2].
  destruct (Z.eq_dec i doe) as [->|Hne]; [now apply Z.ltb_lt|].
  apply (IH (doe + 1) H2). lia.
Qed.

(** Checked on each of the 146097 days of an era. *)
Lemma era_days_increase : increases_from (Z.to_nat 146096) 0 (era_yyyymmdd 0) = true.
Proof. vm_compute. reflexivity. Qed.

Lemma era_yyyymmdd_succ (doe : Z) :
  0 <= doe < 146096 -> era_yyyymmdd doe < era_yyyymmdd (doe + 1).
Proof.
  intros H. apply (increases_from_spec _ _ era_days_increase). lia.
Qed.

(** From a day to the next the number YYYYMMDD goes up. *)
Lemma civil_succ (o : Z) : yyyymmdd (Dates.civil o) < yyyymmdd (Dates.civil (o + 1)).
Proof.
  rewrite !civil_era.
  replace (o + 1 + 305) with (o + 305 + 1) by ring.
  generalize (o + 305). intros z.
  pose proof (Z.mod_pos_bound z 146097 eq_refl) as Hdoe.
  destruct (Z.eq_dec (z mod 146097) 146096) as [Hlast|Hnot].
  - assert (Hq : (z + 1) / 146097 = z / 146097 + 1 /\ (z + 1) mod 146097 = 0)
      by (Z.to_euclidean_division_equations; lia).
    destruct Hq as [-> ->]. rewrite Hlast.
    change (era_yyyymmdd 146096) with 4000229. change (era_yyyymmdd 0) with 301. lia.
  - assert (Hq : (z + 1) / 146097 = z / 146097
                 /\ (z + 1) mod 146097 = z mod 146097 + 1)
      by (Z.to_euclidean_division_equations; lia).
    destruct Hq as [-> ->].
    pose proof (era_yyyymmdd_succ (z mod 146097)). lia.
Qed.

Lemma civil_increasing (a b : Z) :
  a < b -> yyyymmdd (Dates.civil a) < yyyymmdd (Dates.civil b).
Proof.
  intros H. replace b with (a + 1 + Z.of_nat (Z.to_nat (b - a - 1))) by lia.
  generalize (Z.to_nat (b - a - 1)). intros n. induction n as [|n IH].
  - rewrite Z.add_0_r. apply civil_succ.
  - replace (a + 1 + Z.of_nat (S n)) with (a + 1 + Z.of_nat n + 1) by lia.
    pose proof (civil_succ (a + 1 + Z.of_nat n)). lia.
Qed.

(** The texts of two dates compare as the dates do. *)
Lemma isoformat_compare (a b : Dates.date) :
  is_date a -> is_date b ->
  String.compare (Dates.isoformat a) (Dates.isoformat b) = (a ?= b).
Proof.
  intros Ha Hb. destruct (Z.compare_spec a b) as [->|Hlt|Hgt].
  - pose proof (civil_valid b Hb) as Vb. unfold Dates.isoformat.
    destruct (Dates.civil b) as [[y m] d].
    rewrite text_compare by lia. apply Z.compare_refl.
  - pose proof (civil_valid a Ha) as Va. pose proof (civil_valid b Hb) as Vb.
    pose proof (civil_increasing a b Hlt) as Hab. unfold Dates.isoformat.
    destruct (Dates.civil a) as [[y m] d], (Dates.civil b) as [[y' m'] d'].
    rewrite text_compare by lia. now apply Z.compare_lt_iff.
  - pose proof (civil_valid a Ha) as Va. pose proof (civil_valid b Hb) as Vb.
    pose proof (civil_increasing b a Hgt) as Hba. unfold Dates.isoformat.
    destruct (Dates.civil a) as [[y m] d], (Dates.civil b) as [[y' m'] d'].
    rewrite text_compare by lia. now apply Z.compare_gt_iff.
Qed.

Lemma isoformat_leb (a b : Dates.date) :
  is_date a -> is_date b ->
  String.leb (Dates.isoformat a) (Dates.isoformat b) = (a <=? b).
Proof.
  intros Ha Hb. unfold String.leb, Z.leb. rewrite isoformat_compare by assumption.
  now destruct (a ?= b).
Qed.

Lemma date_between_in_range (start_date end_date : Dates.date) (r : FlightRecord) :
  is_date start_date -> is_date end_date -> is_date (date r) ->
  date_between start_date end_date r = in_range start_date end_date r.
Proof.
  intros Hs He Hr. unfold date_between, in_range. now rewrite !isoformat_leb.
Qed.

Lemma filter_date_between (start_date end_date : Dates.date) (rows : list FlightRecord) :
  is_date start_date -> is_date end_date -> Forall (fun r => is_date (date r)) rows ->
  List.filter (date_between start_date end_date) rows
  = List.filter (in_range start_date end_date) rows.
Proof.
  intros Hs He Hrows. induction Hrows as [|r rows Hr _ IH]; [reflexivity|].
  cbn [List.filter]. rewrite IH, date_between_in_range by assumption. reflexivity.
Qed.

(** X21. The range query compares the texts of the dates, and on dates
    this is the comparison of the days: with both bounds given,
    [get_stored_data] returns exactly the rows of the table dated from the
    start to the end, both included, in the order of the table. *)
Theorem get_stored_data_range (start_date end_date : Dates.date)
    (rows : list FlightRecord) :
  is_date start_date -> is_date end_date ->
  Forall (fun r => is_date (date r)) rows ->
  get_stored_data (Some start_date) (Some end_date) (Some rows)
  = Ok (List.filter (in_range start_date end_date) rows)
  /\ forall stored,
       get_stored_data (Some start_date) (Some end_date) (Some rows) = Ok stored ->
       forall r, In r stored <-> In r rows /\ start_date <= date r <= end_date.
Proof.
  intros Hs He Hrows.
  assert (E : get_stored_data (Some start_date) (Some end_date) (Some rows)
              = Ok (List.filter (in_range start_date end_date) rows)).
  { cbn [get_stored_data]. now rewrite filter_date_between. }
  split; [exact E|]. intros stored Hstored r. rewrite E in Hstored.
  injection Hstored as <-. rewrite filter_In. unfold in_range.
  rewrite andb_true_iff, !Z.leb_le. tauto.
Qed.

Lemma get_stored_data_range_witness :
  get_stored_data (Some Samples.dec_11) (Some Samples.dec_11)
    (Some [Samples.late_flight; Samples.dry_flight; Samples.wet_flight])
  = Ok [Samples.dry_flight; Samples.wet_flight].
Proof.
  apply (get_stored_data_range Samples.dec_11 Samples.dec_11
           [Samples.late_flight; Samples.dry_flight; Samples.wet_flight]).
  - unfold is_date. split; vm_compute; discriminate.
  - unfold is_date. split; vm_compute; discriminate.
  - repeat constructor; vm_compute; discriminate.
Defined.

(** ** A forced initialization with the network down *)

Lemma at_least_for_each {A B} (c : A -> nat) (l : list A) (body : A -> R (list B)) :
  (forall a, In a l -> at_least (c a) (body a)) ->
  at_least (list_sum (map c l)) (for_each l body).
Proof.
  induction l as [|a l IH]; intros Hbody; cbn [for_each map list_sum fold_right].
  - intros n rows n' _. lia.
  - intros n rows n'. unfold rbindR at 1.
    destruct (body a n) as [[rows1|e] n1] eqn:E1; [|discriminate].
    unfold rbindR at 1.
    destruct (bound_after rows1 (for_each l body) n1) as [[rows2|e] n2] eqn:E2;
      [|discriminate].
    apply bound_after_ok in E2.
    intros [= <- _]. rewrite length_app.
    pose proof (Hbody a (or_introl eq_refl) _ _ _ E1).
    pose proof (IH (fun a' H => Hbody a' (or_intror H)) _ _ _ E2).
    change (c a + list_sum (map c l) <= length rows1 + length rows2)%nat. lia.
Qed.

Lemma generate_flight_data_busy env weather_data target_date n rows n' :
  busy env ->
  _generate_flight_data env weather_data target_date n = (Ok rows, n') ->
  (100 <= length rows)%nat.
Proof.
  intros Hbusy E. unfold _generate_flight_data in E.
  apply (at_least_for_each (fun _ => 20%nat)) in E; [exact E|].
  intros airline0 _ k rows1 k' E1.
  apply (at_least_for_each (fun _ => 4%nat)) in E1; [exact E1|].
  intros [origin0 oc] Ho k2 rows2 k2' E2.
  apply (at_least_for_each
           (fun a : string * Coordinates =>
              if negb (String.eqb origin0 (fst a)) then 1%nat else 0%nat)) in E2.
  - etransitivity; [|exact E2]. clear E2.
    repeat (destruct Ho as [[= <- <-]|Ho]; [cbn; lia|]). destruct Ho.
  - intros [dest dc] _. cbn [fst].
    destruct (negb (String.eqb origin0 dest)); [|intros ? ? ? _; lia].
    intros k3 rows3 k3'. unfold rbindR at 1, draw_int at 1. intros E3.
    apply counts_repeat_times in E3. rewrite E3.
    specialize (Hbusy k3). lia.
Qed.

Lemma default_snapshot_usable (s : Service) : precipitation_usable (default_weather s).
Proof. left. reflexivity. Qed.

(** One day of a collection with the network down: the day gives a frame. *)
Lemma collect_day_network_down env d all_data st :
  network_down env -> busy env -> cache (service st) = ∅ ->
  exists daily st',
    collect_day env d (all_data, st) = (all_data ++ [daily], st')
    /\ daily <> [] /\ cache (service st') = ∅.
Proof.
  intros Hdown Hbusy Hempty. unfold collect_day. cbn [add_log service rng db log].
  destruct (get_bulk_weather_network_down env AIRPORT_COORDINATES (Dates.midnight d) ∅
              (service st) Hdown Hempty) as [Hcache Hdefault].
  destruct (get_bulk_weather env AIRPORT_COORDINATES _ _ _) as [weather_data svc].
  cbn [fst snd] in *.
  destruct (generate_flight_data_returns env weather_data d) with (n := rng st)
    as (daily & n' & E).
  { intros code w Hw. destruct (Hdefault code w Hw) as [->|Habs].
    - apply default_snapshot_usable.
    - rewrite lookup_empty in Habs. discriminate. }
  rewrite E. exists daily. eexists. split; [reflexivity|]. split; [|exact Hcache].
  pose proof (generate_flight_data_busy env _ _ _ _ _ Hbusy E) as Hlen.
  intros ->. cbn in Hlen. lia.
Qed.

Lemma collect_days_network_down env days all_data st :
  network_down env -> busy env -> cache (service st) = ∅ ->
  exists frames st',
    fold_left (fun acc d => collect_day env d acc) days (all_data, st)
    = (all_data ++ frames, st')
    /\ length frames = length days
    /\ Forall (fun daily => daily <> []) frames.
Proof.
  intros Hdown Hbusy. revert all_data st.
  induction days as [|d days IH]; intros all_data st Hempty; cbn [fold_left].
  - exists [], st. rewrite app_nil_r. split; [reflexivity|]. split; [reflexivity|constructor].
  - destruct (collect_day_network_down env d all_data st Hdown Hbusy Hempty)
      as (daily & st1 & -> & Hne & Hcache).
    destruct (IH (all_data ++ [daily]) st1 Hcache) as (frames & st' & -> & Hlen & Hall).
    exists (daily :: frames), st'. rewrite <- app_assoc.
    split; [reflexivity|]. split; [cbn; now rewrite Hlen|]. now constructor.
Qed.

Lemma default_conditions_hashable (r : FlightRecord) :
  default_conditions r -> hashable (f_wind_direction r) && hashable (f_humidity r) = true.
Proof. intros (_ & _ & _ & _ & -> & _ & _ & -> & _). reflexivity. Qed.

Lemma clean_data_returns (df : DataFrame) :
  df <> [] ->
  Forall (fun r => hashable (f_wind_direction r) && hashable (f_humidity r) = true) df ->
  exists cleaned, _clean_data df = Ok cleaned /\ cleaned <> [].
Proof.
  intros Hne Hhash. unfold _clean_data, drop_duplicates.
  rewrite (proj2 (forallb_forall _ df)) by (now apply List.Forall_forall).
  cbn [rbind]. destruct df as [|r df]; [contradiction|].
  cbn [drop_from existsb]. eexists. split; [reflexivity|]. discriminate.
Qed.

Lemma filter_all {A} (f : A -> bool) (l : list A) :
  (forall x, In x l -> f x = true) -> List.filter f l = l.
Proof.
  induction l as [|x l IH]; intros H; cbn [List.filter]; [reflexivity|].
  rewrite (H x (or_introl eq_refl)), IH; [reflexivity|].
  intros y Hy. apply H. now right.
Qed.

Lemma scheduled_between_is_date(start_date end_date : Dates.date) (r : FlightRecord) :
  is_date start_date -> is_date end_date ->
  scheduled_between start_date end_date r ->
  is_date (date r) /\ in_range start_date end_date r = true.
Proof.
  unfold is_date, scheduled_between, in_range. intros Hs He [Hr _].
  split; [lia|]. apply andb_true_iff. split; apply Z.leb_le; lia.
Qed.

(** X22. With the network down, nothing cached and at least one flight
    drawn for each route, a forced initialization does not fail: it empties
    the table, collects the 370 days, stores the cleaned rows and returns
    them.  What it returns is the whole table, is not empty, and every row
    is a flight of the network dated within the 370 days that carries the
    weather of the default snapshot. *)
Theorem initialize_historical_data_network_down (env : Env) (st : State) :
  network_down env -> busy env -> cache (service st) = ∅ ->
  exists rows st',
    initialize_historical_data env true st = (Ok rows, st')
    /\ rows <> []
    /\ db st' = Some rows
    /\ Forall default_conditions rows
    /\ Forall (scheduled_between (Dates.toordinal 2024 12 13 - 369)
                 (Dates.toordinal 2024 12 13)) rows.
Proof.
  intros Hdown Hbusy Hempty. unfold initialize_historical_data. cbv zeta.
  set (end_date := Dates.toordinal 2024 12 13).
  set (start_date := end_date - 369).
  set (st0 := init_database (add_log Reinitializing st)).
  assert (Hempty0 : cache (service st0) = ∅) by exact Hempty.
  destruct (collect_and_store_data_scheduled env start_date end_date st0)
    as (new & Enew & Hsched).
  destruct (collect_and_store_data_default_conditions env start_date end_date st0
              Hdown Hempty0) as (new' & Enew' & Hdefault).
  rewrite Enew in Enew'. apply app_inv_head in Enew'. subst new'.
  change (table_rows st0) with (@nil FlightRecord) in Enew. cbn [app] in Enew.
  (* the table after the collection is not empty *)
  assert (Hdb : db (collect_and_store_data env (Some start_date) (Some end_date) st0)
                = Some new /\ new <> []).
  { unfold table_rows in Enew. rewrite collect_and_store_data_db in Enew |- *.
    destruct (collect_days_network_down env (days_from start_date end_date) [] st0
                Hdown Hbusy Hempty0) as (frames & st' & Efold & Hlen & Hframes).
    destruct (collect_days_rows env (fun svc => cache svc = ∅) default_conditions
                (days_from start_date end_date)
                (network_down_day env Hdown (days_from start_date end_date))
                ([], st0) Hempty0 (List.Forall_nil _)) as [_ Hrows].
    pose proof (eq_ind _ (fun acc => Forall (Forall default_conditions) (fst acc))
                  Hrows _ Efold) as Hrows'.
    clear Hrows. rename Hrows' into Hrows.
    rewrite Efold in Enew |- *. cbn [app fst] in *.
    rewrite days_from_length in Hlen.
    change (Z.to_nat (end_date - start_date + 1)) with 370%nat in Hlen.
    destruct frames as [|daily frames]; [discriminate Hlen|].
    destruct (clean_data_returns (concat (daily :: frames))) as (cleaned & Hclean & Hne).
    - inversion Hframes as [|? ? Hdaily _]; subst. cbn [concat].
      destruct daily; [contradiction | discriminate].
    - apply List.Forall_forall. intros r Hr. apply default_conditions_hashable.
      apply in_concat in Hr as (frame & Hf & Hr).
      rewrite List.Forall_forall in Hrows. specialize (Hrows frame Hf).
      rewrite List.Forall_forall in Hrows. now apply Hrows.
    - rewrite Hclean in Enew |- *. cbn in Enew. subst new. now split. }
  destruct Hdb as [Hdb Hne]. rewrite Hdb.
  assert (Efilter : List.filter (date_between start_date end_date) new = new).
  { rewrite filter_date_between.
    - apply filter_all. intros r Hr.
      rewrite List.Forall_forall in Hsched.
      apply (scheduled_between_is_date start_date end_date r);
        [split; vm_compute; discriminate | split; vm_compute; discriminate | now apply Hsched].
    - split; vm_compute; discriminate.
    - split; vm_compute; discriminate.
    - eapply List.Forall_impl; [|exact Hsched]. intros r Hr.
      apply (scheduled_between_is_date start_date end_date r);
        [split; vm_compute; discriminate | split; vm_compute; discriminate | exact Hr]. }
  cbn [get_stored_data]. rewrite Efilter.
  destruct new as [|r new]; [contradiction|].
  eexists _, _. split; [reflexivity|]. repeat split; assumption.
Qed.

Lemma initialize_historical_data_network_down_witness :
  exists rows st',
    initialize_historical_data (Samples.world Samples.no_network) true
      (Samples.collector (Samples.world Samples.no_network) None) = (Ok rows, st')
    /\ rows <> [].
Proof.
  destruct (initialize_historical_data_network_down (Samples.world Samples.no_network)
              (Samples.collector (Samples.world Samples.no_network) None))
    as (rows & st' & E & Hne & _).
  - intros n url. reflexivity.
  - intros k. cbn. lia.
  - reflexivity.
  - exists rows, st'. now split.
Defined.

(** ** A bulk fetch never finds its cache entries *)

Lemma airport_code_length (code : string) :
  In code airport_codes -> String.length code = 3%nat.
Proof.
  intros H. cbn in H. repeat (destruct H as [<-|H]; [reflexivity|]). destruct H.
Qed.

Lemma keyed_by_code_miss (s : Service) (code : string) (target : Dates.datetime) :
  keyed_by_code s -> In code airport_codes ->
  cache s !! cache_key code target = None.
Proof.
  intros Hs Hcode. destruct (cache s !! cache_key code target) as [entry|] eqn:E;
    [|reflexivity].
  apply Hs, airport_code_length in E. unfold cache_key in E.
  rewrite !string_length_app, (airport_code_length code Hcode) in E. cbn in E. lia.
Qed.

Lemma get_weather_keyed_by_code env code airport_data target_date s :
  keyed_by_code s -> In code airport_codes ->
  keyed_by_code (snd (get_weather env code airport_data target_date s)).
Proof.
  intros Hs Hcode.
  assert (H : forall key,
             cache (snd (get_weather env code airport_data target_date s)) !! key <> None ->
             cache s !! key <> None \/ key = code).
  { apply (preserves_get_weather env code
             (fun s s' => forall key, cache s' !! key <> None ->
                                      cache s !! key <> None \/ key = code)).
    - intros s0 key H. now left.
    - intros s1 s2 s3 H12 H23 key H. apply H23 in H as [H|H]; [now apply H12 | now right].
    - intros s0 key H. now left.
    - intros url s0 key H. now left.
    - intros entry s0 key. cbn [cache]. destruct (decide (code = key)) as [->|Hne].
      + now right.
      + rewrite lookup_insert_ne by exact Hne. now left. }
  intros key entry E.
  destruct (H key) as [Hold| ->]; [congruence | | exact Hcode].
  destruct (cache s !! key) as [old|] eqn:Eold; [|contradiction].
  eapply Hs, Eold.
Qed.

Lemma get_bulk_weather_misses env airports target weather_data s :
  keyed_by_code s ->
  (forall code, In code (map fst airports) -> In code airport_codes) ->
  keyed_by_code (snd (get_bulk_weather env airports (Some target) weather_data s))
  /\ exists more,
       requests (snd (get_bulk_weather env airports (Some target) weather_data s))
       = requests s ++ more
       /\ (length airports <= length more <= 3 * length airports)%nat.
Proof.
  revert weather_data s.
  induction airports as [|[code data] airports IH]; intros weather_data s Hs Hcodes.
  - split; [exact Hs|]. exists []. cbn. rewrite app_nil_r. split; [reflexivity | lia].
  - cbn [get_bulk_weather].
    assert (Hcode : In code airport_codes) by (apply Hcodes; now left).
    pose proof (get_weather_keyed_by_code env code data (Some target) s Hs Hcode) as Hs1.
    destruct (get_weather_miss_sends env code data target s
                (keyed_by_code_miss s code target Hs Hcode)) as (more0 & E0).
    destruct (sends_get_weather env code data (Some target) s) as (more1 & E1 & L1).
    destruct (get_weather env code data (Some target) s) as [fetched s1].
    cbn [snd] in *.
    match goal with
    | |- context [get_bulk_weather env airports (Some target) ?w s1] =>
        destruct (IH w s1 Hs1) as (Hs2 & more2 & E2 & L2)
    end.
    { intros c Hc. apply Hcodes. now right. }
    split; [exact Hs2|]. exists (more1 ++ more2).
    rewrite E2, E1, <- app_assoc, length_app. split; [reflexivity|].
    assert (1 <= length more1)%nat.
    { rewrite E1 in E0. apply app_inv_head in E0. subst more1. cbn. lia. }
    cbn [length]. lia.
Qed.

Lemma collect_days_requests env days all_data st :
  keyed_by_code (service st) ->
  let after := snd (fold_left (fun acc d => collect_day env d acc) days (all_data, st)) in
  keyed_by_code (service after)
  /\ exists more,
       requests (service after) = requests (service st) ++ more
       /\ (5 * length days <= length more <= 15 * length days)%nat.
Proof.
  revert all_data st. induction days as [|d days IH]; intros all_data st Hs; cbn [fold_left].
  - split; [exact Hs|]. exists []. cbn. rewrite app_nil_r. split; [reflexivity | lia].
  - destruct (get_bulk_weather_misses env AIRPORT_COORDINATES (Dates.midnight d) ∅
                (service st) Hs (fun code H => H)) as (Hs1 & more1 & E1 & L1).
    assert (Hday : exists all_data1 st1,
               collect_day env d (all_data, st) = (all_data1, st1)
               /\ service st1
                  = snd (get_bulk_weather env AIRPORT_COORDINATES
                           (Some (Dates.midnight d)) ∅ (service st))).
    { unfold collect_day. cbn [add_log service rng db log].
      destruct (get_bulk_weather env AIRPORT_COORDINATES _ _ _) as [weather_data svc].
      destruct (_generate_flight_data env weather_data d (rng st)) as [[daily|e] n];
        now eexists _, _. }
    destruct Hday as (all_data1 & st1 & -> & Hsvc).
    rewrite <- Hsvc in Hs1, E1.
    destruct (IH all_data1 st1 Hs1) as (Hs2 & more2 & E2 & L2).
    split; [exact Hs2|]. exists (more1 ++ more2).
    rewrite E2, E1, <- app_assoc, length_app. split; [reflexivity|].
    change (length AIRPORT_COORDINATES) with 5%nat in L1. cbn [length]. lia.
Qed.

(** X23. An entry is stored under the bare airport code and looked up
    under code, underscore and day, so a collection never finds what it
    stored: on every day every airport is asked for again.  From a service
    whose cache has only such entries (a new service has none), a collection
    over a range of days sends at least 5 and at most 15 requests per day. *)
Theorem collect_and_store_data_requests (env : Env) (start_date end_date : Dates.date)
    (st : State) :
  keyed_by_code (service st) ->
  let after := collect_and_store_data env (Some start_date) (Some end_date) st in
  let days := Z.to_nat (end_date - start_date + 1) in
  keyed_by_code (service after)
  /\ exists more,
       requests (service after) = requests (service st) ++ more
       /\ (5 * days <= length more <= 15 * days)%nat.
Proof.
  intros Hs after days. unfold after, collect_and_store_data. cbn [from_option id].
  pose proof (collect_days_requests env (days_from start_date end_date) [] st Hs) as H.
  cbv zeta in H. rewrite days_from_length in H. fold days in H.
  destruct (fold_left _ (days_from start_date end_date) ([], st)) as [all_data st'].
  cbn [snd] in H.
  destruct all_data as [|daily all_data]; [exact H|].
  destruct (_clean_data _); exact H.
Qed.

Lemma collect_and_store_data_requests_witness :
  let env := Samples.world Samples.no_network in
  exists more,
    requests (service (collect_and_store_data env (Some Samples.dec_11)
                         (Some (Samples.dec_11 + 1)) (Samples.collector env None)))
    = [] ++ more
    /\ (10 <= length more <= 30)%nat.
Proof.
  intros env.
  apply (collect_and_store_data_requests env Samples.dec_11 (Samples.dec_11 + 1)
           (Samples.collector env None)).
  intros key entry H. cbn in H. rewrite lookup_empty in H. discriminate.
Defined.

(** ** The lower bound of a prediction *)

(** X26. Whatever the model predicts, also a negative delay or no number
    at all, a prediction is returned for a date and its lower bound is not
    negative. *)
Theorem predict_with_interval_lower_bound (df : DataFrame) (model : Model)
    (temp precip : float) (d : Dates.date) (confidence : float) :
  exists p,
    predict_with_interval df model temp precip (Some d) confidence = Ok p
    /\ PrimFloat.leb 0 (lower_bound p) = true
    /\ PrimFloat.is_nan (lower_bound p) = false.
Proof.
  eexists. split; [reflexivity|]. cbn [lower_bound].
  split; [apply max0_nonneg|].
  unfold max0. destruct (PrimFloat.ltb 0 _) eqn:E; [|reflexivity].
  eapply float_lt_not_nan, E.
Qed.
